(** * Stream-to-event reconstruction of oai-compatible-copilot

  A shallow embedding of the streaming parsers of the extension:

  - [Kimi]: the sentinel-token parser of [src/kimiToolParser.ts]
    (class [KimiToolStreamingParser]);
  - [Provider]: the delta classifier, tool-call buffer manager and
    tag parser of [src/provider.ts] (class [HuggingFaceChatModelProvider]);
  - [Coalescer]: the revision of the same class that coalesces reasoning
    text ([_reasoningTextBuffer], [flushReasoningBuffer]).

  JavaScript strings are modelled by [string]; one character stands for
  one code unit.  Mutable fields of a class become fields of a record
  that every method takes and returns; the sink [progress.report] is the
  list of parts reported so far. *)

From Stdlib Require Import String Ascii List Arith Bool Lia PeanoNat ZArith
  DecimalString.
Import ListNotations.

Local Open Scope list_scope.
Local Open Scope string_scope.
Local Open Scope nat_scope.

(** ** JavaScript string primitives *)

Module JSString.

(** [s.slice(0, n)] for [0 <= n]. *)
Fixpoint take (n : nat) (s : string) : string :=
  match n, s with
  | O, _ => EmptyString
  | S _, EmptyString => EmptyString
  | S n', String c s' => String c (take n' s')
  end.

(** [s.substring(n)] / [s.slice(n)] for [0 <= n]. *)
Fixpoint drop (n : nat) (s : string) : string :=
  match n, s with
  | O, _ => s
  | S _, EmptyString => EmptyString
  | S n', String _ s' => drop n' s'
  end.

(** [s.substring(a, b)]: both indices are clamped to the length and
    swapped when [a > b]. *)
Definition substring (s : string) (a b : nat) : string :=
  take (Nat.max a b - Nat.min a b) (drop (Nat.min a b) s).

(** [s.startsWith(t)]. *)
Fixpoint startsWith (t s : string) : bool :=
  match t, s with
  | EmptyString, _ => true
  | String _ _, EmptyString => false
  | String a t', String b s' => Ascii.eqb a b && startsWith t' s'
  end.

(** [s.indexOf(t)]; [None] stands for [-1]. *)
Fixpoint indexOf (t s : string) : option nat :=
  if startsWith t s then Some 0
  else match s with
       | EmptyString => None
       | String _ s' => option_map S (indexOf t s')
       end.

(** [s.includes(t)]. *)
Definition includes (t s : string) : bool :=
  match indexOf t s with Some _ => true | None => false end.

(** White space removed by [String.prototype.trim], among the code
    units below 256: TAB, LF, VT, FF, CR, SPACE and NBSP. *)
Definition isWhiteSpace (c : ascii) : bool :=
  let n := nat_of_ascii c in
  (9 <=? n) && (n <=? 13) || (n =? 32) || (n =? 160).

Fixpoint trimStart (s : string) : string :=
  match s with
  | EmptyString => EmptyString
  | String c s' => if isWhiteSpace c then trimStart s' else s
  end.

(** [trimEnd] keeps a character when it is not white space or when
    something survives after it. *)
Fixpoint trimEnd (s : string) : string :=
  match s with
  | EmptyString => EmptyString
  | String c s' =>
      match trimEnd s' with
      | EmptyString => if isWhiteSpace c then EmptyString else String c EmptyString
      | r => String c r
      end
  end.

(** [s.trim()]. *)
Definition trim (s : string) : string := trimEnd (trimStart s).

(** [s.split(sep)] for a non-empty separator.  [skip] counts the
    characters of a separator just matched that are still to be passed
    over; [acc] is the current piece, reversed. *)
Fixpoint revString (acc : list ascii) (r : string) : string :=
  match acc with
  | [] => r
  | c :: acc' => revString acc' (String c r)
  end.

Fixpoint split_go (sep : string) (skip : nat) (acc : list ascii) (s : string)
  : list string :=
  match s with
  | EmptyString => [revString acc EmptyString]
  | String c s' =>
      match skip with
      | S k => split_go sep k acc s'
      | O =>
          if startsWith sep s
          then revString acc EmptyString :: split_go sep (String.length sep - 1) [] s'
          else split_go sep 0 (c :: acc) s'
      end
  end.

Definition split (sep s : string) : list string := split_go sep 0 [] s.

(** Truthiness of a string: non-empty. *)
Definition truthy (s : string) : bool :=
  match s with EmptyString => false | _ => true end.

(** Truthiness of an optional string ([undefined] is falsy). *)
Definition truthyOpt (o : option string) : bool :=
  match o with Some s => truthy s | None => false end.

(** Concatenation of a list of strings, [parts.join("")]. *)
Fixpoint join (l : list string) : string :=
  match l with
  | [] => EmptyString
  | s :: r => s ++ join r
  end.

End JSString.

(** ** The sentinel-token parser, [src/kimiToolParser.ts] *)

Module Kimi.
Import JSString.

(** [StreamResult.type]. *)
Inductive ResultType := text | tool | thinking.

Record ToolCall := { name : string; arguments : string }.

Record StreamResult := {
  type : ResultType;
  content : option string;
  toolCall : option ToolCall
}.

(** The fields of [KimiToolStreamingParser]. *)
Record Parser := {
  buffer : string;
  inToolSection : bool;
  inToolCall : bool;
  inArguments : bool;
  currentToolName : string;
  currentToolArgs : string
}.

(** A freshly constructed parser. *)
Definition init : Parser :=
  {| buffer := ""; inToolSection := false; inToolCall := false;
     inArguments := false; currentToolName := ""; currentToolArgs := "" |}.

Definition SECTION_BEGIN := "<|tool_calls_section_begin|>".
Definition CALL_BEGIN := "<|tool_call_begin|>".
Definition ARG_BEGIN := "<|tool_call_argument_begin|>".
Definition CALL_END := "<|tool_call_end|>".

(** The [for] loop of [findPartialMatch], counting [i] down to 1. *)
Fixpoint findPartialMatch_loop (i : nat) (text token : string) : nat :=
  match i with
  | O => 0
  | S j =>
      if String.eqb (drop (String.length text - i) text) (substring token 0 i)
      then i
      else findPartialMatch_loop j text token
  end.

Definition findPartialMatch (text token : string) : nat :=
  let maxLen := Nat.min (String.length text) (String.length token - 1) in
  findPartialMatch_loop maxLen text token.

(** [j] trailing characters of [text] are the first [j] characters of
    [token], with [j] at most [len(token) - 1]. *)
Definition Candidate (text token : string) (j : nat) : Prop :=
  j <= String.length text /\ j <= String.length token - 1 /\
  drop (String.length text - j) text = take j token.

Definition set_buffer (p : Parser) (b : string) : Parser :=
  {| buffer := b; inToolSection := inToolSection p; inToolCall := inToolCall p;
     inArguments := inArguments p; currentToolName := currentToolName p;
     currentToolArgs := currentToolArgs p |}.

Definition thinkingResult (c : string) : StreamResult :=
  {| type := thinking; content := Some c; toolCall := None |}.

Definition toolResult (n a : string) : StreamResult :=
  {| type := tool; content := None;
     toolCall := Some {| name := n; arguments := a |} |}.

(** One pass through the body of the [while] loop of [processChunk]:
    the new parser, the results pushed, and [processedSomething]. *)
Definition iteration (p : Parser) : Parser * list StreamResult * bool :=
  let buf := buffer p in
  if negb (inToolSection p) then
    match indexOf SECTION_BEGIN buf with
    | Some beginIndex =>
        let pushed :=
          if 0 <? beginIndex then [thinkingResult (substring buf 0 beginIndex)]
          else [] in
        ({| buffer := drop (beginIndex + String.length SECTION_BEGIN) buf;
            inToolSection := true; inToolCall := inToolCall p;
            inArguments := inArguments p;
            currentToolName := currentToolName p;
            currentToolArgs := currentToolArgs p |}, pushed, true)
    | None =>
        let potentialSuffix := findPartialMatch buf SECTION_BEGIN in
        if 0 <? potentialSuffix then
          let safeLength := String.length buf - potentialSuffix in
          if 0 <? safeLength then
            (set_buffer p (drop safeLength buf),
             [thinkingResult (substring buf 0 safeLength)], false)
          else (p, [], false)
        else (set_buffer p "", [thinkingResult buf], true)
    end
  else if negb (inToolCall p) then
    match indexOf CALL_BEGIN buf with
    | Some callIndex =>
        ({| buffer := drop (callIndex + String.length CALL_BEGIN) buf;
            inToolSection := inToolSection p; inToolCall := true;
            inArguments := inArguments p;
            currentToolName := ""; currentToolArgs := "" |}, [], true)
    | None => (p, [], false)
    end
  else if negb (inArguments p) then
    match indexOf ARG_BEGIN buf with
    | Some argIndex =>
        ({| buffer := drop (argIndex + String.length ARG_BEGIN) buf;
            inToolSection := inToolSection p; inToolCall := inToolCall p;
            inArguments := true;
            currentToolName := currentToolName p ++ substring buf 0 argIndex;
            currentToolArgs := currentToolArgs p |}, [], true)
    | None =>
        let potentialSuffix := findPartialMatch buf ARG_BEGIN in
        if 0 <? potentialSuffix then
          ({| buffer := drop (String.length buf - potentialSuffix) buf;
              inToolSection := inToolSection p; inToolCall := inToolCall p;
              inArguments := inArguments p;
              currentToolName :=
                currentToolName p
                ++ substring buf 0 (String.length buf - potentialSuffix);
              currentToolArgs := currentToolArgs p |}, [], false)
        else
          ({| buffer := "";
              inToolSection := inToolSection p; inToolCall := inToolCall p;
              inArguments := inArguments p;
              currentToolName := currentToolName p ++ buf;
              currentToolArgs := currentToolArgs p |}, [], false)
    end
  else
    match indexOf CALL_END buf with
    | Some endIndex =>
        let args := currentToolArgs p ++ substring buf 0 endIndex in
        ({| buffer := drop (endIndex + String.length CALL_END) buf;
            inToolSection := inToolSection p; inToolCall := false;
            inArguments := false;
            currentToolName := currentToolName p;
            currentToolArgs := args |},
         [toolResult (trim (currentToolName p)) (trim args)], true)
    | None =>
        let potentialSuffix := findPartialMatch buf CALL_END in
        if 0 <? potentialSuffix then
          ({| buffer := drop (String.length buf - potentialSuffix) buf;
              inToolSection := inToolSection p; inToolCall := inToolCall p;
              inArguments := inArguments p;
              currentToolName := currentToolName p;
              currentToolArgs :=
                currentToolArgs p
                ++ substring buf 0 (String.length buf - potentialSuffix) |},
           [], false)
        else
          ({| buffer := "";
              inToolSection := inToolSection p; inToolCall := inToolCall p;
              inArguments := inArguments p;
              currentToolName := currentToolName p;
              currentToolArgs := currentToolArgs p ++ buf |}, [], false)
    end.

(** [while (processedSomething && this.buffer.length > 0)].  Every pass
    that sets [processedSomething] shortens the buffer, so a fuel of
    one more than the buffer length is never used up
    (see [KimiFacts.loop_fuel]). *)
Fixpoint loop (fuel : nat) (p : Parser) (results : list StreamResult)
  : Parser * list StreamResult :=
  match fuel with
  | O => (p, results)
  | S fuel' =>
      if String.length (buffer p) =? 0 then (p, results)
      else
        let '(p', pushed, processedSomething) := iteration p in
        if processedSomething then loop fuel' p' (results ++ pushed)%list
        else (p', (results ++ pushed)%list)
  end.

Definition run (p : Parser) : Parser * list StreamResult :=
  loop (S (String.length (buffer p))) p [].

Definition processChunk (p : Parser) (chunk : string)
  : Parser * list StreamResult :=
  run (set_buffer p (buffer p ++ chunk)).

Definition flush (p : Parser) : Parser * list StreamResult :=
  if 0 <? String.length (buffer p)
  then (set_buffer p "", [thinkingResult (buffer p)])
  else (p, []).

(** [processChunk] over the fragments of a stream, in order. *)
Fixpoint processChunks (p : Parser) (chunks : list string)
  : Parser * list StreamResult :=
  match chunks with
  | [] => (p, [])
  | c :: rest =>
      let '(p1, r1) := processChunk p c in
      let '(p2, r2) := processChunks p1 rest in
      (p2, (r1 ++ r2)%list)
  end.

(** The whole stream: every fragment, then [flush]. *)
Definition processStream (chunks : list string) : list StreamResult :=
  let '(p, r) := processChunks init chunks in
  (r ++ snd (flush p))%list.

(** The contents of the results that carry one, concatenated. *)
Fixpoint contents (rs : list StreamResult) : string :=
  match rs with
  | [] => ""
  | r :: rest =>
      match content r with
      | Some c => c ++ contents rest
      | None => contents rest
      end
  end.

(** The content of a [thinking] result. *)
Definition thinkingContent (r : StreamResult) : option string :=
  match type r, content r, toolCall r with
  | thinking, Some c, None => Some c
  | _, _, _ => None
  end.

(** Adjacent content results merged into one: what a consumer observes
    when it ignores where the emissions were cut. *)
Fixpoint coalesce (rs : list StreamResult) : list StreamResult :=
  match rs with
  | [] => []
  | r :: rest =>
      match thinkingContent r, coalesce rest with
      | Some c, r' :: rest' =>
          match thinkingContent r' with
          | Some c' => thinkingResult (c ++ c') :: rest'
          | None => r :: r' :: rest'
          end
      | _, rs' => r :: rs'
      end
  end.

(** A result whose content, if any, does not contain the section-begin
    sentinel. *)
Definition clean (r : StreamResult) : Prop :=
  match content r with
  | Some c => includes SECTION_BEGIN c = false
  | None => True
  end.

(** *** Views of the loop body used in the proofs

    [sentinel p] is the token the parser searches for in its state;
    [found p n] is the effect of one pass when that token starts at
    index [n] of the buffer, [absorb p out keep] the effect of a pass
    that consumes [out] and withholds [keep].
    [KimiFacts.iteration_found_view] and
    [KimiFacts.iteration_absent_view] relate them to [iteration]. *)

Definition feed (p : Parser) (c : string) : Parser :=
  set_buffer p (buffer p ++ c).

Definition sentinel (p : Parser) : string :=
  if negb (inToolSection p) then SECTION_BEGIN
  else if negb (inToolCall p) then CALL_BEGIN
  else if negb (inArguments p) then ARG_BEGIN
  else CALL_END.

Definition found (p : Parser) (n : nat) : Parser * list StreamResult :=
  let buf := buffer p in
  let rest := drop (n + String.length (sentinel p)) buf in
  if negb (inToolSection p) then
    ({| buffer := rest; inToolSection := true; inToolCall := inToolCall p;
        inArguments := inArguments p; currentToolName := currentToolName p;
        currentToolArgs := currentToolArgs p |},
     if 0 <? n then [thinkingResult (take n buf)] else [])
  else if negb (inToolCall p) then
    ({| buffer := rest; inToolSection := inToolSection p; inToolCall := true;
        inArguments := inArguments p; currentToolName := "";
        currentToolArgs := "" |}, [])
  else if negb (inArguments p) then
    ({| buffer := rest; inToolSection := inToolSection p;
        inToolCall := inToolCall p; inArguments := true;
        currentToolName := currentToolName p ++ take n buf;
        currentToolArgs := currentToolArgs p |}, [])
  else
    ({| buffer := rest; inToolSection := inToolSection p; inToolCall := false;
        inArguments := false; currentToolName := currentToolName p;
        currentToolArgs := currentToolArgs p ++ take n buf |},
     [toolResult (trim (currentToolName p))
        (trim (currentToolArgs p ++ take n buf))]).

Definition absorb (p : Parser) (out keep : string)
  : Parser * list StreamResult :=
  if negb (inToolSection p) then
    (set_buffer p keep,
     if 0 <? String.length out then [thinkingResult out] else [])
  else if negb (inToolCall p) then (set_buffer p keep, [])
  else if negb (inArguments p) then
    ({| buffer := keep; inToolSection := inToolSection p;
        inToolCall := inToolCall p; inArguments := inArguments p;
        currentToolName := currentToolName p ++ out;
        currentToolArgs := currentToolArgs p |}, [])
  else
    ({| buffer := keep; inToolSection := inToolSection p;
        inToolCall := inToolCall p; inArguments := inArguments p;
        currentToolName := currentToolName p;
        currentToolArgs := currentToolArgs p ++ out |}, []).

Definition awaitingCall (p : Parser) : bool :=
  inToolSection p && negb (inToolCall p).

Definition SplitOK (p : Parser) (c : string) : Prop :=
  fst (run (feed (fst (run p)) c)) = fst (run (feed p c)) /\
  coalesce (snd (run p) ++ snd (run (feed (fst (run p)) c)))
  = coalesce (snd (run (feed p c))).

End Kimi.

(** ** JSON values and [tryParseJSONObject] *)

Module Json.

(** A parsed JSON value.  A number keeps its literal: floating point is
    not modelled.  An object keeps its members in source order. *)
#[warnings="-register-all"]
Inductive json : Type :=
| JNull
| JBool (b : bool)
| JNumber (literal : string)
| JString (s : string)
| JArray (elements : list json)
| JObject (members : list (string * json)).

(** The double quote. *)
Definition dquote : ascii := ascii_of_nat 34.

(** JSON texts are written with ['] standing for the double quote. *)
Fixpoint js (s : string) : string :=
  match s with
  | EmptyString => EmptyString
  | String c s' => String (if Ascii.eqb c "'" then dquote else c) (js s')
  end.

Definition isJsonSpace (c : ascii) : bool :=
  let n := nat_of_ascii c in
  (n =? 32) || (n =? 9) || (n =? 10) || (n =? 13).

Fixpoint skipSpace (s : string) : string :=
  match s with
  | String c s' => if isJsonSpace c then skipSpace s' else s
  | EmptyString => s
  end.

Definition isDigit (c : ascii) : bool :=
  let n := nat_of_ascii c in (48 <=? n) && (n <=? 57).

Definition hexValue (c : ascii) : option nat :=
  let n := nat_of_ascii c in
  if (48 <=? n) && (n <=? 57) then Some (n - 48)
  else if (65 <=? n) && (n <=? 70) then Some (n - 55)
  else if (97 <=? n) && (n <=? 102) then Some (n - 87)
  else None.

(** The digits at the head of [s] and what follows them. *)
Fixpoint spanDigits (s : string) : string * string :=
  match s with
  | String c s' =>
      if isDigit c then let '(d, r) := spanDigits s' in (String c d, r)
      else (EmptyString, s)
  | EmptyString => (EmptyString, EmptyString)
  end.

(** A JSON number: an optional minus sign, an integer part without a
    leading zero, an optional fraction and an optional exponent.  The
    result is the literal and the text after it. *)
Definition parseNumber (s : string) : option (string * string) :=
  let '(sign, s1) :=
    match s with
    | String "-"%char r => ("-", r)
    | _ => ("", s)
    end in
  let '(int, s2) := spanDigits s1 in
  let intOk :=
    match int with
    | EmptyString => false
    | String "0"%char (String _ _) => false
    | _ => true
    end in
  if negb intOk then None else
  let frac :=
    match s2 with
    | String "."%char r =>
        let '(d, r') := spanDigits r in
        match d with
        | EmptyString => None
        | _ => Some ("." ++ d, r')
        end
    | _ => Some ("", s2)
    end in
  match frac with
  | None => None
  | Some (f, s3) =>
      let exp :=
        match s3 with
        | String e r =>
            if (Ascii.eqb e "e" || Ascii.eqb e "E")%bool then
              let '(sg, r1) :=
                match r with
                | String "+"%char r' => ("+", r')
                | String "-"%char r' => ("-", r')
                | _ => ("", r)
                end in
              let '(d, r2) := spanDigits r1 in
              match d with
              | EmptyString => None
              | _ => Some (String e (sg ++ d), r2)
              end
            else Some ("", s3)
        | EmptyString => Some ("", s3)
        end in
      match exp with
      | None => None
      | Some (e, s4) => Some (sign ++ int ++ f ++ e, s4)
      end
  end.

(** The characters of a string literal after its opening quote, up to the
    closing quote.  Escapes are decoded; a [\uXXXX] escape is decoded when
    its code unit is below 256, the range of the characters modelled. *)
Fixpoint parseStringBody (s : string) : option (string * string) :=
  match s with
  | EmptyString => None
  | String c s' =>
      if Ascii.eqb c dquote then Some (EmptyString, s')
      else if Ascii.eqb c "\" then
        match s' with
        | String e s'' =>
            let simple (d : ascii) :=
              match parseStringBody s'' with
              | Some (r, rest) => Some (String d r, rest)
              | None => None
              end in
            if Ascii.eqb e dquote then simple dquote
            else if Ascii.eqb e "\" then simple "\"%char
            else if Ascii.eqb e "/" then simple "/"%char
            else if Ascii.eqb e "b" then simple (ascii_of_nat 8)
            else if Ascii.eqb e "f" then simple (ascii_of_nat 12)
            else if Ascii.eqb e "n" then simple (ascii_of_nat 10)
            else if Ascii.eqb e "r" then simple (ascii_of_nat 13)
            else if Ascii.eqb e "t" then simple (ascii_of_nat 9)
            else if Ascii.eqb e "u" then
              match s'' with
              | String h1 (String h2 (String h3 (String h4 s4))) =>
                  match hexValue h1, hexValue h2, hexValue h3, hexValue h4,
                        parseStringBody s4 with
                  | Some 0, Some 0, Some a, Some b, Some (r, rest) =>
                      Some (String (ascii_of_nat (16 * a + b)) r, rest)
                  | _, _, _, _, _ => None
                  end
              | _ => None
              end
            else None
        | EmptyString => None
        end
      else if nat_of_ascii c <? 32 then None
      else
        match parseStringBody s' with
        | Some (r, rest) => Some (String c r, rest)
        | None => None
        end
  end.

Definition expect (lit : string) (v : json) (s : string)
  : option (json * string) :=
  if JSString.startsWith lit s
  then Some (v, JSString.drop (String.length lit) s)
  else None.

(** [parseValue] reads one value after optional white space;
    [parseElements] and [parseMembers] read what follows ["["] and ["{"],
    with the items read so far in [acc], reversed.  [first] tells that no
    item was read yet, so that the closing bracket may come at once. *)
Fixpoint parseValue (fuel : nat) (s : string) : option (json * string) :=
  match fuel with
  | O => None
  | S fuel' =>
      match skipSpace s with
      | EmptyString => None
      | String c r as t =>
          if Ascii.eqb c "{" then parseMembers fuel' true [] r
          else if Ascii.eqb c "[" then parseElements fuel' true [] r
          else if Ascii.eqb c dquote then
            match parseStringBody r with
            | Some (str, rest) => Some (JString str, rest)
            | None => None
            end
          else if Ascii.eqb c "t" then expect "true" (JBool true) t
          else if Ascii.eqb c "f" then expect "false" (JBool false) t
          else if Ascii.eqb c "n" then expect "null" JNull t
          else
            match parseNumber t with
            | Some (lit, rest) => Some (JNumber lit, rest)
            | None => None
            end
      end
  end
with parseElements (fuel : nat) (first : bool) (acc : list json) (s : string)
  : option (json * string) :=
  match fuel with
  | O => None
  | S fuel' =>
      match skipSpace s with
      | EmptyString => None
      | String c r as t =>
          if (Ascii.eqb c "]" && first)%bool then Some (JArray (rev acc), r)
          else
            match parseValue fuel' t with
            | Some (v, rest) =>
                match skipSpace rest with
                | String d r' =>
                    if Ascii.eqb d "," then parseElements fuel' false (v :: acc) r'
                    else if Ascii.eqb d "]" then Some (JArray (rev (v :: acc)), r')
                    else None
                | EmptyString => None
                end
            | None => None
            end
      end
  end
with parseMembers (fuel : nat) (first : bool) (acc : list (string * json))
       (s : string) : option (json * string) :=
  match fuel with
  | O => None
  | S fuel' =>
      match skipSpace s with
      | EmptyString => None
      | String c r =>
          if (Ascii.eqb c "}" && first)%bool then Some (JObject (rev acc), r)
          else if Ascii.eqb c dquote then
            match parseStringBody r with
            | Some (key, rest) =>
                match skipSpace rest with
                | String colon r' =>
                    if Ascii.eqb colon ":" then
                      match parseValue fuel' r' with
                      | Some (v, rest') =>
                          match skipSpace rest' with
                          | String d r'' =>
                              if Ascii.eqb d "," then
                                parseMembers fuel' false ((key, v) :: acc) r''
                              else if Ascii.eqb d "}" then
                                Some (JObject (rev ((key, v) :: acc)), r'')
                              else None
                          | EmptyString => None
                          end
                      | None => None
                      end
                    else None
                | EmptyString => None
                end
            | None => None
            end
          else None
      end
  end.

(** [JSON.parse]: one value, white space around it, nothing else. *)
Definition parse (text : string) : option json :=
  match parseValue (2 * String.length text + 2) text with
  | Some (v, rest) =>
      match skipSpace rest with
      | EmptyString => Some v
      | _ => None
      end
  | None => None
  end.

(** Modelled from the spec: [tryParseJSONObject] of [src/utils.ts], which
    is not among the sources.  The spec's completeness test is that the
    argument text parses as a well-formed structured value; the result is
    [{ok: true, value}] for a JSON object and [{ok: false}] otherwise. *)
Definition tryParseJSONObject (text : string) : option json :=
  match parse text with
  | Some (JObject members) => Some (JObject members)
  | _ => None
  end.

Definition hexDigit (n : nat) : ascii :=
  if n <? 10 then ascii_of_nat (48 + n) else ascii_of_nat (87 + n).

(** A string literal as [JSON.stringify] writes it. *)
Fixpoint quoteBody (s : string) : string :=
  match s with
  | EmptyString => String dquote EmptyString
  | String c s' =>
      let n := nat_of_ascii c in
      (if Ascii.eqb c dquote then String "\" (String dquote EmptyString)
       else if Ascii.eqb c "\" then "\\"
       else if n =? 8 then "\b"
       else if n =? 9 then "\t"
       else if n =? 10 then "\n"
       else if n =? 12 then "\f"
       else if n =? 13 then "\r"
       else if n <? 32 then
         "\u00" ++ String (hexDigit (n / 16)) (String (hexDigit (n mod 16)) EmptyString)
       else String c EmptyString) ++ quoteBody s'
  end.

Definition quote (s : string) : string := String dquote (quoteBody s).

(** The built-in [JSON.stringify] on the values modelled; a number is
    written as its literal. *)
Fixpoint stringify (v : json) : string :=
  match v with
  | JNull => "null"
  | JBool true => "true"
  | JBool false => "false"
  | JNumber literal => literal
  | JString s => quote s
  | JArray elements =>
      "[" ++ (fix items (l : list json) : string :=
                match l with
                | [] => EmptyString
                | [x] => stringify x
                | x :: r => stringify x ++ "," ++ items r
                end) elements ++ "]"
  | JObject members =>
      "{" ++ (fix items (l : list (string * json)) : string :=
                match l with
                | [] => EmptyString
                | [(k, x)] => quote k ++ ":" ++ stringify x
                | (k, x) :: r => quote k ++ ":" ++ stringify x ++ "," ++ items r
                end) members ++ "}"
  end.

End Json.

(** ** Insertion-ordered maps and sets of JavaScript *)

Module OrderedMap.
Section WithKey.
Context {K V : Type} (eqb : K -> K -> bool).

(** [map.get(k)]. *)
Fixpoint get (k : K) (m : list (K * V)) : option V :=
  match m with
  | [] => None
  | (k', v) :: r => if eqb k k' then Some v else get k r
  end.

(** [map.set(k, v)]: an existing key keeps its place, a new one goes last. *)
Fixpoint set (k : K) (v : V) (m : list (K * V)) : list (K * V) :=
  match m with
  | [] => [(k, v)]
  | (k', v') :: r => if eqb k k' then (k, v) :: r else (k', v') :: set k v r
  end.

(** [map.delete(k)]. *)
Fixpoint delete (k : K) (m : list (K * V)) : list (K * V) :=
  match m with
  | [] => []
  | (k', v') :: r => if eqb k k' then r else (k', v') :: delete k r
  end.

End WithKey.

(** [set.has(x)] and [set.add(x)]. *)
Definition has {K : Type} (eqb : K -> K -> bool) (x : K) (s : list K) : bool :=
  existsb (eqb x) s.

Definition add {K : Type} (eqb : K -> K -> bool) (x : K) (s : list K) : list K :=
  if has eqb x s then s else (s ++ [x])%list.

End OrderedMap.

(** ** What the provider consumes and what it reports *)

Module Host.
Import Json.

(** The metadata object of a thinking part. *)
Record Metadata := {
  md_format : option string;
  md_type : option string;
  md_index : option Z;
  md_signature : option string;
  md_data : option string
}.

(** The parts handed to [progress.report]. *)
Inductive LanguageModelResponsePart : Type :=
| LanguageModelTextPart (value : string)
| LanguageModelThinkingPart (value : string) (id : option string)
    (metadata : option Metadata)
| LanguageModelToolCallPart (callId : string) (name : string) (input : json).

(** An entry of [reasoning_details].  [rd_json] stands for
    [JSON.stringify(detail)], used for a detail of unknown type. *)
Record ReasoningDetail := {
  rd_type : string;
  rd_index : option Z;
  rd_format : option string;
  rd_text : string;
  rd_summary : string;
  rd_signature : option string;
  rd_data : option string;
  rd_json : string
}.

(** The value of a legacy [thinking] / [reasoning_content] field. *)
Inductive ThinkingValue : Type :=
| ThinkingString (s : string)
| ThinkingObject (text : option string) (metadata : option Metadata)
    (json : string)
| ThinkingOther.

Record FunctionDelta := {
  fn_name : option string;
  fn_arguments : option string
}.

(** A fragment of [delta.tool_calls]. *)
Record ToolCallDelta := {
  tc_index : option nat;
  tc_id : option string;
  tc_function : option FunctionDelta;
  (** [provider_specific_fields.thought_signature], when the object is
      there and the field is a string *)
  tc_thought_signature : option string;
  (** [tc["x-provider"].thought] *)
  tc_thought : option string
}.

Record DeltaObj := {
  d_thinking : option ThinkingValue;
  d_reasoning_content : option ThinkingValue;
  d_reasoning : option ThinkingValue;
  d_reasoning_details : option (list ReasoningDetail);
  d_content : option string;
  d_tool_calls : option (list ToolCallDelta)
}.

Record Choice := {
  c_thinking : option ThinkingValue;
  c_delta : option DeltaObj;
  c_reasoning_details : option (list ReasoningDetail);
  c_finish_reason : option string
}.

(** A decoded [data:] payload. *)
Record Delta := { choices : list Choice }.

(** A line of the event stream: [data: [DONE]] or a payload.  A payload
    that does not parse is skipped by the caller and is not modelled. *)
Inductive StreamLine : Type :=
| Done
| Data (d : Delta).

(** [a ?? b]. *)
Definition orElse {A : Type} (a b : option A) : option A :=
  match a with Some _ => a | None => b end.

Definition index_or_0 (d : ReasoningDetail) : Z :=
  match rd_index d with Some i => i | None => 0%Z end.

(** [details.sort((a, b) => (a.index ?? 0) - (b.index ?? 0))]: the sort
    of an array is stable. *)
Fixpoint insertDetail (d : ReasoningDetail) (l : list ReasoningDetail)
  : list ReasoningDetail :=
  match l with
  | [] => [d]
  | x :: r =>
      if (index_or_0 d <? index_or_0 x)%Z then d :: l
      else x :: insertDetail d r
  end.

Definition sortDetails (l : list ReasoningDetail) : list ReasoningDetail :=
  fold_left (fun acc d => insertDetail d acc) l [].

Definition option_Z_eqb (a b : option Z) : bool :=
  match a, b with
  | Some x, Some y => (x =? y)%Z
  | None, None => true
  | _, _ => false
  end.

Definition emptyDeltaObj : DeltaObj :=
  {| d_thinking := None; d_reasoning_content := None; d_reasoning := None;
     d_reasoning_details := None; d_content := None; d_tool_calls := None |}.

(** *** Deltas that carry one kind of payload *)

Definition choiceOf (d : DeltaObj) (finish : option string) : Delta :=
  {| choices := [{| c_thinking := None; c_delta := Some d;
                    c_reasoning_details := None;
                    c_finish_reason := finish |}] |}.

(** [{choices: [{delta: {content}}]}] *)
Definition contentDelta (content : string) : Delta :=
  choiceOf {| d_thinking := None; d_reasoning_content := None;
              d_reasoning := None; d_reasoning_details := None;
              d_content := Some content; d_tool_calls := None |} None.

(** [{choices: [{delta: {reasoning_details}}]}] *)
Definition reasoningDelta (details : list ReasoningDetail) : Delta :=
  choiceOf {| d_thinking := None; d_reasoning_content := None;
              d_reasoning := None; d_reasoning_details := Some details;
              d_content := None; d_tool_calls := None |} None.

(** [{choices: [{delta: {tool_calls}, finish_reason}]}] *)
Definition toolCallsDelta (toolCalls : list ToolCallDelta)
  (finish : option string) : Delta :=
  choiceOf {| d_thinking := None; d_reasoning_content := None;
              d_reasoning := None; d_reasoning_details := None;
              d_content := None; d_tool_calls := Some toolCalls |} finish.

(** A fragment of a tool call: index, identifier, name piece and argument
    piece. *)
Definition fragment (index : nat) (id name arguments : option string)
  : ToolCallDelta :=
  {| tc_index := Some index; tc_id := id;
     tc_function := Some {| fn_name := name; fn_arguments := arguments |};
     tc_thought_signature := None; tc_thought := None |}.

(** An unsigned entry of type [reasoning.text]. *)
Definition plainText (text : string) : ReasoningDetail :=
  {| rd_type := "reasoning.text"; rd_index := None; rd_format := None;
     rd_text := text; rd_summary := ""; rd_signature := None;
     rd_data := None; rd_json := "" |}.

(** [n] copies of a character. *)
Fixpoint repeatChar (c : ascii) (n : nat) : string :=
  match n with
  | O => EmptyString
  | S n' => String c (repeatChar c n')
  end.

(** The two lines that carry the arguments of one call in two fragments;
    the first has the identifier and the name. *)
Definition twoFragments (index : nat) (id : option string) (name : string)
  (first second : string) : list StreamLine :=
  [Data (toolCallsDelta [fragment index id (Some name) (Some first)] None);
   Data (toolCallsDelta [fragment index None None (Some second)] None)].

(** The lines that carry one unsigned [reasoning.text] entry each. *)
Definition unsignedSegments (texts : list string) : list StreamLine :=
  map (fun t => Data (reasoningDelta [plainText t])) texts.

(** A [reasoning.text] entry with a signature. *)
Definition signedText (text signature : string) : ReasoningDetail :=
  {| rd_type := "reasoning.text"; rd_index := None; rd_format := None;
     rd_text := text; rd_summary := ""; rd_signature := Some signature;
     rd_data := None; rd_json := "" |}.

(** Three content lines with a think tag cut by the first boundary. *)
Definition thinkFragments : list StreamLine :=
  [Data (contentDelta "Hello <thi"); Data (contentDelta "nk>pondering");
   Data (contentDelta "</think> world")].

End Host.

(** ** The provider of [src/provider.ts] *)

Module Provider.
Import JSString Json Host.

(** An entry of [_toolCallBuffers]. *)
Record ToolCallBuffer := {
  buf_id : option string;
  buf_name : option string;
  buf_args : string;
  buf_thoughtSignature : option string
}.

(** A call of [progress.report]: the part and, for a tool call emitted
    from [_toolCallBuffers], the key of its buffer.  The host sees the
    part only. *)
Definition Report : Type := LanguageModelResponsePart * option nat.

(** The fields of [HuggingFaceChatModelProvider] that the stream
    processing reads or writes.  [_textToolActive] is never assigned
    anything but [undefined], so [flushActiveTextToolCall] returns at its
    first line and is left out with [_emittedTextToolCallIds].  [draws]
    counts the calls of [Math.random]; [reported] is the sink. *)
Record State := {
  _toolCallBuffers : list (nat * ToolCallBuffer);
  _completedToolCallIndices : list nat;
  _hasEmittedAssistantText : bool;
  _emittedBeginToolCallsHint : bool;
  _emittedTextToolCallKeys : list string;
  _xmlThinkActive : bool;
  _xmlThinkDetectionAttempted : bool;
  _currentThinkingId : option string;
  _currentReasoningSignature : option string;
  _currentResponseReasoningDetails : list ReasoningDetail;
  _reasoningDetailsMap : list (string * list ReasoningDetail);
  draws : nat;
  reported : list Report
}.

(** The state at the start of [provideLanguageModelChatResponse]; the map
    of reasoning details outlives a request. *)
Definition reset (detailsMap : list (string * list ReasoningDetail)) : State :=
  {| _toolCallBuffers := []; _completedToolCallIndices := [];
     _hasEmittedAssistantText := false; _emittedBeginToolCallsHint := false;
     _emittedTextToolCallKeys := []; _xmlThinkActive := false;
     _xmlThinkDetectionAttempted := false; _currentThinkingId := None;
     _currentReasoningSignature := None;
     _currentResponseReasoningDetails := [];
     _reasoningDetailsMap := detailsMap; draws := 0; reported := [] |}.

Definition init : State := reset [].

Definition SIG_SEPARATOR := "::gemini_sig::".
Definition THINK_START := "<think>".
Definition THINK_END := "</think>".

(** *** Field updates *)

Definition report (part : LanguageModelResponsePart) (key : option nat)
  (s : State) : State :=
  {| _toolCallBuffers := _toolCallBuffers s;
     _completedToolCallIndices := _completedToolCallIndices s;
     _hasEmittedAssistantText := _hasEmittedAssistantText s;
     _emittedBeginToolCallsHint := _emittedBeginToolCallsHint s;
     _emittedTextToolCallKeys := _emittedTextToolCallKeys s;
     _xmlThinkActive := _xmlThinkActive s;
     _xmlThinkDetectionAttempted := _xmlThinkDetectionAttempted s;
     _currentThinkingId := _currentThinkingId s;
     _currentReasoningSignature := _currentReasoningSignature s;
     _currentResponseReasoningDetails := _currentResponseReasoningDetails s;
     _reasoningDetailsMap := _reasoningDetailsMap s;
     draws := draws s;
     reported := (reported s ++ [(part, key)])%list |}.

Definition set_tools (bufs : list (nat * ToolCallBuffer)) (completed : list nat)
  (keys : list string) (s : State) : State :=
  {| _toolCallBuffers := bufs;
     _completedToolCallIndices := completed;
     _hasEmittedAssistantText := _hasEmittedAssistantText s;
     _emittedBeginToolCallsHint := _emittedBeginToolCallsHint s;
     _emittedTextToolCallKeys := keys;
     _xmlThinkActive := _xmlThinkActive s;
     _xmlThinkDetectionAttempted := _xmlThinkDetectionAttempted s;
     _currentThinkingId := _currentThinkingId s;
     _currentReasoningSignature := _currentReasoningSignature s;
     _currentResponseReasoningDetails := _currentResponseReasoningDetails s;
     _reasoningDetailsMap := _reasoningDetailsMap s;
     draws := draws s;
     reported := reported s |}.

Definition set_flags (hasText hint : bool) (s : State) : State :=
  {| _toolCallBuffers := _toolCallBuffers s;
     _completedToolCallIndices := _completedToolCallIndices s;
     _hasEmittedAssistantText := hasText;
     _emittedBeginToolCallsHint := hint;
     _emittedTextToolCallKeys := _emittedTextToolCallKeys s;
     _xmlThinkActive := _xmlThinkActive s;
     _xmlThinkDetectionAttempted := _xmlThinkDetectionAttempted s;
     _currentThinkingId := _currentThinkingId s;
     _currentReasoningSignature := _currentReasoningSignature s;
     _currentResponseReasoningDetails := _currentResponseReasoningDetails s;
     _reasoningDetailsMap := _reasoningDetailsMap s;
     draws := draws s;
     reported := reported s |}.

Definition set_think (active attempted : bool) (id : option string)
  (s : State) : State :=
  {| _toolCallBuffers := _toolCallBuffers s;
     _completedToolCallIndices := _completedToolCallIndices s;
     _hasEmittedAssistantText := _hasEmittedAssistantText s;
     _emittedBeginToolCallsHint := _emittedBeginToolCallsHint s;
     _emittedTextToolCallKeys := _emittedTextToolCallKeys s;
     _xmlThinkActive := active;
     _xmlThinkDetectionAttempted := attempted;
     _currentThinkingId := id;
     _currentReasoningSignature := _currentReasoningSignature s;
     _currentResponseReasoningDetails := _currentResponseReasoningDetails s;
     _reasoningDetailsMap := _reasoningDetailsMap s;
     draws := draws s;
     reported := reported s |}.

Definition set_reasoning (sig : option string)
  (details : list ReasoningDetail)
  (detailsMap : list (string * list ReasoningDetail)) (s : State) : State :=
  {| _toolCallBuffers := _toolCallBuffers s;
     _completedToolCallIndices := _completedToolCallIndices s;
     _hasEmittedAssistantText := _hasEmittedAssistantText s;
     _emittedBeginToolCallsHint := _emittedBeginToolCallsHint s;
     _emittedTextToolCallKeys := _emittedTextToolCallKeys s;
     _xmlThinkActive := _xmlThinkActive s;
     _xmlThinkDetectionAttempted := _xmlThinkDetectionAttempted s;
     _currentThinkingId := _currentThinkingId s;
     _currentReasoningSignature := sig;
     _currentResponseReasoningDetails := details;
     _reasoningDetailsMap := detailsMap;
     draws := draws s;
     reported := reported s |}.

Definition set_draws (n : nat) (s : State) : State :=
  {| _toolCallBuffers := _toolCallBuffers s;
     _completedToolCallIndices := _completedToolCallIndices s;
     _hasEmittedAssistantText := _hasEmittedAssistantText s;
     _emittedBeginToolCallsHint := _emittedBeginToolCallsHint s;
     _emittedTextToolCallKeys := _emittedTextToolCallKeys s;
     _xmlThinkActive := _xmlThinkActive s;
     _xmlThinkDetectionAttempted := _xmlThinkDetectionAttempted s;
     _currentThinkingId := _currentThinkingId s;
     _currentReasoningSignature := _currentReasoningSignature s;
     _currentResponseReasoningDetails := _currentResponseReasoningDetails s;
     _reasoningDetailsMap := _reasoningDetailsMap s;
     draws := n;
     reported := reported s |}.

Definition set_thinkingId (id : option string) (s : State) : State :=
  set_think (_xmlThinkActive s) (_xmlThinkDetectionAttempted s) id s.

Section Embedding.

(** [tryParseJSONObject] of [src/utils.ts] and the built-in
    [JSON.stringify]; [random n] is the text that the [n]-th call of
    [Math.random().toString(36).slice(...)] yields, and for a thinking
    identifier it stands for the time stamp too. *)
Variable tryParseJSONObject : string -> option json.
Variable stringify : json -> string.
Variable random : nat -> string.

Definition generateThinkingId (s : State) : string * State :=
  ("thinking_" ++ random (draws s), set_draws (S (draws s)) s).

(** [if (!this._currentThinkingId) this._currentThinkingId = this.generateThinkingId()] *)
Definition ensureThinkingId (s : State) : State :=
  if truthyOpt (_currentThinkingId s) then s
  else let '(id, s') := generateThinkingId s in set_thinkingId (Some id) s'.

(** [id || undefined]. *)
Definition orUndefined (o : option string) : option string :=
  if truthyOpt o then o else None.

(** The merge of a streamed detail into
    [_currentResponseReasoningDetails]. *)
Fixpoint mergeDetail (detail : ReasoningDetail) (l : list ReasoningDetail)
  : list ReasoningDetail :=
  match l with
  | [] => [detail]
  | existing :: r =>
      if option_Z_eqb (rd_index existing) (rd_index detail) then
        (if String.eqb (rd_type existing) "reasoning.text"
            && String.eqb (rd_type detail) "reasoning.text"
         then {| rd_type := rd_type existing; rd_index := rd_index existing;
                 rd_format := rd_format existing;
                 rd_text := rd_text existing ++ rd_text detail;
                 rd_summary := rd_summary existing;
                 rd_signature :=
                   if truthyOpt (rd_signature detail) then rd_signature detail
                   else rd_signature existing;
                 rd_data := rd_data existing; rd_json := rd_json existing |}
         else existing) :: r
      else existing :: mergeDetail detail r
  end.

(** The body of [for (const detail of sortedDetails)]. *)
Definition processDetail (s : State) (detail : ReasoningDetail) : State * bool :=
  let s1 :=
    set_reasoning (_currentReasoningSignature s)
      (mergeDetail detail (_currentResponseReasoningDetails s))
      (_reasoningDetailsMap s) s in
  let isText := String.eqb (rd_type detail) "reasoning.text" in
  let isEncrypted := String.eqb (rd_type detail) "reasoning.encrypted" in
  let extractedText :=
    if String.eqb (rd_type detail) "reasoning.summary" then rd_summary detail
    else if isText then rd_text detail
    else if isEncrypted then "[REDACTED]"
    else rd_json detail in
  let s2 :=
    if isText && truthyOpt (rd_signature detail)
    then set_reasoning (rd_signature detail)
           (_currentResponseReasoningDetails s1) (_reasoningDetailsMap s1) s1
    else s1 in
  if truthy extractedText then
    let s3 := ensureThinkingId s2 in
    let metadata :=
      {| md_format := rd_format detail; md_type := Some (rd_type detail);
         md_index := rd_index detail;
         md_signature :=
           if isText && truthyOpt (rd_signature detail)
           then rd_signature detail else None;
         md_data :=
           if isEncrypted && truthyOpt (rd_data detail)
           then rd_data detail else None |} in
    (report (LanguageModelThinkingPart extractedText (_currentThinkingId s3)
               (Some metadata)) None s3, true)
  else (s2, false).

Fixpoint processDetails (s : State) (details : list ReasoningDetail)
  : State * bool :=
  match details with
  | [] => (s, false)
  | d :: r =>
      let '(s1, e1) := processDetail s d in
      let '(s2, e2) := processDetails s1 r in
      (s2, e1 || e2)
  end.

(** The legacy single [thinking] field. *)
Definition processThinking (s : State) (maybeThinking : ThinkingValue)
  : State * bool :=
  let '(text, metadata) :=
    match maybeThinking with
    | ThinkingObject (Some t) md _ => (t, md)
    | ThinkingObject None md j => (j, md)
    | ThinkingString t => (t, None)
    | ThinkingOther => ("", None)
    end in
  if truthy text then
    let s1 := ensureThinkingId s in
    (report (LanguageModelThinkingPart text (_currentThinkingId s1) metadata)
       None s1, true)
  else (s, false).

(** The [while (data.length > 0)] loop of [processXmlThinkBlocks]; every
    pass that continues removes a tag from [data], so a fuel of one more
    than its length is never used up. *)
Fixpoint xmlLoop (fuel : nat) (s : State) (data : string) (emittedAny : bool)
  : State * bool :=
  match fuel with
  | O => (s, emittedAny)
  | S fuel' =>
      if String.length data =? 0 then (s, emittedAny)
      else if negb (_xmlThinkActive s) then
        match indexOf THINK_START data with
        | None =>
            (set_think (_xmlThinkActive s) true (_currentThinkingId s) s,
             emittedAny)
        | Some startIdx =>
            let '(id, s1) := generateThinkingId s in
            xmlLoop fuel'
              (set_think true (_xmlThinkDetectionAttempted s1) (Some id) s1)
              (drop (startIdx + String.length THINK_START) data) emittedAny
        end
      else
        match indexOf THINK_END data with
        | None =>
            let thinkContent := trim data in
            if truthy thinkContent then
              (report (LanguageModelThinkingPart thinkContent
                         (orUndefined (_currentThinkingId s)) None) None s,
               true)
            else (s, emittedAny)
        | Some endIdx =>
            let thinkContent := take endIdx data in
            let '(s1, e1) :=
              if truthy thinkContent then
                (report (LanguageModelThinkingPart thinkContent
                           (orUndefined (_currentThinkingId s)) None) None s,
                 true)
              else (s, emittedAny) in
            xmlLoop fuel'
              (set_think false (_xmlThinkDetectionAttempted s1) None s1)
              (drop (endIdx + String.length THINK_END) data) e1
        end
  end.

Definition processXmlThinkBlocks (s : State) (input : string) : State * bool :=
  if _xmlThinkDetectionAttempted s && negb (_xmlThinkActive s)
  then (s, false)
  else xmlLoop (S (String.length input)) s input false.

(** [processTextContent]: the pair [(emittedText, emittedAny)] is
    [(b, b)]. *)
Definition processTextContent (s : State) (input : string) : State * bool :=
  if truthy input
  then (report (LanguageModelTextPart input) None s, true)
  else (s, false).

(** The identifier of an emitted tool call: the signature is encoded
    into it. *)
Definition finalId (id : string) (thoughtSignature : option string) : string :=
  match thoughtSignature with
  | Some sig => if truthy sig then id ++ SIG_SEPARATOR ++ sig else id
  | None => id
  end.

(** [buf.id ?? `call_${random}`] *)
Definition idOrRandom (buf : ToolCallBuffer) (s : State) : string * State :=
  match buf_id buf with
  | Some id => (id, s)
  | None => ("call_" ++ random (draws s), set_draws (S (draws s)) s)
  end.

(** The emission shared by [tryEmitBufferedToolCall] and
    [flushToolCallBuffers], from the choice of the identifier on. *)
Definition emitToolCall (index : nat) (buf : ToolCallBuffer) (name : string)
  (parameters : json) (s : State) : State :=
  let '(id, s1) := idOrRandom buf s in
  let canonical := stringify parameters in
  let s2 :=
    set_tools (_toolCallBuffers s1) (_completedToolCallIndices s1)
      (OrderedMap.add String.eqb (name ++ ":" ++ canonical)
         (_emittedTextToolCallKeys s1)) s1 in
  let s3 :=
    report (LanguageModelToolCallPart (finalId id (buf_thoughtSignature buf))
              name parameters) (Some index) s2 in
  set_tools (OrderedMap.delete Nat.eqb index (_toolCallBuffers s3))
    (OrderedMap.add Nat.eqb index (_completedToolCallIndices s3))
    (_emittedTextToolCallKeys s3) s3.

Definition tryEmitBufferedToolCall (s : State) (index : nat) : State :=
  match OrderedMap.get Nat.eqb index (_toolCallBuffers s) with
  | None => s
  | Some buf =>
      match buf_name buf with
      | None => s
      | Some name =>
          if negb (truthy name) then s
          else
            match tryParseJSONObject (buf_args buf) with
            | None => s
            | Some parameters => emitToolCall index buf name parameters s
            end
      end
  end.

(** The [for] loop of [flushToolCallBuffers] over the entries copied by
    [Array.from]; [true] in the result tells that the loop threw
    ["Invalid JSON for tool call"]. *)
Fixpoint flushLoop (throwOnInvalid : bool) (s : State)
  (entries : list (nat * ToolCallBuffer)) : State * bool :=
  match entries with
  | [] => (s, false)
  | (idx, buf) :: rest =>
      match tryParseJSONObject (buf_args buf) with
      | None =>
          if throwOnInvalid then (s, true)
          else flushLoop throwOnInvalid s rest
      | Some value =>
          let name :=
            match buf_name buf with Some n => n | None => "unknown_tool" end in
          flushLoop throwOnInvalid (emitToolCall idx buf name value s) rest
      end
  end.

Definition flushToolCallBuffers (s : State) (throwOnInvalid : bool)
  : State * bool :=
  flushLoop throwOnInvalid s (_toolCallBuffers s).

(** [(tc.index as number) ?? 0] *)
Definition indexOfCall (tc : ToolCallDelta) : nat :=
  match tc_index tc with Some i => i | None => 0 end.

(** The buffer of a fragment after the fragment is merged into it:
    [buf = this._toolCallBuffers.get(idx) ?? { args: "" }] with the
    identifier and the name replaced, the arguments appended and the
    thought signature captured. *)
Definition mergeFragment (s : State) (tc : ToolCallDelta) : ToolCallBuffer :=
  let buf0 :=
    match OrderedMap.get Nat.eqb (indexOfCall tc) (_toolCallBuffers s) with
    | Some b => b
    | None => {| buf_id := None; buf_name := None; buf_args := "";
                 buf_thoughtSignature := None |}
    end in
  let fname :=
    match tc_function tc with Some f => fn_name f | None => None end in
  let fargs :=
    match tc_function tc with Some f => fn_arguments f | None => None end in
  {| buf_id := if truthyOpt (tc_id tc) then tc_id tc else buf_id buf0;
     buf_name := if truthyOpt fname then fname else buf_name buf0;
     buf_args :=
       match fargs with Some a => buf_args buf0 ++ a | None => buf_args buf0 end;
     buf_thoughtSignature :=
       match tc_thought_signature tc with
       | Some sig => Some sig
       | None =>
           if truthyOpt (_currentReasoningSignature s)
           then _currentReasoningSignature s
           else buf_thoughtSignature buf0
       end |}.

(** [_reasoningDetailsMap] after the details of the response are stored
    under the identifier of the buffer. *)
Definition captureDetails (s : State) (buf : ToolCallBuffer)
  : list (string * list ReasoningDetail) :=
  match buf_id buf with
  | Some id =>
      if truthy id && (0 <? List.length (_currentResponseReasoningDetails s))
      then
        let m := _reasoningDetailsMap s in
        let m' :=
          if 100 <? List.length m then
            match m with
            | (firstKey, _) :: _ =>
                if truthy firstKey
                then OrderedMap.delete String.eqb firstKey m else m
            | [] => m
            end
          else m in
        OrderedMap.set String.eqb id (_currentResponseReasoningDetails s) m'
      else _reasoningDetailsMap s
  | None => _reasoningDetailsMap s
  end.

(** The state once the fragment is stored: up to
    [this._toolCallBuffers.set(idx, buf)]. *)
Definition storeFragment (s : State) (tc : ToolCallDelta) : State :=
  let buf := mergeFragment s tc in
  let s1 :=
    set_reasoning (_currentReasoningSignature s)
      (_currentResponseReasoningDetails s) (captureDetails s buf) s in
  set_tools (OrderedMap.set Nat.eqb (indexOfCall tc) buf (_toolCallBuffers s1))
    (_completedToolCallIndices s1) (_emittedTextToolCallKeys s1) s1.

(** The body of [for (const tc of toolCalls)]. *)
Definition processToolCall (s : State) (tc : ToolCallDelta) : State :=
  if OrderedMap.has Nat.eqb (indexOfCall tc) (_completedToolCallIndices s)
  then s
  else tryEmitBufferedToolCall (storeFragment s tc) (indexOfCall tc).

Definition processToolCalls (s : State) (toolCalls : list ToolCallDelta)
  : State :=
  fold_left processToolCall toolCalls s.

(** The separator reported before the first tool call when text was
    emitted. *)
Definition beginToolCallsHint (s : State) (toolCalls : list ToolCallDelta)
  : State :=
  if negb (_emittedBeginToolCallsHint s) && _hasEmittedAssistantText s
     && (0 <? List.length toolCalls)
  then set_flags (_hasEmittedAssistantText s) true
         (report (LanguageModelTextPart " ") None s)
  else s.

(** [deltaObj?.f] *)
Definition field {A : Type} (choice : Choice) (f : DeltaObj -> option A)
  : option A :=
  match c_delta choice with Some d => f d | None => None end.

(** The block [// Process thinking content] of [processDelta]: the
    structured details first; the legacy field only when there are none. *)
Definition processReasoning (s : State) (choice : Choice) : State * bool :=
  let maybeThinking :=
    orElse (c_thinking choice)
      (orElse (field choice d_thinking) (field choice d_reasoning_content)) in
  let maybeReasoningDetails :=
    orElse (field choice d_reasoning_details) (c_reasoning_details choice) in
  match maybeReasoningDetails with
  | Some (d :: ds) => processDetails s (sortDetails (d :: ds))
  | _ =>
      match maybeThinking with
      | Some t => processThinking s t
      | None => (s, false)
      end
  end.

(** The block [// Process Text Content] for a truthy [content]. *)
Definition processContent (s : State) (content : string) : State * bool :=
  let '(sx, emittedAny) := processXmlThinkBlocks s content in
  if emittedAny then (sx, true)
  else
    let hasVisibleContent := 0 <? String.length (trim content) in
    let sc :=
      if hasVisibleContent && truthyOpt (_currentThinkingId sx)
      then set_thinkingId None
             (report (LanguageModelThinkingPart "" (_currentThinkingId sx)
                        None) None sx)
      else sx in
    let '(st, emittedText) := processTextContent sc content in
    (if emittedText then set_flags true (_emittedBeginToolCallsHint st) st
     else st, emittedText).

(** The result of [processDelta]: the state, the value returned, and
    whether the call threw (from [flushToolCallBuffers]); the caller
    ignores both. *)
Definition processDelta (s : State) (delta : Delta) : State * bool * bool :=
  match choices delta with
  | [] => (s, false, false)
  | choice :: _ =>
      let '(s2, e2) := processReasoning s choice in
      let '(s3, e3) :=
        match field choice d_content with
        | Some content =>
            if truthy content then processContent s2 content else (s2, false)
        | None => (s2, false)
        end in
      let s4 :=
        match field choice d_tool_calls with
        | Some toolCalls =>
            processToolCalls (beginToolCallsHint s3 toolCalls) toolCalls
        | None => s3
        end in
      let emitted := e2 || e3 in
      match c_finish_reason choice with
      | Some finish =>
          if String.eqb finish "tool_calls" || String.eqb finish "stop" then
            let '(s5, threw) := flushToolCallBuffers s4 true in
            (s5, emitted, threw)
          else (s4, emitted, false)
      | None => (s4, emitted, false)
      end
  end.

(** The [for (const line of lines)] loop of [processStreamingResponse].
    On [[DONE]] the buffers are flushed without throwing and the loop
    goes on; whatever [processDelta] throws is ignored. *)
Definition processLine (s : State) (line : StreamLine) : State :=
  match line with
  | Done => fst (flushToolCallBuffers s false)
  | Data d => fst (fst (processDelta s d))
  end.

Definition processLines (s : State) (lines : list StreamLine) : State :=
  fold_left processLine lines s.

(** The parts reported, as the host receives them. *)
Definition parts (s : State) : list LanguageModelResponsePart :=
  map fst (reported s).

End Embedding.

(** *** Notions used to state the properties of the buffer manager *)

(** The number of tool-call parts reported for the buffer key [idx]. *)
Definition emissions (idx : nat) (l : list Report) : nat :=
  List.length
    (filter (fun r : Report =>
               match r with
               | (LanguageModelToolCallPart _ _ _, Some k) => Nat.eqb k idx
               | _ => false
               end) l).

(** [s'] comes from [s] without touching the tool-call buffers or the set
    of completed keys, and reports no tool call of a buffer. *)
Definition Silent (s s' : State) : Prop :=
  _toolCallBuffers s' = _toolCallBuffers s /\
  _completedToolCallIndices s' = _completedToolCallIndices s /\
  exists l, reported s' = (reported s ++ l)%list /\
            Forall (fun r : Report => snd r = None) l.

(** The keys of the buffers are distinct; a completed key has no buffer
    and exactly one tool call reported; no tool call was reported for a
    key that is not completed. *)
Definition Invariant (s : State) : Prop :=
  NoDup (map fst (_toolCallBuffers s)) /\
  forall j,
    (OrderedMap.has Nat.eqb j (_completedToolCallIndices s) = true ->
     ~ In j (map fst (_toolCallBuffers s)) /\ emissions j (reported s) = 1) /\
    (OrderedMap.has Nat.eqb j (_completedToolCallIndices s) = false ->
     emissions j (reported s) = 0).

(** Completed keys stay completed. *)
Definition Grows (s s' : State) : Prop :=
  forall j, OrderedMap.has Nat.eqb j (_completedToolCallIndices s) = true ->
            OrderedMap.has Nat.eqb j (_completedToolCallIndices s') = true.

(** *** The request side: identifiers decoded in [provideLanguageModelChatResponse] *)

(** A tool call of an outgoing assistant message;
    [otc_thought_signature] is [provider_specific_fields.thought_signature]. *)
Record OpenAIToolCall := {
  otc_id : string;
  otc_thought_signature : option string
}.

Record OpenAIMessage := {
  role : string;
  tool_calls : option (list OpenAIToolCall);
  tool_call_id : option string;
  reasoning_details : option (list ReasoningDetail)
}.

(** The first two pieces of [currentId.split(SIG_SEPARATOR)]. *)
Definition splitId (currentId : string) : option string * option string :=
  let pieces := split SIG_SEPARATOR currentId in
  (nth_error pieces 0, nth_error pieces 1).

(** The body of [for (const tc of msg.tool_calls)] up to the lookup of the
    details: the tool call as rewritten, and [currentId]. *)
Definition decodeToolCall (tc : OpenAIToolCall) : OpenAIToolCall * string :=
  if includes SIG_SEPARATOR (otc_id tc) then
    match splitId (otc_id tc) with
    | (Some realId, Some signature) =>
        if truthy realId && truthy signature
        then ({| otc_id := realId; otc_thought_signature := Some signature |},
              realId)
        else (tc, otc_id tc)
    | _ => (tc, otc_id tc)
    end
  else (tc, otc_id tc).

(** The loop over the tool calls of an assistant message;
    [reconstructedDetails] is what [reconstructReasoningDetails] made of
    the history. *)
Fixpoint decodeToolCalls (detailsMap reconstructedDetails
                            : list (string * list ReasoningDetail))
  (tcs : list OpenAIToolCall) (injected : option (list ReasoningDetail))
  : list OpenAIToolCall * option (list ReasoningDetail) :=
  match tcs with
  | [] => ([], injected)
  | tc :: rest =>
      let originalId := otc_id tc in
      let '(tc', currentId) := decodeToolCall tc in
      let details :=
        match OrderedMap.get String.eqb currentId detailsMap with
        | Some d => Some d
        | None => OrderedMap.get String.eqb originalId reconstructedDetails
        end in
      let injected' :=
        match details, injected with
        | Some (d :: ds), None => Some (d :: ds)
        | _, _ => injected
        end in
      let '(rest', final) :=
        decodeToolCalls detailsMap reconstructedDetails rest injected' in
      (tc' :: rest', final)
  end.

(** The body of [for (const msg of openaiMessages)]. *)
Definition decodeMessage (detailsMap reconstructedDetails
                            : list (string * list ReasoningDetail))
  (msg : OpenAIMessage) : OpenAIMessage :=
  match String.eqb (role msg) "assistant", tool_calls msg with
  | true, Some tcs =>
      let '(tcs', details) :=
        decodeToolCalls detailsMap reconstructedDetails tcs
          (reasoning_details msg) in
      {| role := role msg; tool_calls := Some tcs';
         tool_call_id := tool_call_id msg; reasoning_details := details |}
  | _, _ =>
      match String.eqb (role msg) "tool", tool_call_id msg with
      | true, Some id =>
          if includes SIG_SEPARATOR id then
            match fst (splitId id) with
            | Some realId =>
                if truthy realId
                then {| role := role msg; tool_calls := tool_calls msg;
                        tool_call_id := Some realId;
                        reasoning_details := reasoning_details msg |}
                else msg
            | None => msg
            end
          else msg
      | _, _ => msg
      end
  end.

End Provider.

(** ** The provider revision that coalesces reasoning text

    The class [HuggingFaceChatModelProvider] with [_reasoningTextBuffer],
    [flushReasoningBuffer] and [closeActiveThinking]; its tool-call
    buffers are keyed by the identifier of the call. *)

Module Coalescer.
Import JSString Json Host.

(** [buf.toolCall] of an entry of [_toolCallBuffers]. *)
Record OpenAIToolCall := {
  call_id : string;
  call_name : string;
  call_arguments : string
}.

(** The fields that the stream processing reads or writes; [draws] counts
    the calls of [Math.random] and [reported] is the sink. *)
Record State := {
  _toolCallBuffers : list (string * OpenAIToolCall);
  _hasEmittedAssistantText : bool;
  _emittedTextToolCallKeys : list string;
  _xmlThinkActive : bool;
  _xmlThinkDetectionAttempted : bool;
  _currentThinkingId : option string;
  _currentResponseReasoningDetails : list ReasoningDetail;
  _reasoningTextBuffer : string;
  draws : nat;
  reported : list LanguageModelResponsePart
}.

(** The state at the start of [provideLanguageModelChatResponse]. *)
Definition init : State :=
  {| _toolCallBuffers := []; _hasEmittedAssistantText := false;
     _emittedTextToolCallKeys := []; _xmlThinkActive := false;
     _xmlThinkDetectionAttempted := false; _currentThinkingId := None;
     _currentResponseReasoningDetails := []; _reasoningTextBuffer := "";
     draws := 0; reported := [] |}.

Definition THINK_START := "<think>".
Definition THINK_END := "</think>".

(** *** Field updates *)

Definition report (part : LanguageModelResponsePart) (s : State) : State :=
  {| _toolCallBuffers := _toolCallBuffers s;
     _hasEmittedAssistantText := _hasEmittedAssistantText s;
     _emittedTextToolCallKeys := _emittedTextToolCallKeys s;
     _xmlThinkActive := _xmlThinkActive s;
     _xmlThinkDetectionAttempted := _xmlThinkDetectionAttempted s;
     _currentThinkingId := _currentThinkingId s;
     _currentResponseReasoningDetails := _currentResponseReasoningDetails s;
     _reasoningTextBuffer := _reasoningTextBuffer s;
     draws := draws s;
     reported := (reported s ++ [part])%list |}.

Definition set_tools (bufs : list (string * OpenAIToolCall))
  (keys : list string) (s : State) : State :=
  {| _toolCallBuffers := bufs;
     _hasEmittedAssistantText := _hasEmittedAssistantText s;
     _emittedTextToolCallKeys := keys;
     _xmlThinkActive := _xmlThinkActive s;
     _xmlThinkDetectionAttempted := _xmlThinkDetectionAttempted s;
     _currentThinkingId := _currentThinkingId s;
     _currentResponseReasoningDetails := _currentResponseReasoningDetails s;
     _reasoningTextBuffer := _reasoningTextBuffer s;
     draws := draws s;
     reported := reported s |}.

Definition set_think (active attempted : bool) (id : option string)
  (s : State) : State :=
  {| _toolCallBuffers := _toolCallBuffers s;
     _hasEmittedAssistantText := _hasEmittedAssistantText s;
     _emittedTextToolCallKeys := _emittedTextToolCallKeys s;
     _xmlThinkActive := active;
     _xmlThinkDetectionAttempted := attempted;
     _currentThinkingId := id;
     _currentResponseReasoningDetails := _currentResponseReasoningDetails s;
     _reasoningTextBuffer := _reasoningTextBuffer s;
     draws := draws s;
     reported := reported s |}.

Definition set_thinkingId (id : option string) (s : State) : State :=
  set_think (_xmlThinkActive s) (_xmlThinkDetectionAttempted s) id s.

Definition set_reasoning (details : list ReasoningDetail) (buffer : string)
  (s : State) : State :=
  {| _toolCallBuffers := _toolCallBuffers s;
     _hasEmittedAssistantText := _hasEmittedAssistantText s;
     _emittedTextToolCallKeys := _emittedTextToolCallKeys s;
     _xmlThinkActive := _xmlThinkActive s;
     _xmlThinkDetectionAttempted := _xmlThinkDetectionAttempted s;
     _currentThinkingId := _currentThinkingId s;
     _currentResponseReasoningDetails := details;
     _reasoningTextBuffer := buffer;
     draws := draws s;
     reported := reported s |}.

Definition set_misc (hasText : bool) (n : nat) (s : State) : State :=
  {| _toolCallBuffers := _toolCallBuffers s;
     _hasEmittedAssistantText := hasText;
     _emittedTextToolCallKeys := _emittedTextToolCallKeys s;
     _xmlThinkActive := _xmlThinkActive s;
     _xmlThinkDetectionAttempted := _xmlThinkDetectionAttempted s;
     _currentThinkingId := _currentThinkingId s;
     _currentResponseReasoningDetails := _currentResponseReasoningDetails s;
     _reasoningTextBuffer := _reasoningTextBuffer s;
     draws := n;
     reported := reported s |}.

Section Embedding.

(** [tryParseJSONObject] of [src/utils.ts], the built-in [JSON.stringify],
    and the text of the [n]-th random draw. *)
Variable tryParseJSONObject : string -> option json.
Variable stringify : json -> string.
Variable random : nat -> string.

Definition generateThinkingId (s : State) : string * State :=
  ("thinking_" ++ random (draws s),
   set_misc (_hasEmittedAssistantText s) (S (draws s)) s).

Definition ensureThinkingId (s : State) : State :=
  if truthyOpt (_currentThinkingId s) then s
  else let '(id, s') := generateThinkingId s in set_thinkingId (Some id) s'.

Definition flushReasoningBuffer (s : State) : State :=
  if 0 <? String.length (_reasoningTextBuffer s) then
    let s1 := ensureThinkingId s in
    let s2 :=
      report (LanguageModelThinkingPart (_reasoningTextBuffer s1)
                (_currentThinkingId s1)
                (Some {| md_format := None; md_type := Some "reasoning.text";
                         md_index := None; md_signature := None;
                         md_data := None |})) s1 in
    set_reasoning (_currentResponseReasoningDetails s2) "" s2
  else s.

Definition closeActiveThinking (s : State) : State :=
  if truthyOpt (_currentThinkingId s)
  then set_thinkingId None
         (report (LanguageModelThinkingPart "" (_currentThinkingId s) None) s)
  else s.

(** The text and the signature that the loop over the details extracts
    from one of them, and whether it is plain text. *)
Definition extract (detail : ReasoningDetail)
  : string * option string * bool :=
  if String.eqb (rd_type detail) "reasoning.summary"
  then (rd_summary detail, None, false)
  else if String.eqb (rd_type detail) "reasoning.text"
  then (rd_text detail,
        if truthyOpt (rd_signature detail) then rd_signature detail else None,
        true)
  else if String.eqb (rd_type detail) "reasoning.encrypted"
  then ("[REDACTED]",
        if truthyOpt (rd_data detail) then rd_data detail else None,
        false)
  else (rd_json detail, None, false).

(** The body of [for (const detail of sortedDetails)]. *)
Definition processDetail (s : State) (detail : ReasoningDetail) : State * bool :=
  let s0 :=
    set_reasoning (_currentResponseReasoningDetails s ++ [detail])%list
      (_reasoningTextBuffer s) s in
  let '(text, signature, isSimpleText) := extract detail in
  if isSimpleText && negb (truthyOpt signature) then
    let s1 :=
      set_reasoning (_currentResponseReasoningDetails s0)
        (_reasoningTextBuffer s0 ++ text) s0 in
    if 4000 <? String.length (_reasoningTextBuffer s1)
    then (flushReasoningBuffer s1, true)
    else (s1, false)
  else
    let '(s1, e1) :=
      if 0 <? String.length (_reasoningTextBuffer s0)
      then (flushReasoningBuffer s0, true)
      else (s0, false) in
    if truthy text || truthyOpt signature then
      let s2 := ensureThinkingId s1 in
      let metadata :=
        {| md_format := rd_format detail; md_type := Some (rd_type detail);
           md_index := rd_index detail;
           md_signature := if truthyOpt signature then signature else None;
           md_data := None |} in
      (report (LanguageModelThinkingPart text (_currentThinkingId s2)
                 (Some metadata)) s2, true)
    else (s1, e1).

Fixpoint processDetails (s : State) (details : list ReasoningDetail)
  : State * bool :=
  match details with
  | [] => (s, false)
  | d :: r =>
      let '(s1, e1) := processDetail s d in
      let '(s2, e2) := processDetails s1 r in
      (s2, e1 || e2)
  end.

(** The legacy single [thinking] field. *)
Definition processThinking (s : State) (maybeThinking : ThinkingValue)
  : State * bool :=
  let '(text, metadata) :=
    match maybeThinking with
    | ThinkingObject (Some t) md _ => (t, md)
    | ThinkingObject None md j => (j, md)
    | ThinkingString t => (t, None)
    | ThinkingOther => ("", None)
    end in
  if truthy text then
    let s1 := ensureThinkingId s in
    (report (LanguageModelThinkingPart text (_currentThinkingId s1) metadata)
       s1, true)
  else (s, false).

(** The [while (data.length > 0)] loop of [processXmlThinkBlocks], with
    [emittedAny] and [remainingText]. *)
Fixpoint xmlLoop (fuel : nat) (s : State) (data : string) (emittedAny : bool)
  (remainingText : string) : State * bool * string :=
  match fuel with
  | O => (s, emittedAny, remainingText)
  | S fuel' =>
      if String.length data =? 0 then (s, emittedAny, remainingText)
      else if negb (_xmlThinkActive s) then
        match indexOf THINK_START data with
        | None =>
            (set_think (_xmlThinkActive s) true (_currentThinkingId s) s,
             emittedAny, remainingText ++ data)
        | Some startIdx =>
            let '(id, s1) := generateThinkingId s in
            xmlLoop fuel'
              (set_think true (_xmlThinkDetectionAttempted s1) (Some id) s1)
              (drop (startIdx + String.length THINK_START) data) emittedAny
              (remainingText ++ take startIdx data)
        end
      else
        match indexOf THINK_END data with
        | None =>
            let s1 := ensureThinkingId s in
            (report (LanguageModelThinkingPart data (_currentThinkingId s1)
                       None) s1, true, remainingText)
        | Some endIdx =>
            let s1 := ensureThinkingId s in
            let s2 :=
              report (LanguageModelThinkingPart (take endIdx data)
                        (_currentThinkingId s1) None) s1 in
            let s3 :=
              set_think false (_xmlThinkDetectionAttempted s2)
                (_currentThinkingId s2) s2 in
            xmlLoop fuel' (closeActiveThinking s3)
              (drop (endIdx + String.length THINK_END) data) true
              remainingText
        end
  end.

Definition processXmlThinkBlocks (s : State) (input : string)
  : State * bool * string :=
  if _xmlThinkDetectionAttempted s && negb (_xmlThinkActive s)
  then (s, false, input)
  else xmlLoop (S (String.length input)) s input false "".

Definition processTextContent (s : State) (input : string) : State * bool :=
  if truthy input
  then (report (LanguageModelTextPart input) s, true)
  else (s, false).

Definition tryEmitBufferedToolCall (s : State) (key : string) (isLast : bool)
  : State :=
  match OrderedMap.get String.eqb key (_toolCallBuffers s) with
  | None => s
  | Some buf =>
      if negb (truthy (call_name buf)) then s
      else
        let canParseResult := tryParseJSONObject (call_arguments buf) in
        match canParseResult with
        | None =>
            if negb isLast then s
            else
              let s1 :=
                report (LanguageModelToolCallPart (call_id buf) (call_name buf)
                          (JObject [])) s in
              set_tools (OrderedMap.delete String.eqb key (_toolCallBuffers s1))
                (_emittedTextToolCallKeys s1) s1
        | Some parameters =>
            let toolKey := call_name buf ++ ":" ++ stringify parameters in
            if OrderedMap.has String.eqb toolKey (_emittedTextToolCallKeys s)
            then set_tools (OrderedMap.delete String.eqb key (_toolCallBuffers s))
                   (_emittedTextToolCallKeys s) s
            else
              let s1 :=
                set_tools (_toolCallBuffers s)
                  (OrderedMap.add String.eqb toolKey
                     (_emittedTextToolCallKeys s)) s in
              let s2 :=
                report (LanguageModelToolCallPart (call_id buf) (call_name buf)
                          parameters) s1 in
              set_tools (OrderedMap.delete String.eqb key (_toolCallBuffers s2))
                (_emittedTextToolCallKeys s2) s2
        end
  end.

(** [for (const key of this._toolCallBuffers.keys())]: an entry is deleted
    only while it is the current one, so every key is visited. *)
Definition flushToolCallBuffers (s : State) : State :=
  fold_left (fun st key => tryEmitBufferedToolCall st key true)
    (map fst (_toolCallBuffers s)) s.

(** The body of [for (const tc of tool_calls)].  The entry found in the
    map is changed in place; a new one is stored only under a truthy
    identifier. *)
Definition processToolCall (s : State) (tc : ToolCallDelta) : State * bool :=
  let key := match tc_id tc with Some i => i | None => "" end in
  let found := OrderedMap.get String.eqb key (_toolCallBuffers s) in
  let buf0 :=
    match found with
    | Some b => b
    | None => {| call_id := key; call_name := ""; call_arguments := "" |}
    end in
  let fname :=
    match tc_function tc with Some f => fn_name f | None => None end in
  let fargs :=
    match tc_function tc with Some f => fn_arguments f | None => None end in
  let buf :=
    {| call_id := call_id buf0;
       call_name :=
         match fname with
         | Some n => call_name buf0 ++ n
         | None => call_name buf0
         end;
       call_arguments :=
         match fargs with
         | Some a => call_arguments buf0 ++ a
         | None => call_arguments buf0
         end |} in
  let stored :=
    match found with Some _ => true | None => truthyOpt (tc_id tc) end in
  let s1 :=
    if stored
    then set_tools (OrderedMap.set String.eqb key buf (_toolCallBuffers s))
           (_emittedTextToolCallKeys s) s
    else s in
  match tc_thought tc with
  | Some thought =>
      if truthy thought
      then (report (LanguageModelToolCallPart key key
                      (JObject [("thought", JString thought)])) s1, true)
      else (s1, false)
  | None => (s1, false)
  end.

Fixpoint processToolCalls (s : State) (toolCalls : list ToolCallDelta)
  : State * bool :=
  match toolCalls with
  | [] => (s, false)
  | tc :: r =>
      let '(s1, e1) := processToolCall s tc in
      let '(s2, e2) := processToolCalls s1 r in
      (s2, e1 || e2)
  end.

(** [deltaObj?.f] *)
Definition field {A : Type} (choice : Choice) (f : DeltaObj -> option A)
  : option A :=
  match c_delta choice with Some d => f d | None => None end.

(** The block [// Process thinking content] of [processDelta]. *)
Definition processReasoning (s : State) (choice : Choice) : State * bool :=
  let maybeThinking :=
    orElse (c_thinking choice)
      (orElse (field choice d_thinking)
         (orElse (field choice d_reasoning_content)
            (field choice d_reasoning))) in
  let maybeReasoningDetails :=
    orElse (field choice d_reasoning_details) (c_reasoning_details choice) in
  match maybeReasoningDetails with
  | Some (d :: ds) => processDetails s (sortDetails (d :: ds))
  | _ =>
      match maybeThinking with
      | Some t => processThinking s t
      | None => (s, false)
      end
  end.

(** The block [// Process Text Content] for a truthy [content]. *)
Definition processContent (s : State) (content : string) : State * bool :=
  let '(sx, emittedAny, remainingText) := processXmlThinkBlocks s content in
  if 0 <? String.length remainingText then
    let hasVisibleContent := 0 <? String.length (trim remainingText) in
    let sc :=
      if hasVisibleContent && truthyOpt (_currentThinkingId sx)
      then set_thinkingId None
             (report (LanguageModelThinkingPart "" (_currentThinkingId sx)
                        None) sx)
      else sx in
    let '(st, emittedText) := processTextContent sc remainingText in
    (if emittedText then set_misc true (draws st) st else st,
     emittedAny || emittedText)
  else (sx, emittedAny).

(** [processDelta]: the state and the value returned. *)
Definition processDelta (s : State) (delta : Delta) : State * bool :=
  match choices delta with
  | [] => (s, false)
  | choice :: _ =>
      let '(s2, e2) := processReasoning s choice in
      let '(s3, e3) :=
        match field choice d_content with
        | Some content =>
            if truthy content then processContent s2 content else (s2, false)
        | None => (s2, false)
        end in
      let '(s4, e4) :=
        match field choice d_tool_calls with
        | Some toolCalls => processToolCalls s3 toolCalls
        | None => (s3, false)
        end in
      let emitted := e2 || e3 || e4 in
      match c_finish_reason choice with
      | Some finish =>
          if String.eqb finish "tool_calls" || String.eqb finish "stop"
          then (flushToolCallBuffers s4, emitted)
          else (s4, emitted)
      | None => (s4, emitted)
      end
  end.

(** The [finally] block of [processStreamingResponse]. *)
Definition finally (s : State) : State :=
  let s1 := closeActiveThinking s in
  set_reasoning (_currentResponseReasoningDetails s1) ""
    (set_thinkingId None
       (set_tools [] (_emittedTextToolCallKeys s1) s1)).

(** What [[DONE]] does before the function returns.
    [flushActiveTextToolCall] returns at its first line, [_textToolActive]
    being never set. *)
Definition done (s : State) : State :=
  closeActiveThinking (flushReasoningBuffer (flushToolCallBuffers s)).

(** [processStreamingResponse] over the lines of the stream: [[DONE]]
    ends it; so does the end of the lines.  Cancellation is not
    modelled. *)
Fixpoint processStreamingResponse (s : State) (lines : list StreamLine)
  : State :=
  match lines with
  | [] => finally s
  | Done :: _ => finally (done s)
  | Data d :: rest => processStreamingResponse (fst (processDelta s d)) rest
  end.

End Embedding.

(** *** Notions used to state the properties of the reasoning buffer *)

(** The metadata [{ type: "reasoning.text" }] of a flushed buffer. *)
Definition flushMetadata : Metadata :=
  {| md_format := None; md_type := Some "reasoning.text"; md_index := None;
     md_signature := None; md_data := None |}.

(** The part that flushes the pending buffer of [s], if it is not empty. *)
Definition pendingFlush (id : option string) (s : State)
  : list LanguageModelResponsePart :=
  if 0 <? String.length (_reasoningTextBuffer s)
  then [LanguageModelThinkingPart (_reasoningTextBuffer s) id
          (Some flushMetadata)]
  else [].

End Coalescer.


(** ** Streams and views of the state used in the statements *)

Module KimiStreams.
Import JSString Kimi.

(** One call of a tool section as the model writes it: the text before
    the call-begin sentinel, the name and the arguments. *)
Record Call := { junk : string; callName : string; callArgs : string }.

Definition renderCall (c : Call) : string :=
  junk c ++ CALL_BEGIN ++ callName c ++ ARG_BEGIN ++ callArgs c ++ CALL_END.

(** A stream with one tool section: the text before it, its calls and
    what follows the last call. *)
Definition renderStream (before : string) (calls : list Call) (rest : string)
  : string :=
  before ++ SECTION_BEGIN ++ join (map renderCall calls) ++ rest.

(** The text holds no occurrence of the token, and none begins in it
    that the token itself would complete: in [text ++ token] the token is
    first found where the text ends. *)
Definition firstAt (token text : string) : Prop :=
  indexOf token (text ++ token) = Some (String.length text).

Definition WellFormed (c : Call) : Prop :=
  firstAt CALL_BEGIN (junk c) /\ firstAt ARG_BEGIN (callName c) /\
  firstAt CALL_END (callArgs c).

(** The result pushed for a call. *)
Definition toolOf (c : Call) : StreamResult :=
  toolResult (trim (callName c)) (trim (callArgs c)).

Definition isToolResult (r : StreamResult) : Prop :=
  type r = tool /\ content r = None.

End KimiStreams.

Module Streams.
Import JSString Json Host.

(** The lines of a stream that carries text content only. *)
Definition contentLines (fragments : list string) : list StreamLine :=
  map (fun f => Data (contentDelta f)) fragments.

(** The first fragment that is not empty has no opening think tag. *)
Definition startsPlain (fragments : list string) : Prop :=
  match filter truthy fragments with
  | f :: _ => indexOf "<think>" f = None
  | [] => True
  end.

(** A fragment that holds one whole think block. *)
Definition thinkBlock (before thought after : string) : string :=
  before ++ "<think>" ++ thought ++ "</think>" ++ after.

(** The lines of a stream that carries reasoning details only. *)
Definition reasoningLines (dss : list (list ReasoningDetail))
  : list StreamLine :=
  map (fun ds => Data (reasoningDelta ds)) dss.

(** Lines that carry further pieces of the arguments of a call. *)
Definition pieceLines (index : nat) (pieces : list string) : list StreamLine :=
  map (fun piece =>
         Data (toolCallsDelta [fragment index None None (Some piece)] None))
    pieces.

(** The lines that carry the arguments of one call in pieces; the first
    has the identifier and the name. *)
Definition argumentLines (index : nat) (id : option string) (name : string)
  (first : string) (rest : list string) : list StreamLine :=
  Data (toolCallsDelta [fragment index id (Some name) (Some first)] None)
  :: pieceLines index rest.

End Streams.

Module ProviderViews.
Import JSString Json Host Provider.

(** The map of reasoning details holds at most 101 entries, under keys
    that are not empty. *)
Definition BoundedMap (m : list (string * list ReasoningDetail)) : Prop :=
  List.length m <= 101 /\ Forall (fun e => truthy (fst e) = true) m.

(** The first entry with the given index,
    [details.find(d => d.index === index)]. *)
Definition detailAt (index : option Z) (details : list ReasoningDetail)
  : option ReasoningDetail :=
  find (fun e => option_Z_eqb (rd_index e) index) details.

Definition isText (d : ReasoningDetail) : bool :=
  String.eqb (rd_type d) "reasoning.text".

(** The text of the [reasoning.text] entries with the given index, in
    order. *)
Definition textAt (index : option Z) (details : list ReasoningDetail)
  : string :=
  join (map rd_text
          (filter (fun d => option_Z_eqb (rd_index d) index && isText d)
             details)).

(** A record that waits for more of its arguments, in a response that
    has reported nothing and holds no signature. *)
Definition Waiting (index : nat) (id : option string) (name args : string)
  (s : State) : Prop :=
  reported s = [] /\
  _toolCallBuffers s
  = [(index, {| buf_id := id; buf_name := Some name; buf_args := args;
                buf_thoughtSignature := None |})] /\
  _completedToolCallIndices s = [] /\
  _hasEmittedAssistantText s = false /\
  _currentReasoningSignature s = None /\
  _currentResponseReasoningDetails s = [] /\
  draws s = 0.

(** The message of the history that answers a tool call. *)
Definition toolMessage (id : string) : OpenAIMessage :=
  {| role := "tool"; tool_calls := None; tool_call_id := Some id;
     reasoning_details := None |}.

End ProviderViews.

Module CoalescerViews.
Import JSString Json Host Coalescer.

(** The values of the thinking parts, joined. *)
Fixpoint thinkingText (parts : list LanguageModelResponsePart) : string :=
  match parts with
  | [] => ""
  | LanguageModelThinkingPart value _ _ :: rest => value ++ thinkingText rest
  | _ :: rest => thinkingText rest
  end.

(** The text that [processDelta] extracts from an entry. *)
Definition detailText (d : ReasoningDetail) : string := fst (fst (extract d)).

(** The value of a thinking part is longer than 4000 characters. *)
Definition largeThinking (part : LanguageModelResponsePart) : Prop :=
  match part with
  | LanguageModelThinkingPart value _ _ => 4000 < String.length value
  | _ => False
  end.

End CoalescerViews.

(** ** The lines of the event stream, [processStreamingResponse] of
    [src/provider.ts] *)

Module Sse.
Import JSString.

Definition NEWLINE : string := String (ascii_of_nat 10) EmptyString.

(** One pass of the [while] loop up to the [for] loop: the chunk, already
    decoded, is appended to [buffer]; the complete lines are handed on and
    the piece after the last line feed is kept
    ([buffer = lines.pop() || ""]). *)
Definition readChunk (buffer chunk : string) : list string * string :=
  let lines := split NEWLINE (buffer ++ chunk) in
  (removelast lines, last lines "").

(** The lines handed on over the chunks of a stream, and the buffer at
    its end. *)
Fixpoint readChunks (buffer : string) (chunks : list string)
  : list string * string :=
  match chunks with
  | [] => ([], buffer)
  | chunk :: rest =>
      let '(lines, buffer1) := readChunk buffer chunk in
      let '(more, buffer2) := readChunks buffer1 rest in
      ((lines ++ more)%list, buffer2)
  end.

End Sse.

(** ** [reconstructReasoningDetails] of [src/provider.ts] *)

Module History.
Import JSString Json Host.

(** [LanguageModelChatMessageRole]. *)
Inductive Role := User | Assistant | System.

(** [p.value] of a thinking part: a string or an array of strings. *)
Inductive PartValue : Type :=
| ValueString (s : string)
| ValueArray (l : list string).

(** The parts of the content of a message that the function tells
    apart with [instanceof]. *)
Inductive MessagePart : Type :=
| ThinkingPart (value : PartValue) (id : option string)
    (metadata : option Metadata)
| ToolCallPart (callId : string) (name : string) (input : json)
| OtherPart.

Record ChatMessage := { msg_role : Role; msg_content : list MessagePart }.

(** An entry made by the function: the fields it sets, per type. *)
Record HistoryDetail := {
  hd_type : string;
  hd_text : option string;
  hd_summary : option string;
  hd_data : option string;
  hd_signature : option string;
  hd_format : option string;
  hd_index : option Z;
  hd_id : option string
}.

Definition SIG_SEPARATOR := "::gemini_sig::".

(** [Array.isArray(p.value) ? p.value.join("") : p.value] *)
Definition valueText (v : PartValue) : string :=
  match v with ValueString s => s | ValueArray l => join l end.

(** [m.content.filter((p) => p instanceof LanguageModelThinkingPart)] *)
Fixpoint thinkingParts (content : list MessagePart)
  : list (PartValue * option string * option Metadata) :=
  match content with
  | [] => []
  | ThinkingPart v i m :: rest => (v, i, m) :: thinkingParts rest
  | _ :: rest => thinkingParts rest
  end.

(** The [callId]s of
    [m.content.filter((p) => p instanceof LanguageModelToolCallPart)]. *)
Fixpoint toolCallIds (content : list MessagePart) : list string :=
  match content with
  | [] => []
  | ToolCallPart c _ _ :: rest => c :: toolCallIds rest
  | _ :: rest => toolCallIds rest
  end.

(** The fallback loop over the tool calls: [signature] is assigned the
    second piece of every identifier that holds the separator, and the
    loop stops at the first piece that is not empty. *)
Fixpoint signatureFromIds (signature : option string) (callIds : list string)
  : option string :=
  match callIds with
  | [] => signature
  | callId :: rest =>
      if truthy callId && includes SIG_SEPARATOR callId then
        let signature' := nth_error (split SIG_SEPARATOR callId) 1 in
        if truthyOpt signature' then signature'
        else signatureFromIds signature' rest
      else signatureFromIds signature rest
  end.

(** The body of [for (const p of thinkingParts)]: what is pushed. *)
Definition detailOf (callIds : list string)
  (p : PartValue * option string * option Metadata) : list HistoryDetail :=
  let '(value, id, metadata) := p in
  match metadata with
  | None => []
  | Some md =>
      match md_type md with
      | None => []
      | Some type =>
          if negb (truthy type) then []
          else if String.eqb type "reasoning.text" then
            let signature :=
              if truthyOpt (md_signature md) then md_signature md
              else signatureFromIds (md_signature md) callIds in
            [{| hd_type := "reasoning.text"; hd_text := Some (valueText value);
                hd_summary := None; hd_data := None;
                hd_signature := signature; hd_format := md_format md;
                hd_index := md_index md; hd_id := id |}]
          else if String.eqb type "reasoning.summary" then
            [{| hd_type := "reasoning.summary"; hd_text := None;
                hd_summary := Some (valueText value); hd_data := None;
                hd_signature := None; hd_format := md_format md;
                hd_index := md_index md; hd_id := id |}]
          else if String.eqb type "reasoning.encrypted" then
            if truthyOpt (md_data md) then
              [{| hd_type := "reasoning.encrypted"; hd_text := None;
                  hd_summary := None; hd_data := md_data md;
                  hd_signature := None; hd_format := md_format md;
                  hd_index := md_index md; hd_id := id |}]
            else []
          else []
      end
  end.

(** The body of [for (const m of messages)]. *)
Definition reconstructMessage (map : list (string * list HistoryDetail))
  (m : ChatMessage) : list (string * list HistoryDetail) :=
  match msg_role m with
  | Assistant =>
      let thinking := thinkingParts (msg_content m) in
      let callIds := toolCallIds (msg_content m) in
      if (List.length callIds =? 0) || (List.length thinking =? 0) then map
      else
        let details := flat_map (detailOf callIds) thinking in
        if 0 <? List.length details then
          fold_left
            (fun acc callId =>
               if truthy callId then OrderedMap.set String.eqb callId details acc
               else acc)
            callIds map
        else map
  | _ => map
  end.

Definition reconstructReasoningDetails (messages : list ChatMessage)
  : list (string * list HistoryDetail) :=
  fold_left reconstructMessage messages [].

(** A part reported to the host, as a later request hands it back. *)
Definition asMessagePart (part : LanguageModelResponsePart) : MessagePart :=
  match part with
  | LanguageModelTextPart _ => OtherPart
  | LanguageModelThinkingPart value id metadata =>
      ThinkingPart (ValueString value) id metadata
  | LanguageModelToolCallPart callId name input =>
      ToolCallPart callId name input
  end.

End History.

(** ** Preparing a request: [provideLanguageModelChatResponse] *)

Module Request.
Import JSString.

(** *** The API key, [ensureApiKey] *)

(** [vscode.SecretStorage]: [get] and [store]. *)
Definition Secrets : Type := list (string * string).

(** What a call does besides returning the key: the secrets afterwards
    and the title of the input box it showed, if it showed one. *)
Record KeyResult := {
  apiKey : option string;
  secrets : Secrets;
  prompted : option string
}.

Section ApiKey.

(** [String.prototype.toLowerCase], and what the user types into the
    input box ([undefined] when the box is dismissed). *)
Variable toLowerCase : string -> string.
Variable entered : option string.

(** [if (entered && entered.trim()) { apiKey = entered.trim(); store }] *)
Definition acceptEntered (key title : string) (apiKey0 : option string)
  (store : Secrets) : KeyResult :=
  match entered with
  | Some e =>
      if truthy e && truthy (trim e)
      then {| apiKey := Some (trim e);
              secrets := OrderedMap.set String.eqb key (trim e) store;
              prompted := Some title |}
      else {| apiKey := apiKey0; secrets := store; prompted := Some title |}
  | None => {| apiKey := apiKey0; secrets := store; prompted := Some title |}
  end.

Definition ensureApiKey (store : Secrets) (useGenericKey : bool)
  (provider : option string) : KeyResult :=
  let first :=
    match provider with
    | Some p =>
        if truthy p && negb (String.eqb (trim p) "") then
          let normalizedProvider := toLowerCase p in
          let providerKey := "oaicopilot.apiKey." ++ normalizedProvider in
          let apiKey0 := OrderedMap.get String.eqb providerKey store in
          if negb (truthyOpt apiKey0) && negb useGenericKey
          then acceptEntered providerKey
                 ("API Key for " ++ normalizedProvider) apiKey0 store
          else {| apiKey := apiKey0; secrets := store; prompted := None |}
        else {| apiKey := None; secrets := store; prompted := None |}
    | None => {| apiKey := None; secrets := store; prompted := None |}
    end in
  let second :=
    if negb (truthyOpt (apiKey first))
    then {| apiKey := OrderedMap.get String.eqb "oaicopilot.apiKey"
                        (secrets first);
            secrets := secrets first; prompted := prompted first |}
    else first in
  if negb (truthyOpt (apiKey second)) && useGenericKey
  then acceptEntered "oaicopilot.apiKey" "API Key" (apiKey second)
         (secrets second)
  else second.

(** The key under which the key of a provider is stored, when the
    provider is given. *)
Definition providerKeyOf (provider : option string) : option string :=
  match provider with
  | Some p =>
      if truthy p && negb (String.eqb (trim p) "")
      then Some ("oaicopilot.apiKey." ++ toLowerCase p) else None
  | None => None
  end.

End ApiKey.

(** *** The endpoint *)

(** [BASE_URL.replace(/\/+$/, "")]: the slashes at the end are removed. *)
Fixpoint stripTrailingSlashes (s : string) : string :=
  match s with
  | EmptyString => EmptyString
  | String c r =>
      match stripTrailingSlashes r with
      | EmptyString =>
          if Ascii.eqb c "/" then EmptyString else String c EmptyString
      | r' => String c r'
      end
  end.

(** The last character is a slash. *)
Fixpoint endsWithSlash (s : string) : bool :=
  match s with
  | EmptyString => false
  | String c EmptyString => Ascii.eqb c "/"
  | String _ r => endsWithSlash r
  end.

(** The address of the request, or [None] for
    [throw new Error("Invalid base URL configuration.")]. *)
Definition endpoint (baseUrl : string) : option string :=
  if negb (truthy baseUrl) || negb (startsWith "http" baseUrl) then None
  else Some (stripTrailingSlashes baseUrl ++ "/chat/completions").

(** *** The model of the request *)

(** The fields of an entry of [oaicopilot.models] read by the lookup, and
    [parseModelId(model.id)]. *)
Record ModelItem := { item_id : string; item_configId : option string }.
Record ParsedModelId := { baseId : string; configId : option string }.

Definition sameConfig (a b : option string) : bool :=
  match a, b with
  | Some x, Some y => String.eqb x y
  | None, None => true
  | _, _ => false
  end.

(** The two [userModels.find] of the lookup. *)
Definition findModel (userModels : list ModelItem) (parsed : ParsedModelId)
  : option ModelItem :=
  let exact :=
    find (fun um =>
            String.eqb (item_id um) (baseId parsed)
            && ((truthyOpt (configId parsed)
                 && sameConfig (item_configId um) (configId parsed))
                || (negb (truthyOpt (configId parsed))
                    && negb (truthyOpt (item_configId um)))))
      userModels in
  match exact with
  | Some um => Some um
  | None => find (fun um => String.eqb (item_id um) (baseId parsed)) userModels
  end.

End Request.

(** ** The body of the request, [prepareRequestBody] of [src/provider.ts] *)

Module Body.
Import JSString Json.

(** [rb]: the members of the object.  Only what is stored under a name
    is modelled, not the order in which [JSON.stringify] writes the
    members. *)
Definition Body : Type := list (string * json).

(** The fields of [HFModelItem] that the function reads, as the settings
    give them: [None] is [undefined] and [Some JNull] is [null]. *)
Record UserModel := {
  um_temperature : option json;
  um_top_p : option json;
  um_max_tokens : option json;
  um_max_completion_tokens : option json;
  um_reasoning_effort : option json;
  um_enable_thinking : option json;
  um_thinking_budget : option json;
  um_thinking : option json;
  um_reasoning : option json;
  um_top_k : option json;
  um_min_p : option json;
  um_frequency_penalty : option json;
  um_presence_penalty : option json;
  um_repetition_penalty : option json;
  um_extra : option json
}.

(** [options.modelOptions]. *)
Record ModelOptions := {
  mo_temperature : option json;
  mo_top_p : option json;
  mo_stop : option json
}.

(** The result of [convertTools(options)]. *)
Record ToolConfig := { tools : option json; tool_choice : option json }.

(** A number literal that denotes zero: its digits before the exponent
    are all [0]. *)
Fixpoint isZeroLiteral (literal : string) : bool :=
  match literal with
  | EmptyString => true
  | String c rest =>
      if Ascii.eqb c "e" || Ascii.eqb c "E" then true
      else (Ascii.eqb c "0" || Ascii.eqb c "-" || Ascii.eqb c ".")
           && isZeroLiteral rest
  end.

(** Truthiness of a value. *)
Definition jsTruthy (v : json) : bool :=
  match v with
  | JNull => false
  | JBool b => b
  | JNumber literal => negb (isZeroLiteral literal)
  | JString s => truthy s
  | JArray _ | JObject _ => true
  end.

(** [v ?? d] *)
Definition orDefault (v : option json) (d : json) : json :=
  match v with
  | Some JNull | None => d
  | Some x => x
  end.

(** [um?.f] *)
Definition umField (um : option UserModel) (f : UserModel -> option json)
  : option json :=
  match um with Some u => f u | None => None end.

(** [v.name] for a value that is neither [null] nor [undefined]: only an
    object of the settings has the members read here. *)
Definition property (name : string) (v : json) : option json :=
  match v with
  | JObject members => OrderedMap.get String.eqb name members
  | _ => None
  end.

(** [if (v !== undefined) rb.name = v] *)
Definition setIf (name : string) (v : option json) (rb : Body) : Body :=
  match v with
  | Some x => OrderedMap.set String.eqb name x rb
  | None => rb
  end.

(** [if (um && um.f === null) delete rb.name] *)
Definition deleteIfNull (name : string) (v : option json) (rb : Body) : Body :=
  match v with
  | Some JNull => OrderedMap.delete String.eqb name rb
  | _ => rb
  end.

(** [enable_thinking] and, with it only, [thinking_budget]. *)
Definition setThinkingSwitch (um : option UserModel) (rb : Body) : Body :=
  match umField um um_enable_thinking with
  | Some enableThinking =>
      setIf "thinking_budget" (umField um um_thinking_budget)
        (OrderedMap.set String.eqb "enable_thinking" enableThinking rb)
  | None => rb
  end.

(** [if (um?.thinking?.type !== undefined) rb.thinking = { type }] *)
Definition setThinking (um : option UserModel) (rb : Body) : Body :=
  match umField um um_thinking with
  | Some thinking =>
      match property "type" thinking with
      | Some type =>
          OrderedMap.set String.eqb "thinking" (JObject [("type", type)]) rb
      | None => rb
      end
  | None => rb
  end.

(** [effort && effort !== "auto"] *)
Definition usableEffort (effort : option json) : bool :=
  match effort with
  | Some v =>
      jsTruthy v
      && match v with JString s => negb (String.eqb s "auto") | _ => true end
  | None => false
  end.

(** [reasoningObj] for a configuration that is not switched off. *)
Definition reasoningObject (reasoningConfig : json) : json :=
  let effort := property "effort" reasoningConfig in
  let maxTokensReasoning :=
    match property "max_tokens" reasoningConfig with
    | Some v => if jsTruthy v then v else JNumber "2000"
    | None => JNumber "2000"
    end in
  let reasoningObj :=
    if usableEffort effort
    then match effort with Some v => [("effort", v)] | None => [] end
    else [("max_tokens", maxTokensReasoning)] in
  JObject (setIf "exclude" (property "exclude" reasoningConfig) reasoningObj).

(** The block [if (um?.reasoning !== undefined)]; reading a member of
    [null] throws, which is [None]. *)
Definition setReasoning (um : option UserModel) (rb : Body) : option Body :=
  match umField um um_reasoning with
  | Some JNull => None
  | Some reasoningConfig =>
      match property "enabled" reasoningConfig with
      | Some (JBool false) => Some rb
      | _ =>
          Some (OrderedMap.set String.eqb "reasoning"
                  (reasoningObject reasoningConfig) rb)
      end
  | None => Some rb
  end.

(** [if (typeof mo.stop === "string" || Array.isArray(mo.stop))] *)
Definition setStop (modelOptions : option ModelOptions) (rb : Body) : Body :=
  match modelOptions with
  | Some mo =>
      match mo_stop mo with
      | Some (JString s) => OrderedMap.set String.eqb "stop" (JString s) rb
      | Some (JArray l) => OrderedMap.set String.eqb "stop" (JArray l) rb
      | _ => rb
      end
  | None => rb
  end.

(** [if (toolConfig.f) rb.f = toolConfig.f] *)
Definition setIfTruthy (name : string) (v : option json) (rb : Body) : Body :=
  match v with
  | Some x => if jsTruthy x then OrderedMap.set String.eqb name x rb else rb
  | None => rb
  end.

(** [Object.entries(um.extra)] for a value that is truthy and of type
    ["object"]: the members of an object, the elements of an array under
    their indices. *)
Definition entries (extra : json) : list (string * json) :=
  match extra with
  | JObject members => members
  | JArray elements =>
      combine
        (map (fun i => NilEmpty.string_of_uint (Nat.to_uint i))
           (seq 0 (List.length elements)))
        elements
  | _ => []
  end.

Definition extraEntries (um : option UserModel) : list (string * json) :=
  match umField um um_extra with
  | Some extra => entries extra
  | None => []
  end.

Definition setExtra (um : option UserModel) (rb : Body) : Body :=
  fold_left (fun acc e => OrderedMap.set String.eqb (fst e) (snd e) acc)
    (extraEntries um) rb.

Definition prepareRequestBody (rb : Body) (um : option UserModel)
  (modelOptions : option ModelOptions) (toolConfig : ToolConfig)
  : option Body :=
  let oTemperature :=
    orDefault (match modelOptions with
               | Some mo => mo_temperature mo
               | None => None
               end) (JNumber "0") in
  let temperature := orDefault (umField um um_temperature) oTemperature in
  let rb1 := OrderedMap.set String.eqb "temperature" temperature rb in
  let oTopP :=
    orDefault (match modelOptions with
               | Some mo => mo_top_p mo
               | None => None
               end) (JNumber "1") in
  let topP := orDefault (umField um um_top_p) oTopP in
  let rb2 := OrderedMap.set String.eqb "top_p" topP rb1 in
  let rb3 := deleteIfNull "temperature" (umField um um_temperature) rb2 in
  let rb4 := deleteIfNull "top_p" (umField um um_top_p) rb3 in
  let rb5 := setIf "max_tokens" (umField um um_max_tokens) rb4 in
  let rb6 :=
    setIf "max_completion_tokens" (umField um um_max_completion_tokens) rb5 in
  let rb7 := setIf "reasoning_effort" (umField um um_reasoning_effort) rb6 in
  let rb8 := setThinkingSwitch um rb7 in
  let rb9 := setThinking um rb8 in
  match setReasoning um rb9 with
  | None => None
  | Some rb10 =>
      let rb11 := setStop modelOptions rb10 in
      let rb12 := setIfTruthy "tools" (tools toolConfig) rb11 in
      let rb13 := setIfTruthy "tool_choice" (tool_choice toolConfig) rb12 in
      let rb14 := setIf "top_k" (umField um um_top_k) rb13 in
      let rb15 := setIf "min_p" (umField um um_min_p) rb14 in
      let rb16 :=
        setIf "frequency_penalty" (umField um um_frequency_penalty) rb15 in
      let rb17 :=
        setIf "presence_penalty" (umField um um_presence_penalty) rb16 in
      let rb18 :=
        setIf "repetition_penalty" (umField um um_repetition_penalty) rb17 in
      Some (setExtra um rb18)
  end.

(** The names that the function writes besides those of [extra]. *)
Definition writtenNames : list string :=
  ["temperature"; "top_p"; "max_tokens"; "max_completion_tokens";
   "reasoning_effort"; "enable_thinking"; "thinking_budget"; "thinking";
   "reasoning"; "stop"; "tools"; "tool_choice"; "top_k"; "min_p";
   "frequency_penalty"; "presence_penalty"; "repetition_penalty"].

(** An entry of the settings with the given temperature, [reasoning]
    and [extra], and nothing else. *)
Definition modelWith (temperature reasoning extra : option json)
  : UserModel :=
  {| um_temperature := temperature; um_top_p := None; um_max_tokens := None;
     um_max_completion_tokens := None; um_reasoning_effort := None;
     um_enable_thinking := None; um_thinking_budget := None;
     um_thinking := None; um_reasoning := reasoning; um_top_k := None;
     um_min_p := None; um_frequency_penalty := None;
     um_presence_penalty := None; um_repetition_penalty := None;
     um_extra := extra |}.

End Body.

(** * Proofs *)

(** ** Facts about the string primitives *)

Module JSStringFacts.
Import JSString.

Lemma append_nil_r (s : string) : s ++ "" = s.
Proof. induction s as [|c s IH]; simpl; [reflexivity | now rewrite IH]. Qed.

Lemma append_assoc (a b c : string) : (a ++ b) ++ c = a ++ (b ++ c).
Proof. induction a as [|x a IH]; simpl; [reflexivity | now rewrite IH]. Qed.

Lemma length_append (a b : string) :
  String.length (a ++ b) = String.length a + String.length b.
Proof. induction a as [|x a IH]; simpl; [reflexivity | now rewrite IH]. Qed.

Lemma length_zero (s : string) : String.length s = 0 -> s = "".
Proof. destruct s; simpl; [reflexivity | discriminate]. Qed.

Lemma length_take (n : nat) (s : string) :
  String.length (take n s) = Nat.min n (String.length s).
Proof.
  revert s; induction n as [|n IH]; intros [|c s]; simpl; auto.
Qed.

Lemma length_drop (n : nat) (s : string) :
  String.length (drop n s) = String.length s - n.
Proof.
  revert s; induction n as [|n IH]; intros [|c s]; simpl; auto.
Qed.

Lemma take_drop (n : nat) (s : string) : take n s ++ drop n s = s.
Proof.
  revert s; induction n as [|n IH]; intros [|c s]; simpl; auto.
  now rewrite IH.
Qed.

Lemma take_0 (s : string) : take 0 s = "".
Proof. now destruct s. Qed.

Lemma take_all (n : nat) (s : string) : String.length s <= n -> take n s = s.
Proof.
  revert s; induction n as [|n IH]; intros [|c s]; simpl; intro H; auto.
  - lia.
  - rewrite IH; [reflexivity | lia].
Qed.

Lemma drop_all (n : nat) (s : string) : String.length s <= n -> drop n s = "".
Proof.
  revert s; induction n as [|n IH]; intros [|c s]; simpl; intro H; auto.
  - lia.
  - apply IH; lia.
Qed.

Lemma take_app_le (n : nat) (a b : string) :
  n <= String.length a -> take n (a ++ b) = take n a.
Proof.
  revert a; induction n as [|n IH]; intros [|c a]; simpl; intro H; auto;
    try reflexivity; try lia.
  rewrite IH; [reflexivity | lia].
Qed.

Lemma take_app_ge (n : nat) (a b : string) :
  take (String.length a + n) (a ++ b) = a ++ take n b.
Proof. induction a as [|c a IH]; simpl; [reflexivity | now rewrite IH]. Qed.

Lemma drop_app_le (n : nat) (a b : string) :
  n <= String.length a -> drop n (a ++ b) = drop n a ++ b.
Proof.
  revert a; induction n as [|n IH]; intros [|c a]; simpl; intro H; auto.
  - lia.
  - apply IH; lia.
Qed.

Lemma drop_app_ge (n : nat) (a b : string) :
  drop (String.length a + n) (a ++ b) = drop n b.
Proof. induction a as [|c a IH]; simpl; auto. Qed.

Lemma take_length_app (a b : string) : take (String.length a) (a ++ b) = a.
Proof.
  rewrite <- (Nat.add_0_r (String.length a)), take_app_ge, take_0.
  apply append_nil_r.
Qed.

Lemma drop_length_app (a b : string) : drop (String.length a) (a ++ b) = b.
Proof. now rewrite <- (Nat.add_0_r (String.length a)), drop_app_ge. Qed.

Lemma take_take (n m : nat) (s : string) :
  take n (take m s) = take (Nat.min n m) s.
Proof.
  revert m s; induction n as [|n IH]; intros [|m] [|c s]; simpl; auto.
  now rewrite IH.
Qed.

Lemma substring_0 (s : string) (n : nat) : substring s 0 n = take n s.
Proof.
  unfold substring. rewrite Nat.max_0_l, Nat.min_0_l, Nat.sub_0_r.
  reflexivity.
Qed.

Lemma append_inv_l (a b c : string) : a ++ b = a ++ c -> b = c.
Proof. induction a as [|x a IH]; simpl; intro H; [assumption|]. injection H; auto. Qed.

(** *** [startsWith] *)

Lemma startsWith_app (t r : string) : startsWith t (t ++ r) = true.
Proof.
  induction t as [|c t IH]; simpl; [reflexivity|].
  now rewrite Ascii.eqb_refl, IH.
Qed.

Lemma startsWith_inv (t s : string) :
  startsWith t s = true -> s = t ++ drop (String.length t) s.
Proof.
  revert s; induction t as [|c t IH]; intros [|d s]; simpl; intro H;
    try reflexivity; try discriminate.
  apply andb_true_iff in H as [Hc Ht].
  apply Ascii.eqb_eq in Hc; subst d.
  now rewrite <- IH.
Qed.

Lemma startsWith_length (t s : string) :
  startsWith t s = true -> String.length t <= String.length s.
Proof.
  intro H. rewrite (startsWith_inv _ _ H), length_append. lia.
Qed.

Lemma startsWith_app_long (t s c : string) :
  String.length t <= String.length s ->
  startsWith t (s ++ c) = startsWith t s.
Proof.
  revert s; induction t as [|x t IH]; intros [|d s]; simpl; intro H;
    try reflexivity; try lia.
  rewrite IH; [reflexivity | lia].
Qed.

Lemma startsWith_take (t s : string) (n : nat) :
  String.length t <= n -> startsWith t (take n s) = startsWith t s.
Proof.
  revert s n; induction t as [|x t IH]; intros [|d s] [|n]; simpl; intro H;
    try reflexivity; try lia.
  rewrite IH; [reflexivity | lia].
Qed.

(** *** [indexOf]: the first position where the token starts *)

Lemma indexOf_Some (t s : string) (n : nat) :
  indexOf t s = Some n ->
  startsWith t (drop n s) = true /\
  n + String.length t <= String.length s /\
  (forall m, m < n -> startsWith t (drop m s) = false).
Proof.
  revert n; induction s as [|c s IH]; intros n; simpl.
  - destruct (startsWith t "") eqn:E; [|discriminate].
    intro H; injection H as <-. simpl. split; [assumption|].
    split; [apply startsWith_length in E; simpl in E; lia | intros; lia].
  - destruct (startsWith t (String c s)) eqn:E.
    + intro H; injection H as <-. simpl. split; [assumption|].
      split; [apply startsWith_length in E; simpl in E; lia | intros; lia].
    + destruct (indexOf t s) as [k|] eqn:Ek; simpl; [|discriminate].
      intro H; injection H as <-.
      destruct (IH k eq_refl) as (H1 & H2 & H3). simpl.
      split; [assumption|]. split; [lia|].
      intros [|m] Hm; simpl; [assumption | apply H3; lia].
Qed.

Lemma indexOf_None (t s : string) :
  indexOf t s = None -> forall m, startsWith t (drop m s) = false.
Proof.
  induction s as [|c s IH]; simpl.
  - destruct (startsWith t "") eqn:E; [discriminate|].
    intros _ [|m]; simpl; assumption.
  - destruct (startsWith t (String c s)) eqn:E; [discriminate|].
    destruct (indexOf t s) eqn:Ek; simpl; [discriminate|].
    intros _ [|m]; simpl; [assumption | now apply IH].
Qed.

Lemma indexOf_first (t s : string) (n : nat) :
  startsWith t (drop n s) = true ->
  n <= String.length s ->
  (forall m, m < n -> startsWith t (drop m s) = false) ->
  indexOf t s = Some n.
Proof.
  revert n; induction s as [|c s IH]; intros n Hn Hle Hmin.
  - simpl in Hle. assert (n = 0) by lia; subst n. simpl in *.
    now rewrite Hn.
  - destruct n as [|n].
    + simpl in Hn. simpl. now rewrite Hn.
    + pose proof (Hmin 0 ltac:(lia)) as H0. simpl in H0.
      simpl indexOf. rewrite H0.
      rewrite (IH n); simpl in *; auto; try lia.
      intros m Hm. apply (Hmin (S m)). lia.
Qed.

Lemma indexOf_absent (t s : string) :
  (forall m, m <= String.length s -> startsWith t (drop m s) = false) ->
  indexOf t s = None.
Proof.
  induction s as [|c s IH]; intro H.
  - pose proof (H 0 ltac:(lia)) as H0. simpl in H0.
    simpl. now rewrite H0.
  - pose proof (H 0 ltac:(lia)) as H0. simpl in H0.
    simpl indexOf. rewrite H0.
    rewrite IH; [reflexivity|].
    intros m Hm. apply (H (S m)). simpl; lia.
Qed.

(** A token found in a text is found at the same place when more text
    is appended. *)
Lemma indexOf_app_found (t s c : string) (n : nat) :
  indexOf t s = Some n -> indexOf t (s ++ c) = Some n.
Proof.
  intro H. destruct (indexOf_Some _ _ _ H) as (H1 & H2 & H3).
  apply indexOf_first.
  - rewrite drop_app_le by lia.
    rewrite startsWith_app_long; [assumption|].
    rewrite length_drop; lia.
  - rewrite length_append; lia.
  - intros m Hm. rewrite drop_app_le by lia.
    rewrite startsWith_app_long; [now apply H3|].
    rewrite length_drop; lia.
Qed.

(** The first occurrence, when it starts after a prefix [a], is the
    first occurrence in what follows [a]. *)
Lemma indexOf_app_skip (t a b : string) (p : nat) :
  indexOf t (a ++ b) = Some p -> String.length a <= p ->
  indexOf t b = Some (p - String.length a).
Proof.
  intros H Hle. destruct (indexOf_Some _ _ _ H) as (H1 & H2 & H3).
  rewrite length_append in H2.
  apply indexOf_first.
  - replace p with (String.length a + (p - String.length a)) in H1 by lia.
    now rewrite drop_app_ge in H1.
  - lia.
  - intros m Hm. specialize (H3 (String.length a + m)).
    rewrite drop_app_ge in H3. apply H3. lia.
Qed.

Lemma indexOf_app_None (t a b : string) :
  indexOf t (a ++ b) = None -> indexOf t b = None.
Proof.
  intro H. apply indexOf_absent. intros m _.
  pose proof (indexOf_None _ _ H (String.length a + m)) as H'.
  now rewrite drop_app_ge in H'.
Qed.

Lemma indexOf_take_None (t s : string) (n : nat) :
  0 < String.length t ->
  indexOf t s = Some n -> indexOf t (take n s) = None.
Proof.
  intros Ht H.
  destruct (indexOf t (take n s)) as [m|] eqn:E; [|reflexivity].
  exfalso.
  destruct (indexOf_Some _ _ _ E) as (_ & Hm & _).
  rewrite length_take in Hm.
  apply (indexOf_app_found _ _ (drop n s)) in E.
  rewrite take_drop, H in E. injection E as <-. lia.
Qed.

Lemma indexOf_prefix_None (t s : string) (n : nat) :
  indexOf t s = None -> indexOf t (take n s) = None.
Proof.
  intro H.
  destruct (indexOf t (take n s)) as [m|] eqn:E; [|reflexivity].
  apply (indexOf_app_found _ _ (drop n s)) in E.
  rewrite take_drop, H in E. discriminate.
Qed.

(** *** [split] *)

Lemma revString_app (acc : list ascii) (r : string) :
  revString acc r = revString acc "" ++ r.
Proof.
  revert r; induction acc as [|c acc IH]; intro r; simpl; [reflexivity|].
  rewrite (IH (String c r)), (IH (String c "")), append_assoc. reflexivity.
Qed.

Lemma split_go_skip (sep : string) (k : nat) :
  forall s acc, split_go sep k acc s = split_go sep 0 acc (drop k s).
Proof.
  induction k as [|k IH]; intros [|c s] acc; simpl; try reflexivity.
  apply IH.
Qed.

Lemma split_go_absent (sep : string) :
  forall s acc, indexOf sep s = None ->
  split_go sep 0 acc s = [revString acc "" ++ s].
Proof.
  induction s as [|c s IH]; intros acc H.
  - simpl. now rewrite append_nil_r.
  - pose proof (indexOf_None _ _ H 0) as H0. simpl in H0.
    simpl split_go. rewrite H0.
    rewrite IH.
    + simpl. rewrite (revString_app acc (String c "")), append_assoc.
      reflexivity.
    + simpl in H. rewrite H0 in H.
      destruct (indexOf sep s); [discriminate | reflexivity].
Qed.

Lemma split_go_found (sep : string) (n : nat) :
  0 < String.length sep ->
  forall s acc, indexOf sep s = Some n ->
  split_go sep 0 acc s
  = (revString acc "" ++ take n s)
      :: split_go sep 0 [] (drop (n + String.length sep) s).
Proof.
  intro Hsep. induction n as [|n IH]; intros s acc H.
  - destruct (indexOf_Some _ _ _ H) as (H0 & Hle & _). simpl in H0.
    destruct s as [|c s]; [simpl in Hle; lia|].
    simpl split_go. rewrite H0, split_go_skip.
    rewrite take_0, append_nil_r.
    destruct (String.length sep) as [|m]; [lia|].
    simpl. now rewrite Nat.sub_0_r.
  - destruct (indexOf_Some _ _ _ H) as (_ & Hle & Hmin).
    destruct s as [|c s]; [simpl in Hle; lia|].
    pose proof (Hmin 0 ltac:(lia)) as H0. simpl in H0.
    simpl split_go. rewrite H0.
    assert (Hs : indexOf sep s = Some n).
    { simpl in H. rewrite H0 in H.
      destruct (indexOf sep s); simpl in H; [congruence | discriminate]. }
    rewrite (IH s (c :: acc) Hs). simpl.
    rewrite (revString_app acc (String c "")), append_assoc. reflexivity.
Qed.

(** Splitting an identifier that the separator joins. *)
Lemma split_joined (sep id sig : string) :
  0 < String.length sep ->
  indexOf sep (id ++ sep) = Some (String.length id) ->
  indexOf sep sig = None ->
  split sep (id ++ sep ++ sig) = [id; sig].
Proof.
  intros Hsep Hid Hsig. unfold split.
  assert (H : indexOf sep (id ++ sep ++ sig) = Some (String.length id)).
  { rewrite <- append_assoc. now apply indexOf_app_found. }
  rewrite (split_go_found sep _ Hsep _ [] H).
  simpl revString. simpl append at 1.
  rewrite take_length_app.
  rewrite drop_app_ge, drop_length_app.
  now rewrite (split_go_absent sep sig [] Hsig).
Qed.

End JSStringFacts.

(** ** Facts about the sentinel-token parser *)

Module KimiFacts.
Import JSString JSStringFacts Kimi.

(** *** The partial-match rule *)

Lemma findPartialMatch_loop_spec (text token : string) (i : nat) :
  let r := findPartialMatch_loop i text token in
  r <= i /\
  drop (String.length text - r) text = take r token /\
  (forall j, r < j <= i -> drop (String.length text - j) text <> take j token).
Proof.
  induction i as [|i IH]; simpl.
  - split; [lia|]. split; [|intros; lia].
    rewrite Nat.sub_0_r, drop_all by lia. reflexivity.
  - rewrite substring_0.
    destruct (String.eqb_spec (drop (String.length text - S i) text)
                (take (S i) token)) as [E|E].
    + split; [lia|]. split; [assumption | intros; lia].
    + destruct IH as (H1 & H2 & H3).
      split; [lia|]. split; [assumption|].
      intros j Hj. destruct (Nat.eq_dec j (S i)) as [->|Hne]; [assumption|].
      apply H3; lia.
Qed.

Lemma findPartialMatch_candidate (text token : string) :
  Candidate text token (findPartialMatch text token).
Proof.
  unfold Candidate, findPartialMatch.
  destruct (findPartialMatch_loop_spec text token
              (Nat.min (String.length text) (String.length token - 1)))
    as (H1 & H2 & _).
  repeat split; [lia | lia | assumption].
Qed.

Lemma findPartialMatch_max (text token : string) (j : nat) :
  Candidate text token j -> j <= findPartialMatch text token.
Proof.
  unfold Candidate, findPartialMatch. intros (H1 & H2 & H3).
  destruct (findPartialMatch_loop_spec text token
              (Nat.min (String.length text) (String.length token - 1)))
    as (_ & _ & Hmax).
  destruct (Nat.le_gt_cases j
              (findPartialMatch_loop
                 (Nat.min (String.length text) (String.length token - 1))
                 text token)) as [Hle|Hgt]; [assumption|].
  exfalso. apply (Hmax j); [lia | assumption].
Qed.

Lemma findPartialMatch_unique (text token : string) (k : nat) :
  Candidate text token k ->
  (forall j, Candidate text token j -> j <= k) ->
  findPartialMatch text token = k.
Proof.
  intros Hk Hmax.
  apply Nat.le_antisymm.
  - apply Hmax, findPartialMatch_candidate.
  - now apply findPartialMatch_max.
Qed.

(** A token that starts inside [X] and ends beyond it makes the tail of
    [X] from that position a candidate. *)
Lemma straddle_candidate (T X c : string) (p : nat) :
  indexOf T X = None -> p <= String.length X ->
  startsWith T (drop p (X ++ c)) = true ->
  Candidate X T (String.length X - p).
Proof.
  intros Hnone Hp Hs.
  rewrite drop_app_le in Hs by assumption.
  assert (Hlt : String.length X - p < String.length T).
  { destruct (Nat.lt_ge_cases (String.length X - p) (String.length T))
      as [|Hge]; [assumption|].
    rewrite startsWith_app_long in Hs by (rewrite length_drop; lia).
    rewrite (indexOf_None _ _ Hnone p) in Hs. discriminate. }
  unfold Candidate. split; [lia|]. split; [lia|].
  replace (String.length X - (String.length X - p)) with p by lia.
  apply startsWith_inv in Hs.
  apply (f_equal (take (String.length X - p))) in Hs.
  rewrite <- (length_drop p X) in Hs at 1.
  rewrite take_length_app in Hs.
  rewrite take_app_le in Hs by lia.
  exact Hs.
Qed.

Section SearchSplit.
Variables (T X c : string).
Hypothesis Hnone : indexOf T X = None.

Let k := findPartialMatch X T.
Let q := String.length X - k.
Let keep := drop q X.
Let out := take q X.

Lemma keep_length : String.length keep = k.
Proof.
  unfold keep, q. rewrite length_drop.
  destruct (findPartialMatch_candidate X T) as (H & _). fold k in H. lia.
Qed.

Lemma out_length : String.length out = q.
Proof. unfold out, q. rewrite length_take. lia. Qed.

Lemma split_text : X ++ c = out ++ (keep ++ c).
Proof.
  unfold out, keep. now rewrite <- append_assoc, take_drop.
Qed.

(** The token, when it shows up after more text arrived, starts in the
    part withheld or later. *)
Lemma found_after_withheld (p : nat) :
  indexOf T (X ++ c) = Some p ->
  q <= p /\
  indexOf T (keep ++ c) = Some (p - q) /\
  take p (X ++ c) = out ++ take (p - q) (keep ++ c) /\
  drop (p + String.length T) (X ++ c)
  = drop (p - q + String.length T) (keep ++ c).
Proof.
  intro H.
  assert (Hq : q <= p).
  { destruct (Nat.le_gt_cases p (String.length X)) as [Hle|Hgt];
      [|unfold q; lia].
    destruct (indexOf_Some _ _ _ H) as (Hs & _ & _).
    pose proof (findPartialMatch_max _ _ _
                  (straddle_candidate T X c p Hnone Hle Hs)) as Hm.
    fold k in Hm. unfold q. lia. }
  split; [assumption|].
  rewrite split_text in *.
  split.
  { rewrite <- out_length. apply indexOf_app_skip; [assumption|].
    now rewrite out_length. }
  split.
  - replace p with (String.length out + (p - q)) at 1
      by (rewrite out_length; lia).
    apply take_app_ge.
  - replace (p + String.length T)
      with (String.length out + (p - q + String.length T))
      by (rewrite out_length; lia).
    apply drop_app_ge.
Qed.

Lemma candidate_transfer (j : nat) :
  Candidate (X ++ c) T j <-> Candidate (keep ++ c) T j.
Proof.
  unfold Candidate.
  rewrite !length_append, keep_length.
  assert (Hk : k <= String.length X).
  { destruct (findPartialMatch_candidate X T) as (H & _). exact H. }
  split; intros (H1 & H2 & H3).
  - assert (Hj : j <= k + String.length c).
    { destruct (Nat.le_gt_cases j (k + String.length c)) as [|Hgt];
        [assumption|].
      exfalso.
      assert (Hc : Candidate X T (j - String.length c)).
      { unfold Candidate. split; [lia|]. split; [lia|].
        replace (String.length X + String.length c - j)
          with (String.length X - (j - String.length c)) in H3 by lia.
        rewrite drop_app_le in H3 by lia.
        apply (f_equal (take (j - String.length c))) in H3.
        rewrite take_take in H3.
        replace (Nat.min (j - String.length c) j)
          with (j - String.length c) in H3 by lia.
        rewrite take_app_le in H3 by (rewrite length_drop; lia).
        rewrite take_all in H3 by (rewrite length_drop; lia).
        exact H3. }
      apply findPartialMatch_max in Hc. fold k in Hc. lia. }
    split; [assumption|]. split; [assumption|].
    rewrite <- H3, split_text.
    replace (String.length X + String.length c - j)
      with (String.length out + (k + String.length c - j))
      by (rewrite out_length; unfold q; lia).
    now rewrite drop_app_ge.
  - split; [lia|]. split; [assumption|].
    rewrite <- H3, split_text.
    replace (String.length X + String.length c - j)
      with (String.length out + (k + String.length c - j))
      by (rewrite out_length; unfold q; lia).
    now rewrite drop_app_ge.
Qed.

(** When the token is still absent, the same number of characters is
    withheld whether or not the earlier text was already cut. *)
Lemma absent_after_withheld :
  indexOf T (X ++ c) = None ->
  let k' := findPartialMatch (X ++ c) T in
  indexOf T (keep ++ c) = None /\
  findPartialMatch (keep ++ c) T = k' /\
  k' <= String.length (keep ++ c) /\
  take (String.length (X ++ c) - k') (X ++ c)
  = out ++ take (String.length (keep ++ c) - k') (keep ++ c) /\
  drop (String.length (X ++ c) - k') (X ++ c)
  = drop (String.length (keep ++ c) - k') (keep ++ c).
Proof.
  intros H k'.
  assert (Hfp : findPartialMatch (keep ++ c) T = k').
  { apply findPartialMatch_unique.
    - apply candidate_transfer, findPartialMatch_candidate.
    - intros j Hj. apply findPartialMatch_max. now apply candidate_transfer. }
  assert (Hk' : k' <= String.length (keep ++ c)).
  { rewrite <- Hfp.
    destruct (findPartialMatch_candidate (keep ++ c) T) as (Hc & _).
    exact Hc. }
  split.
  { rewrite split_text in H. exact (indexOf_app_None _ _ _ H). }
  split; [assumption|]. split; [assumption|].
  assert (Hlen : String.length (X ++ c) - k'
                 = String.length out + (String.length (keep ++ c) - k')).
  { rewrite split_text at 1. rewrite length_append. lia. }
  rewrite Hlen. rewrite split_text.
  split; [apply take_app_ge | apply drop_app_ge].
Qed.

End SearchSplit.

(** *** The loop *)

Lemma sentinel_length (p : Parser) : 0 < String.length (sentinel p).
Proof.
  unfold sentinel.
  destruct (inToolSection p), (inToolCall p), (inArguments p); simpl; lia.
Qed.

Lemma set_buffer_same (p : Parser) : set_buffer p (buffer p) = p.
Proof. now destruct p. Qed.

Lemma feed_empty (p : Parser) : feed p "" = p.
Proof. unfold feed. rewrite append_nil_r. apply set_buffer_same. Qed.

Lemma iteration_shrinks (p p' : Parser) (pushed : list StreamResult) :
  0 < String.length (buffer p) ->
  iteration p = (p', pushed, true) ->
  String.length (buffer p') < String.length (buffer p).
Proof.
  intros Hlen. unfold iteration.
  destruct (inToolSection p), (inToolCall p), (inArguments p);
    cbn [negb];
    repeat match goal with
      | |- context [indexOf ?t ?s] => destruct (indexOf t s)
      | |- context [0 <? ?x] => destruct (0 <? x)
      end;
    intro H; inversion H; subst; cbn [buffer set_buffer];
    rewrite ?length_drop; simpl String.length; try lia.
Qed.

Lemma loop_acc (fuel : nat) (p : Parser) (acc : list StreamResult) :
  loop fuel p acc
  = (fst (loop fuel p []), (acc ++ snd (loop fuel p []))%list).
Proof.
  revert p acc; induction fuel as [|fuel IH]; intros p acc; simpl.
  - now rewrite app_nil_r.
  - destruct (String.length (buffer p) =? 0); simpl.
    + now rewrite app_nil_r.
    + destruct (iteration p) as [[p' pushed] cont].
      destruct cont; simpl; [|reflexivity].
      rewrite (IH p' (acc ++ pushed)%list), (IH p' pushed).
      simpl. now rewrite app_assoc.
Qed.

Lemma loop_fuel (fuel fuel' : nat) (p : Parser) (acc : list StreamResult) :
  String.length (buffer p) < fuel -> String.length (buffer p) < fuel' ->
  loop fuel p acc = loop fuel' p acc.
Proof.
  revert fuel' p acc; induction fuel as [|fuel IH];
    intros [|fuel'] p acc H1 H2; try lia.
  simpl.
  destruct (String.length (buffer p) =? 0) eqn:E; [reflexivity|].
  apply Nat.eqb_neq in E.
  destruct (iteration p) as [[p' pushed] cont] eqn:Eit.
  destruct cont; [|reflexivity].
  apply iteration_shrinks in Eit; [|lia].
  apply IH; lia.
Qed.

Lemma run_empty (p : Parser) : buffer p = "" -> run p = (p, []).
Proof. intro H. unfold run. simpl loop. rewrite H. reflexivity. Qed.

Lemma run_step (p p' : Parser) (pushed : list StreamResult) (cont : bool) :
  0 < String.length (buffer p) ->
  iteration p = (p', pushed, cont) ->
  run p = if cont then (fst (run p'), (pushed ++ snd (run p'))%list)
          else (p', pushed).
Proof.
  intros Hlen Hit. unfold run at 1. simpl loop.
  destruct (String.length (buffer p) =? 0) eqn:E;
    [apply Nat.eqb_eq in E; lia|].
  rewrite Hit. destruct cont; [|reflexivity].
  rewrite loop_acc. simpl.
  pose proof (iteration_shrinks _ _ _ Hlen Hit) as Hs.
  unfold run. rewrite (loop_fuel _ (S (String.length (buffer p')))) by lia.
  reflexivity.
Qed.

Lemma coalesce_merge (a b : string) (rs : list StreamResult) :
  coalesce (thinkingResult a :: thinkingResult b :: rs)
  = coalesce (thinkingResult (a ++ b) :: rs).
Proof.
  cbn [coalesce thinkingContent thinkingResult type content toolCall].
  destruct (coalesce rs) as [|r' rest']; [reflexivity|].
  destruct (thinkingContent r') as [c'|]; cbn; [|reflexivity].
  now rewrite append_assoc.
Qed.

Lemma coalesce_app_congr (l x y : list StreamResult) :
  coalesce x = coalesce y -> coalesce (l ++ x) = coalesce (l ++ y).
Proof.
  intro H. induction l as [|r l IH]; simpl; [assumption|].
  now rewrite IH.
Qed.

Lemma iteration_found (p : Parser) (n : nat) :
  indexOf (sentinel p) (buffer p) = Some n ->
  exists p' pushed,
    iteration p = (p', pushed, true) /\
    forall c, iteration (feed p c) = (feed p' c, pushed, true).
Proof.
  destruct p as [X s1 s2 s3 nm ar].
  unfold sentinel, iteration, feed, set_buffer.
  cbn [buffer inToolSection inToolCall inArguments currentToolName
         currentToolArgs].
  intro H.
  destruct (indexOf_Some _ _ _ H) as (_ & Hle & _).
  destruct s1, s2, s3; cbn [negb] in *; rewrite H;
    (eexists; eexists; split; [reflexivity|]); intro c;
    rewrite (indexOf_app_found _ _ c _ H);
    rewrite ?substring_0, drop_app_le, ?take_app_le by lia;
    reflexivity.
Qed.

Ltac parser_cases p :=
  let X := fresh "X" in
  let s1 := fresh "s" in let s2 := fresh "s" in let s3 := fresh "s" in
  let nm := fresh "nm" in let ar := fresh "ar" in
  destruct p as [X s1 s2 s3 nm ar];
  unfold iteration, feed, found, absorb, awaitingCall in *;
  unfold sentinel, set_buffer in *;
  cbn [buffer inToolSection inToolCall inArguments currentToolName
         currentToolArgs fst snd] in *;
  destruct s1, s2, s3;
  cbn [negb andb buffer inToolSection inToolCall inArguments
         currentToolName currentToolArgs fst snd] in *.

Lemma iteration_found_view (p : Parser) (n : nat) :
  indexOf (sentinel p) (buffer p) = Some n ->
  iteration p = (found p n, true).
Proof.
  parser_cases p; intro H; rewrite H, ?substring_0; reflexivity.
Qed.

Lemma iteration_absent_view (p : Parser) :
  0 < String.length (buffer p) ->
  awaitingCall p = false ->
  indexOf (sentinel p) (buffer p) = None ->
  let q := String.length (buffer p)
           - findPartialMatch (buffer p) (sentinel p) in
  exists cont,
    iteration p = (absorb p (take q (buffer p)) (drop q (buffer p)), cont) /\
    (cont = true -> drop q (buffer p) = "").
Proof.
  parser_cases p; intros Hlen Haw H; try discriminate; rewrite H;
    match goal with
    | |- context [findPartialMatch ?X ?T] =>
        pose proof (findPartialMatch_candidate X T) as (Hk & _ & _);
        set (k := findPartialMatch X T) in *; clearbody k
    end;
    rewrite ?substring_0, ?length_take;
    repeat match goal with
      | |- context [0 <? ?x] => destruct (Nat.ltb_spec 0 x)
      end;
    try lia;
    try (assert (k = 0) by lia; subst k;
         rewrite ?Nat.sub_0_r, ?take_all, ?drop_all by lia);
    try (replace (String.length X - k) with 0 by lia; cbn [take drop]);
    eexists; (split; [reflexivity|]); intro;
    first [discriminate | reflexivity].
Qed.

Lemma run_found (p : Parser) (n : nat) :
  indexOf (sentinel p) (buffer p) = Some n ->
  run p = (fst (run (fst (found p n))),
           (snd (found p n) ++ snd (run (fst (found p n))))%list).
Proof.
  intro H.
  destruct (indexOf_Some _ _ _ H) as (_ & Hle & _).
  pose proof (sentinel_length p) as Hs.
  rewrite (run_step p (fst (found p n)) (snd (found p n)) true);
    [reflexivity | lia |].
  rewrite (iteration_found_view _ _ H). now destruct (found p n).
Qed.

Lemma buffer_absorb (p : Parser) (out keep : string) :
  buffer (fst (absorb p out keep)) = keep.
Proof. parser_cases p; reflexivity. Qed.

Lemma sentinel_absorb (p : Parser) (out keep : string) :
  sentinel (fst (absorb p out keep)) = sentinel p.
Proof. parser_cases p; reflexivity. Qed.

Lemma awaitingCall_absorb (p : Parser) (out keep : string) :
  awaitingCall (fst (absorb p out keep)) = awaitingCall p.
Proof. parser_cases p; reflexivity. Qed.

Lemma absorb_set_buffer (p : Parser) (b out keep : string) :
  absorb (set_buffer p b) out keep = absorb p out keep.
Proof. parser_cases p; reflexivity. Qed.

Lemma sentinel_set_buffer (p : Parser) (b : string) :
  sentinel (set_buffer p b) = sentinel p.
Proof. parser_cases p; reflexivity. Qed.

Lemma awaitingCall_set_buffer (p : Parser) (b : string) :
  awaitingCall (set_buffer p b) = awaitingCall p.
Proof. parser_cases p; reflexivity. Qed.

Lemma run_absent (p : Parser) :
  0 < String.length (buffer p) ->
  awaitingCall p = false ->
  indexOf (sentinel p) (buffer p) = None ->
  let q := String.length (buffer p)
           - findPartialMatch (buffer p) (sentinel p) in
  run p = absorb p (take q (buffer p)) (drop q (buffer p)).
Proof.
  intros Hlen Haw H q.
  destruct (iteration_absent_view p Hlen Haw H) as (cont & Hit & Hc).
  fold q in Hit, Hc.
  destruct (absorb p (take q (buffer p)) (drop q (buffer p)))
    as [p1 r1] eqn:Ea.
  rewrite (run_step _ _ _ _ Hlen Hit).
  destruct cont; [|reflexivity].
  assert (Hb : buffer p1 = "").
  { pose proof (buffer_absorb p (take q (buffer p)) (drop q (buffer p))) as Hb.
    rewrite Ea in Hb. simpl in Hb. rewrite Hb. now apply Hc. }
  rewrite (run_empty _ Hb). simpl. now rewrite app_nil_r.
Qed.

Lemma run_awaiting (p : Parser) :
  awaitingCall p = true ->
  indexOf (sentinel p) (buffer p) = None ->
  run p = (p, []).
Proof.
  intros Haw H.
  destruct (Nat.eq_dec (String.length (buffer p)) 0) as [E|E].
  - apply run_empty. now apply length_zero.
  - rewrite (run_step p p [] false); [reflexivity | lia |].
    revert Haw H. parser_cases p; intros Haw H; try discriminate.
    all: now rewrite H.
Qed.

Lemma found_feed (p : Parser) (n : nat) (c : string) :
  n + String.length (sentinel p) <= String.length (buffer p) ->
  found (feed p c) n = (feed (fst (found p n)) c, snd (found p n)).
Proof.
  parser_cases p; intro H;
    rewrite drop_app_le, ?take_app_le by lia; reflexivity.
Qed.

Lemma found_absorb (p : Parser) (out keep c : string) (m : nat) :
  let p1 := fst (absorb p out keep) in
  let direct := found (set_buffer p (out ++ (keep ++ c)))
                  (String.length out + m) in
  fst (found (feed p1 c) m) = fst direct /\
  forall R,
    coalesce (snd (absorb p out keep) ++ snd (found (feed p1 c) m) ++ R)
    = coalesce (snd direct ++ R).
Proof.
  parser_cases p; cbn zeta;
    rewrite <- !Nat.add_assoc, !drop_app_ge, ?take_app_ge, ?append_assoc;
    (split; [reflexivity|]); intro R; try reflexivity.
  all: destruct out as [|x out]; [reflexivity|];
    destruct m as [|m];
    [ rewrite take_0, append_nil_r, Nat.add_0_r; reflexivity
    | cbn [String.length Nat.add Nat.ltb Nat.leb app];
      apply coalesce_merge ].
Qed.

Lemma absorb_absorb (p : Parser) (out keep out2 keep2 : string) :
  let p1 := fst (absorb p out keep) in
  fst (absorb p1 out2 keep2) = fst (absorb p (out ++ out2) keep2) /\
  coalesce (snd (absorb p out keep) ++ snd (absorb p1 out2 keep2))
  = coalesce (snd (absorb p (out ++ out2) keep2)).
Proof.
  parser_cases p; cbn zeta; rewrite ?append_assoc;
    (split; [reflexivity|]); try reflexivity.
  all: destruct out as [|x out]; [reflexivity|];
    destruct out2 as [|y out2];
    [ rewrite append_nil_r; reflexivity
    | cbn [String.length Nat.add Nat.ltb Nat.leb app append];
      apply (coalesce_merge (String x out) (String y out2) []) ].
Qed.

Lemma feed_as_set_buffer (p : Parser) (b c : string) :
  feed (set_buffer p b) c = set_buffer p (b ++ c).
Proof. now destruct p. Qed.

Lemma set_buffer_fst_absorb (p : Parser) (out keep b : string) :
  set_buffer (fst (absorb p out keep)) b = fst (absorb p out b).
Proof. parser_cases p; reflexivity. Qed.

Lemma absent_split (p : Parser) (c : string) :
  0 < String.length (buffer p) ->
  indexOf (sentinel p) (buffer p) = None ->
  SplitOK p c.
Proof.
  intros Hlen Hnone. unfold SplitOK.
  destruct (awaitingCall p) eqn:Haw.
  { rewrite (run_awaiting p Haw Hnone). simpl. split; reflexivity. }
  set (T := sentinel p) in *. set (X := buffer p) in *.
  set (k := findPartialMatch X T).
  set (q := String.length X - k).
  set (keep := drop q X). set (out := take q X).
  pose proof (run_absent p Hlen Haw Hnone) as Hrun.
  cbn zeta in Hrun. fold X T k q keep out in Hrun.
  rewrite Hrun.
  set (p1 := fst (absorb p out keep)).
  assert (Hb1 : buffer p1 = keep) by apply buffer_absorb.
  assert (Hfeed1 : feed p1 c = set_buffer p1 (keep ++ c))
    by (unfold feed; now rewrite Hb1).
  assert (Hfeed : feed p c = set_buffer p (out ++ (keep ++ c))).
  { unfold feed. fold X. f_equal. apply (split_text T X c). }
  assert (Hs1 : sentinel (feed p1 c) = T).
  { unfold feed. rewrite sentinel_set_buffer. apply sentinel_absorb. }
  assert (Hs : sentinel (feed p c) = T)
    by (unfold feed; apply sentinel_set_buffer).
  assert (Hbuf1 : buffer (feed p1 c) = keep ++ c)
    by (rewrite Hfeed1; now destruct p1).
  assert (Hbuf : buffer (feed p c) = X ++ c) by (now destruct p).
  assert (Hout : String.length out = q)
    by (unfold out, q; rewrite length_take; lia).
  destruct (Nat.eq_dec (String.length (keep ++ c)) 0) as [Hz|Hnz].
  - (* nothing withheld and nothing new *)
    apply length_zero in Hz.
    assert (Hc : c = "").
    { destruct keep; [assumption | discriminate]. }
    assert (Hk : keep = "").
    { destruct keep; [reflexivity | discriminate]. }
    subst c. rewrite !feed_empty.
    rewrite (run_empty p1) by (now rewrite Hb1).
    rewrite Hrun. simpl. rewrite app_nil_r. split; reflexivity.
  - destruct (indexOf T (X ++ c)) as [pp|] eqn:E.
    + destruct (found_after_withheld T X c Hnone pp E)
        as (Hq & Hidx & _ & _).
      fold k q keep in Hq, Hidx.
      rewrite (run_found (feed p1 c) (pp - q))
        by (now rewrite Hs1, Hbuf1).
      rewrite (run_found (feed p c) pp) by (now rewrite Hs, Hbuf).
      destruct (found_absorb p out keep c (pp - q)) as (Hst & Hres).
      fold p1 in Hst, Hres.
      rewrite <- Hfeed in Hst, Hres.
      replace (String.length out + (pp - q)) with pp in Hst, Hres by lia.
      cbn [fst snd]. rewrite Hst. split; [reflexivity|].
      apply Hres.
    + destruct (absent_after_withheld T X c E)
        as (Hidx & Hfp & Hk' & Htake & Hdrop).
      fold k q keep out in Hidx, Hfp, Hk', Htake, Hdrop.
      assert (Haw1 : awaitingCall (feed p1 c) = false).
      { unfold feed. rewrite awaitingCall_set_buffer.
        unfold p1. now rewrite awaitingCall_absorb. }
      assert (Haw' : awaitingCall (feed p c) = false)
        by (unfold feed; now rewrite awaitingCall_set_buffer).
      pose proof (run_absent (feed p1 c)) as R1.
      rewrite Hs1, Hbuf1, Hfp in R1.
      rewrite (R1 ltac:(lia) Haw1 Hidx).
      pose proof (run_absent (feed p c)) as R2.
      rewrite Hs, Hbuf in R2.
      rewrite (R2 ltac:(rewrite length_append; lia) Haw' E).
      rewrite Htake, Hdrop.
      unfold feed. rewrite !absorb_set_buffer.
      apply absorb_absorb.
Qed.

Lemma split_ok (n : nat) :
  forall p c, String.length (buffer p) <= n -> SplitOK p c.
Proof.
  induction n as [|n IH]; intros p c Hn.
  - assert (Hb : buffer p = "") by (apply length_zero; lia).
    unfold SplitOK. rewrite (run_empty p Hb). simpl. split; reflexivity.
  - destruct (Nat.eq_dec (String.length (buffer p)) 0) as [Hz|Hnz].
    { assert (Hb : buffer p = "") by (now apply length_zero).
      unfold SplitOK. rewrite (run_empty p Hb). simpl. split; reflexivity. }
    destruct (indexOf (sentinel p) (buffer p)) as [i|] eqn:E.
    + destruct (indexOf_Some _ _ _ E) as (_ & Hle & _).
      pose proof (sentinel_length p) as Hsl.
      assert (Hfeed : indexOf (sentinel (feed p c)) (buffer (feed p c))
                      = Some i).
      { unfold feed. rewrite sentinel_set_buffer.
        destruct p; cbn [buffer set_buffer] in *.
        now apply indexOf_app_found. }
      unfold SplitOK.
      rewrite (run_found p i E), (run_found (feed p c) i Hfeed).
      rewrite (found_feed p i c Hle). cbn [fst snd].
      set (p' := fst (found p i)).
      assert (Hsmall : String.length (buffer p') <= n).
      { assert (Hit := iteration_found_view p i E).
        rewrite (surjective_pairing (found p i)) in Hit.
        apply iteration_shrinks in Hit; [|lia].
        fold p' in Hit. lia. }
      destruct (IH p' c Hsmall) as (H1 & H2).
      split; [assumption|].
      rewrite <- app_assoc. now apply coalesce_app_congr.
    + apply absent_split; [lia | assumption].
Qed.

Lemma feed_feed (p : Parser) (a b : string) :
  feed (feed p a) b = feed p (a ++ b).
Proof. destruct p; unfold feed; cbn. now rewrite append_assoc. Qed.

Theorem processChunk_app (p : Parser) (a b : string) :
  fst (processChunk (fst (processChunk p a)) b) = fst (processChunk p (a ++ b))
  /\
  coalesce (snd (processChunk p a) ++ snd (processChunk (fst (processChunk p a)) b))
  = coalesce (snd (processChunk p (a ++ b))).
Proof.
  unfold processChunk. fold (feed p a) (feed p (a ++ b)).
  fold (feed (fst (run (feed p a))) b).
  rewrite <- feed_feed.
  exact (split_ok _ (feed p a) b (Nat.le_refl _)).
Qed.

(** *** Fragments against their concatenation *)

Lemma processChunks_join (fs : list string) :
  forall p f,
    fst (processChunks p (f :: fs)) = fst (processChunk p (join (f :: fs))) /\
    coalesce (snd (processChunks p (f :: fs)))
    = coalesce (snd (processChunk p (join (f :: fs)))).
Proof.
  induction fs as [|g fs IH]; intros p f.
  - cbn [processChunks join]. rewrite append_nil_r.
    destruct (processChunk p f) as [p1 r1]. cbn. now rewrite app_nil_r.
  - change (processChunks p (f :: g :: fs))
      with (let '(p1, r1) := processChunk p f in
            let '(p2, r2) := processChunks p1 (g :: fs) in
            (p2, (r1 ++ r2)%list)).
    change (join (f :: g :: fs)) with (f ++ join (g :: fs)).
    destruct (processChunk_app p f (join (g :: fs))) as (H1 & H2).
    destruct (processChunk p f) as [p1 r1]. cbn [fst snd] in *.
    destruct (IH p1 g) as (I1 & I2).
    destruct (processChunks p1 (g :: fs)) as [p2 r2]. cbn [fst snd] in *.
    split; [congruence|].
    rewrite <- H2. now apply coalesce_app_congr.
Qed.

Lemma processChunks_init_join (fs : list string) :
  fst (processChunks init fs) = fst (processChunk init (join fs)) /\
  coalesce (snd (processChunks init fs))
  = coalesce (snd (processChunk init (join fs))).
Proof.
  destruct fs as [|f fs]; [split; reflexivity|].
  apply processChunks_join.
Qed.

Lemma thinkingContent_content (r : StreamResult) (c : string) :
  thinkingContent r = Some c -> r = thinkingResult c.
Proof.
  destruct r as [ty [c'|] [tc|]]; destruct ty; cbn; intro H;
    try discriminate.
  now injection H as ->.
Qed.

Lemma contents_app (a b : list StreamResult) :
  contents (a ++ b) = contents a ++ contents b.
Proof.
  induction a as [|r a IH]; cbn; [reflexivity|].
  destruct (content r); rewrite IH; [now rewrite append_assoc | reflexivity].
Qed.

Lemma contents_coalesce (rs : list StreamResult) :
  contents (coalesce rs) = contents rs.
Proof.
  induction rs as [|r rs IH]; cbn [coalesce]; [reflexivity|].
  destruct (thinkingContent r) as [c|] eqn:E.
  - apply thinkingContent_content in E. subst r.
    destruct (coalesce rs) as [|r' rest'].
    + cbn in *. now rewrite <- IH.
    + destruct (thinkingContent r') as [c'|] eqn:E'.
      * apply thinkingContent_content in E'. subst r'.
        cbn in *. now rewrite <- IH, append_assoc.
      * cbn [contents thinkingResult content] in *. now rewrite <- IH.
  - cbn [contents]. now rewrite IH.
Qed.

Lemma found_section (p : Parser) (n : nat) :
  inToolSection p = true ->
  inToolSection (fst (found p n)) = true /\ contents (snd (found p n)) = "".
Proof. parser_cases p; intro H; try discriminate; split; reflexivity. Qed.

Lemma absorb_section (p : Parser) (out keep : string) :
  inToolSection p = true ->
  inToolSection (fst (absorb p out keep)) = true /\
  snd (absorb p out keep) = [].
Proof. parser_cases p; intro H; try discriminate; split; reflexivity. Qed.

Lemma run_in_section (n : nat) :
  forall p, String.length (buffer p) <= n -> inToolSection p = true ->
  inToolSection (fst (run p)) = true /\ contents (snd (run p)) = "".
Proof.
  induction n as [|n IH]; intros p Hn Hsec.
  - rewrite run_empty by (apply length_zero; lia). now split.
  - destruct (Nat.eq_dec (String.length (buffer p)) 0) as [Hz|Hnz].
    { rewrite run_empty by (now apply length_zero). now split. }
    destruct (indexOf (sentinel p) (buffer p)) as [i|] eqn:E.
    + rewrite (run_found p i E). cbn [fst snd].
      destruct (found_section p i Hsec) as (H1 & H2).
      assert (Hsmall : String.length (buffer (fst (found p i))) <= n).
      { assert (Hit := iteration_found_view p i E).
        rewrite (surjective_pairing (found p i)) in Hit.
        apply iteration_shrinks in Hit; lia. }
      destruct (IH _ Hsmall H1) as (I1 & I2).
      split; [assumption|]. now rewrite contents_app, H2, I2.
    + destruct (awaitingCall p) eqn:Haw.
      * rewrite (run_awaiting p Haw E). now split.
      * rewrite (run_absent p ltac:(lia) Haw E).
        destruct (absorb_section p
                    (take (String.length (buffer p)
                           - findPartialMatch (buffer p) (sentinel p))
                       (buffer p))
                    (drop (String.length (buffer p)
                           - findPartialMatch (buffer p) (sentinel p))
                       (buffer p)) Hsec) as (H1 & H2).
        split; [assumption|]. now rewrite H2.
Qed.

Lemma sentinel_scanning (p : Parser) :
  inToolSection p = false ->
  sentinel p = SECTION_BEGIN /\ awaitingCall p = false.
Proof. parser_cases p; intro H; try discriminate; split; reflexivity. Qed.

(** What a parser that is still scanning emits for its buffer: the text
    before the section-begin sentinel, or all but the withheld tail. *)
Lemma scan_contents (p : Parser) :
  inToolSection p = false ->
  contents (snd (run p))
  = match indexOf SECTION_BEGIN (buffer p) with
    | Some n => take n (buffer p)
    | None =>
        take (String.length (buffer p)
              - findPartialMatch (buffer p) SECTION_BEGIN) (buffer p)
    end.
Proof.
  intro Hs. destruct (sentinel_scanning p Hs) as (HT & Haw).
  destruct (Nat.eq_dec (String.length (buffer p)) 0) as [Hz|Hnz].
  { apply length_zero in Hz. rewrite run_empty, Hz by assumption.
    reflexivity. }
  destruct (indexOf SECTION_BEGIN (buffer p)) as [n|] eqn:E;
    rewrite <- HT in E.
  - rewrite (run_found p n E). cbn [snd]. rewrite contents_app.
    assert (Hsec : inToolSection (fst (found p n)) = true).
    { clear E. revert Hs. parser_cases p; intro; try discriminate;
        reflexivity. }
    destruct (run_in_section _ _ (Nat.le_refl _) Hsec) as (_ & ->).
    rewrite append_nil_r.
    clear E Hsec HT Haw. revert Hs.
    parser_cases p; intro; try discriminate.
    all: destruct n; cbn; rewrite ?append_nil_r; try reflexivity;
      now rewrite take_0.
  - rewrite (run_absent p ltac:(lia) Haw E). rewrite HT.
    set (q := String.length (buffer p)
              - findPartialMatch (buffer p) SECTION_BEGIN).
    assert (Hq : String.length (take q (buffer p)) = 0
                 -> take q (buffer p) = "") by apply length_zero.
    clearbody q. clear E HT Haw. revert Hs Hq.
    parser_cases p; intros Hs Hq; try discriminate.
    all: destruct (String.length (take q X)) eqn:El; cbn;
      rewrite ?append_nil_r; try reflexivity; symmetry; now apply Hq.
Qed.

Lemma scan_buffer (p : Parser) :
  inToolSection p = false ->
  indexOf SECTION_BEGIN (buffer p) = None ->
  buffer (fst (run p))
  = drop (String.length (buffer p)
          - findPartialMatch (buffer p) SECTION_BEGIN) (buffer p).
Proof.
  intros Hs E. destruct (sentinel_scanning p Hs) as (HT & Haw).
  destruct (Nat.eq_dec (String.length (buffer p)) 0) as [Hz|Hnz].
  { apply length_zero in Hz. rewrite run_empty by assumption.
    cbn [fst]. rewrite Hz. reflexivity. }
  rewrite <- HT in E.
  rewrite (run_absent p ltac:(lia) Haw E), HT.
  apply buffer_absorb.
Qed.

Lemma flush_contents (p : Parser) : contents (snd (flush p)) = buffer p.
Proof.
  unfold flush. destruct (buffer p) as [|c b] eqn:E; cbn; [reflexivity|].
  now rewrite append_nil_r.
Qed.

Lemma includes_false (t s : string) :
  includes t s = false <-> indexOf t s = None.
Proof.
  unfold includes. destruct (indexOf t s); split; congruence.
Qed.

Lemma processChunk_init_buffer (X : string) :
  buffer (feed init X) = X /\ inToolSection (feed init X) = false.
Proof. split; reflexivity. Qed.

(** Claim C3.  When the input contains no section-begin sentinel, the
    contents of all results of [processChunk] over the fragments,
    followed by those of [flush], concatenate to the concatenation of
    the fragments, however the input is cut into fragments. *)
Theorem contents_equal_input (fs : list string) :
  includes SECTION_BEGIN (join fs) = false ->
  contents (processStream fs) = join fs.
Proof.
  intro H. apply includes_false in H.
  unfold processStream.
  destruct (processChunks_init_join fs) as (H1 & H2).
  destruct (processChunks init fs) as [p r]. cbn [fst snd] in *.
  rewrite contents_app, flush_contents, H1.
  rewrite <- (contents_coalesce r), H2, contents_coalesce.
  unfold processChunk. fold (feed init (join fs)).
  rewrite scan_contents, scan_buffer by (assumption || reflexivity).
  change (buffer (feed init (join fs))) with (join fs).
  rewrite H. apply take_drop.
Qed.

Lemma found_clean (p : Parser) (n : nat) :
  indexOf (sentinel p) (buffer p) = Some n ->
  Forall clean (snd (found p n)).
Proof.
  parser_cases p; intro H; repeat constructor.
  all: destruct (0 <? n); repeat constructor; unfold clean; cbn.
  all: apply includes_false, indexOf_take_None; [cbn; lia | assumption].
Qed.

Lemma absorb_clean (p : Parser) (q : nat) (keep : string) :
  indexOf (sentinel p) (buffer p) = None ->
  Forall clean (snd (absorb p (take q (buffer p)) keep)).
Proof.
  parser_cases p; intro H; repeat constructor.
  all: destruct (0 <? String.length (take q X)); repeat constructor;
    unfold clean; cbn.
  all: now apply includes_false, indexOf_prefix_None.
Qed.

Lemma run_clean (n : nat) :
  forall p, String.length (buffer p) <= n -> Forall clean (snd (run p)).
Proof.
  induction n as [|n IH]; intros p Hn.
  - rewrite run_empty by (apply length_zero; lia). constructor.
  - destruct (Nat.eq_dec (String.length (buffer p)) 0) as [Hz|Hnz].
    { rewrite run_empty by (now apply length_zero). constructor. }
    destruct (indexOf (sentinel p) (buffer p)) as [i|] eqn:E.
    + rewrite (run_found p i E). cbn [snd].
      apply Forall_app. split; [now apply found_clean|].
      apply IH.
      assert (Hit := iteration_found_view p i E).
      rewrite (surjective_pairing (found p i)) in Hit.
      apply iteration_shrinks in Hit; lia.
    + destruct (awaitingCall p) eqn:Haw.
      * rewrite (run_awaiting p Haw E). constructor.
      * rewrite (run_absent p ltac:(lia) Haw E). now apply absorb_clean.
Qed.

Lemma processChunks_clean (fs : list string) :
  forall p, Forall clean (snd (processChunks p fs)).
Proof.
  induction fs as [|f fs IH]; intro p; cbn [processChunks].
  - constructor.
  - destruct (processChunk p f) as [p1 r1] eqn:E1.
    specialize (IH p1).
    destruct (processChunks p1 fs) as [p2 r2]. cbn [snd] in *.
    apply Forall_app. split; [|assumption].
    replace r1 with (snd (processChunk p f)) by (now rewrite E1).
    unfold processChunk. apply (run_clean _ _ (Nat.le_refl _)).
Qed.

Lemma contents_clean (fs : list string) :
  includes SECTION_BEGIN (contents (snd (processChunks init fs))) = false.
Proof.
  destruct (processChunks_init_join fs) as (_ & H2).
  rewrite <- contents_coalesce, H2, contents_coalesce.
  unfold processChunk. fold (feed init (join fs)).
  rewrite scan_contents by reflexivity.
  change (buffer (feed init (join fs))) with (join fs).
  apply includes_false.
  destruct (indexOf SECTION_BEGIN (join fs)) as [n|] eqn:E.
  - apply indexOf_take_None; [cbn; lia | assumption].
  - now apply indexOf_prefix_None.
Qed.

Lemma scanning_withholds (p : Parser) (chunk : string) :
  inToolSection p = false ->
  let S := buffer p ++ chunk in
  let k := findPartialMatch S SECTION_BEGIN in
  indexOf SECTION_BEGIN S = None ->
  buffer (fst (processChunk p chunk)) = drop (String.length S - k) S /\
  contents (snd (processChunk p chunk)) = take (String.length S - k) S.
Proof.
  intros Hs S k Hnone. unfold processChunk. fold (feed p chunk).
  assert (Hb : buffer (feed p chunk) = S) by (now destruct p).
  assert (Hsc : inToolSection (feed p chunk) = false) by (now destruct p).
  rewrite scan_buffer, scan_contents by (rewrite ?Hb; assumption).
  rewrite Hb, Hnone. split; reflexivity.
Qed.

(** *** The claims about the sentinel parser *)

(** Claim C2, as amended.  [findPartialMatch S T] is the largest
    [k <= len(T) - 1] such that the last [k] characters of [S] are the
    first [k] characters of [T]; a parser that is scanning and does not
    find the section-begin sentinel withholds exactly those [k]
    characters and emits the rest; processing fragments one after the
    other ends in the same parser state, with the same results up to
    where content was cut, as processing their concatenation at once;
    and no content result of [processChunk], nor the concatenation of
    the contents emitted since the start, contains the section-begin
    sentinel. *)
Theorem partial_match_chunking :
  (forall S T : string,
      let k := findPartialMatch S T in
      k <= String.length T - 1 /\ k <= String.length S /\
      drop (String.length S - k) S = take k T /\
      forall j, j <= String.length T - 1 -> j <= String.length S ->
                drop (String.length S - j) S = take j T -> j <= k) /\
  (forall (p : Parser) (chunk : string),
      inToolSection p = false ->
      let S := buffer p ++ chunk in
      let k := findPartialMatch S SECTION_BEGIN in
      indexOf SECTION_BEGIN S = None ->
      buffer (fst (processChunk p chunk)) = drop (String.length S - k) S /\
      contents (snd (processChunk p chunk)) = take (String.length S - k) S) /\
  (forall (p : Parser) (a b : string),
      fst (processChunk (fst (processChunk p a)) b)
      = fst (processChunk p (a ++ b)) /\
      coalesce (snd (processChunk p a)
                ++ snd (processChunk (fst (processChunk p a)) b))
      = coalesce (snd (processChunk p (a ++ b)))) /\
  (forall fs : list string,
      fst (processChunks init fs) = fst (processChunk init (join fs)) /\
      coalesce (snd (processChunks init fs))
      = coalesce (snd (processChunk init (join fs)))) /\
  (forall (p : Parser) (fs : list string) (r : StreamResult) (c : string),
      In r (snd (processChunks p fs)) -> content r = Some c ->
      includes SECTION_BEGIN c = false) /\
  (forall fs : list string,
      includes SECTION_BEGIN (contents (snd (processChunks init fs))) = false).
Proof.
  split.
  { intros S T k.
    destruct (findPartialMatch_candidate S T) as (H1 & H2 & H3).
    fold k in H1, H2, H3. repeat split; try assumption.
    intros j Hj1 Hj2 Hj3. apply findPartialMatch_max.
    repeat split; assumption. }
  split; [exact scanning_withholds|].
  split; [exact processChunk_app|].
  split; [exact processChunks_init_join|].
  split; [|exact contents_clean].
  intros p fs r c Hin Hc.
  pose proof (processChunks_clean fs p) as Hall.
  rewrite Forall_forall in Hall. specialize (Hall r Hin).
  unfold clean in Hall. now rewrite Hc in Hall.
Qed.

Lemma partial_match_chunking_witness :
  findPartialMatch "Hello <|tool" SECTION_BEGIN = 6 /\
  coalesce (snd (processChunks init ["Hello <|tool"; "_calls_sec"; "tion_begin|>"]))
  = [thinkingResult "Hello "].
Proof.
  split; [reflexivity|].
  destruct partial_match_chunking as (_ & _ & _ & H & _).
  rewrite (proj2 (H ["Hello <|tool"; "_calls_sec"; "tion_begin|>"])).
  reflexivity.
Defined.

(** Claim C2 as stated fails: the call-end sentinel, met while the
    parser is scanning, is emitted as content. *)
Lemma sentinel_in_content_counterexample :
  exists (T : string) (r : StreamResult) (c : string),
    In T [SECTION_BEGIN; CALL_BEGIN; ARG_BEGIN; CALL_END] /\
    In r (snd (processChunk init "<|tool_call_end|>")) /\
    content r = Some c /\
    includes T c = true.
Proof.
  exists CALL_END, (thinkingResult "<|tool_call_end|>"), "<|tool_call_end|>".
  split; [cbn; tauto|].
  split; [left; reflexivity|].
  split; reflexivity.
Qed.

(** The section-begin sentinel itself reaches the consumer as content when
    it is buffered inside a section and the stream ends: [flush] emits
    whatever the buffer holds. *)
Lemma flush_emits_buffered_sentinel :
  processStream ["<|tool_calls_section_begin|><|tool_calls_section_begin|>"]
  = [thinkingResult "<|tool_calls_section_begin|>"].
Proof. reflexivity. Qed.

(** Claim C4, as amended.  In the [inCallArgs] state, when the call-end
    sentinel is found at [endIndex], one pass of the loop pushes exactly
    one tool result with the trimmed name and the trimmed arguments
    (the accumulator followed by the text before the sentinel), clears
    [inToolCall] and [inArguments] and keeps both accumulators; the
    accumulators are reset, and the parser enters [inCallName], when the
    next call-begin sentinel is found. *)
Theorem call_end_emits_tool (p : Parser) (endIndex : nat) :
  inToolSection p = true -> inToolCall p = true -> inArguments p = true ->
  indexOf CALL_END (buffer p) = Some endIndex ->
  let args := currentToolArgs p ++ substring (buffer p) 0 endIndex in
  let p' := fst (fst (iteration p)) in
  snd (fst (iteration p)) = [toolResult (trim (currentToolName p)) (trim args)] /\
  snd (iteration p) = true /\
  inToolSection p' = true /\ inToolCall p' = false /\ inArguments p' = false /\
  currentToolName p' = currentToolName p /\ currentToolArgs p' = args /\
  buffer p' = drop (endIndex + String.length CALL_END) (buffer p) /\
  forall callIndex, indexOf CALL_BEGIN (buffer p') = Some callIndex ->
    let p'' := fst (fst (iteration p')) in
    snd (fst (iteration p')) = [] /\
    inToolSection p'' = true /\ inToolCall p'' = true /\
    inArguments p'' = false /\
    currentToolName p'' = "" /\ currentToolArgs p'' = "" /\
    buffer p'' = drop (callIndex + String.length CALL_BEGIN) (buffer p').
Proof.
  intros Hs Hc Ha H args p'.
  assert (Hit : iteration p
                = ({| buffer := drop (endIndex + String.length CALL_END)
                                  (buffer p);
                      inToolSection := true; inToolCall := false;
                      inArguments := false;
                      currentToolName := currentToolName p;
                      currentToolArgs := args |},
                   [toolResult (trim (currentToolName p)) (trim args)], true)).
  { unfold iteration. rewrite Hs, Hc, Ha. cbn [negb]. rewrite H.
    reflexivity. }
  unfold p'. rewrite Hit.
  cbn [fst snd inToolSection inToolCall inArguments buffer currentToolName
         currentToolArgs].
  do 8 (split; [reflexivity|]).
  intros callIndex Hcall. unfold iteration.
  cbn [inToolSection inToolCall inArguments buffer currentToolName
         currentToolArgs negb].
  rewrite Hcall.
  cbn [fst snd inToolSection inToolCall inArguments buffer currentToolName
         currentToolArgs].
  repeat split; reflexivity.
Qed.

Lemma contents_equal_input_witness :
  includes SECTION_BEGIN (join ["Hello <|tool"; "_calls"; " and more"; "<|"])
  = false /\
  contents (processStream ["Hello <|tool"; "_calls"; " and more"; "<|"])
  = "Hello <|tool_calls and more<|".
Proof.
  split; [reflexivity|].
  now rewrite (contents_equal_input
                 ["Hello <|tool"; "_calls"; " and more"; "<|"]).
Defined.

(** Claim C4 as stated fails: after the call-end sentinel the parser is
    not in [inCallName] and the accumulators are not reset. *)
Lemma call_end_state_counterexample :
  let p := {| buffer := ""; inToolSection := true; inToolCall := true;
              inArguments := true; currentToolName := "f";
              currentToolArgs := "{" |} in
  let p' := fst (processChunk p "}<|tool_call_end|>") in
  snd (processChunk p "}<|tool_call_end|>") = [toolResult "f" "{}"] /\
  ~ (inToolCall p' = true /\ inArguments p' = false /\
     currentToolName p' = "" /\ currentToolArgs p' = "").
Proof.
  split; [reflexivity|].
  intros (H & _). vm_compute in H. discriminate.
Qed.

Lemma call_end_emits_tool_witness :
  let p := {| buffer := "}<|tool_call_end|><|tool_call_begin|>g";
              inToolSection := true; inToolCall := true;
              inArguments := true; currentToolName := " f ";
              currentToolArgs := "{" |} in
  snd (fst (iteration p)) = [toolResult "f" "{}"] /\
  currentToolName (fst (fst (iteration p))) = " f ".
Proof.
  intro p.
  destruct (call_end_emits_tool p 1 eq_refl eq_refl eq_refl eq_refl)
    as (H1 & _ & _ & _ & _ & H6 & _).
  split; [exact H1 | exact H6].
Defined.

End KimiFacts.

(** ** Facts about the insertion-ordered maps *)

Module OrderedMapFacts.
Import OrderedMap.

Section WithKey.
Context {K V : Type} (eqb : K -> K -> bool).
Hypothesis eqb_spec : forall a b, eqb a b = true <-> a = b.

Lemma eqb_same (a : K) : eqb a a = true.
Proof. now apply eqb_spec. Qed.

Lemma eqb_other (a b : K) : a <> b -> eqb a b = false.
Proof.
  intro H. destruct (eqb a b) eqn:E; [|reflexivity].
  apply eqb_spec in E. contradiction.
Qed.

Lemma get_set_same (k : K) (v : V) (m : list (K * V)) :
  get eqb k (set eqb k v m) = Some v.
Proof.
  induction m as [|[k' v'] m IH]; simpl.
  - now rewrite eqb_same.
  - destruct (eqb k k') eqn:E; simpl; [now rewrite eqb_same|].
    now rewrite E.
Qed.

Lemma get_None_notin (k : K) (m : list (K * V)) :
  get eqb k m = None <-> ~ In k (map fst m).
Proof.
  induction m as [|[k' v'] m IH]; simpl; [tauto|].
  destruct (eqb k k') eqn:E.
  - apply eqb_spec in E. subst. split; [discriminate | tauto].
  - rewrite IH. split; [|tauto].
    intros H [H1|H1]; [|tauto].
    subst. rewrite eqb_same in E. discriminate.
Qed.

Lemma keys_set (k j : K) (v : V) (m : list (K * V)) :
  In j (map fst (set eqb k v m)) <-> j = k \/ In j (map fst m).
Proof.
  induction m as [|[k' v'] m IH]; simpl; [intuition congruence|].
  destruct (eqb k k') eqn:E; simpl.
  - apply eqb_spec in E. subst. intuition congruence.
  - rewrite IH. intuition congruence.
Qed.

Lemma NoDup_set (k : K) (v : V) (m : list (K * V)) :
  NoDup (map fst m) -> NoDup (map fst (set eqb k v m)).
Proof.
  induction m as [|[k' v'] m IH]; simpl; intro H.
  - constructor; [tauto | constructor].
  - inversion H as [|? ? Hnin Hnd]; subst.
    destruct (eqb k k') eqn:E; simpl.
    + apply eqb_spec in E. subst. now constructor.
    + constructor; [|now apply IH].
      rewrite keys_set. intros [->|Hin]; [|contradiction].
      rewrite eqb_same in E. discriminate.
Qed.

Lemma keys_delete (k j : K) (m : list (K * V)) :
  NoDup (map fst m) ->
  (In j (map fst (delete eqb k m)) <-> j <> k /\ In j (map fst m)).
Proof.
  induction m as [|[k' v'] m IH]; simpl; intro H; [tauto|].
  inversion H as [|? ? Hnin Hnd]; subst.
  destruct (eqb k k') eqn:E; simpl.
  - apply eqb_spec in E. subst. split.
    + intro Hin. split; [|tauto]. intros ->. contradiction.
    + intros (Hne & [->|Hin]); [contradiction | assumption].
  - rewrite (IH Hnd). split.
    + intros [->|(Hne & Hin)].
      * split; [|tauto]. intros ->. rewrite eqb_same in E. discriminate.
      * tauto.
    + intros (Hne & [->|Hin]); tauto.
Qed.

Lemma NoDup_delete (k : K) (m : list (K * V)) :
  NoDup (map fst m) -> NoDup (map fst (delete eqb k m)).
Proof.
  induction m as [|[k' v'] m IH]; simpl; intro H; [constructor|].
  inversion H as [|? ? Hnin Hnd]; subst.
  destruct (eqb k k'); simpl; [assumption|].
  constructor; [|now apply IH].
  rewrite (keys_delete _ _ _ Hnd). tauto.
Qed.

Lemma has_In (x : K) (s : list K) : has eqb x s = true <-> In x s.
Proof.
  unfold has. rewrite existsb_exists. split.
  - intros (y & Hin & E). apply eqb_spec in E. now subst.
  - intro Hin. exists x. split; [assumption | apply eqb_same].
Qed.

Lemma has_add (x k : K) (s : list K) :
  has eqb x (add eqb k s) = true <-> x = k \/ has eqb x s = true.
Proof.
  unfold add. destruct (has eqb k s) eqn:E.
  - split; [tauto|]. intros [->|H]; assumption.
  - rewrite !has_In, in_app_iff. simpl. intuition congruence.
Qed.

End WithKey.

Lemma nat_eqb_spec (a b : nat) : Nat.eqb a b = true <-> a = b.
Proof. apply Nat.eqb_eq. Qed.

Lemma string_eqb_spec (a b : string) : String.eqb a b = true <-> a = b.
Proof. apply String.eqb_eq. Qed.

End OrderedMapFacts.

(** ** Facts about the provider of [src/provider.ts] *)

Module ProviderFacts.
Import JSString JSStringFacts Json Host OrderedMap OrderedMapFacts Provider.

Section Facts.
Variable tryParseJSONObject : string -> option json.
Variable stringify : json -> string.
Variable random : nat -> string.

(** *** Emission of a buffered tool call *)




Lemma tryEmit_unparsed (s : State) (index : nat) (buf : ToolCallBuffer) :
  get Nat.eqb index (_toolCallBuffers s) = Some buf ->
  tryParseJSONObject (buf_args buf) = None ->
  tryEmitBufferedToolCall tryParseJSONObject stringify random s index = s.
Proof.
  intros Hget Hparse. unfold tryEmitBufferedToolCall. rewrite Hget.
  destruct (buf_name buf) as [n|]; [|reflexivity].
  destruct (truthy n); cbn; [|reflexivity]. now rewrite Hparse.
Qed.


Lemma processDelta_toolCalls (s : State) (tcs : list ToolCallDelta) :
  fst (fst (processDelta tryParseJSONObject stringify random s
              (toolCallsDelta tcs None)))
  = processToolCalls tryParseJSONObject stringify random
      (beginToolCallsHint s tcs) tcs.
Proof. reflexivity. Qed.

Lemma get_stored (s : State) (tc : ToolCallDelta) :
  get Nat.eqb (indexOfCall tc) (_toolCallBuffers (storeFragment s tc))
  = Some (mergeFragment s tc).
Proof. apply (get_set_same Nat.eqb nat_eqb_spec). Qed.

(** A fragment for a key that is not complete is stored, and the buffer
    is emitted when it has a name and its arguments parse. *)
Lemma processToolCall_open (s : State) (tc : ToolCallDelta) :
  has Nat.eqb (indexOfCall tc) (_completedToolCallIndices s) = false ->
  processToolCall tryParseJSONObject stringify random s tc
  = match tryParseJSONObject (buf_args (mergeFragment s tc)),
          buf_name (mergeFragment s tc) with
    | Some parameters, Some name =>
        if truthy name
        then emitToolCall stringify random (indexOfCall tc)
               (mergeFragment s tc) name parameters (storeFragment s tc)
        else storeFragment s tc
    | _, _ => storeFragment s tc
    end.
Proof.
  intro Hopen. unfold processToolCall. rewrite Hopen.
  unfold tryEmitBufferedToolCall. rewrite get_stored.
  destruct (buf_name (mergeFragment s tc)) as [name|];
    [|now destruct (tryParseJSONObject _)].
  destruct (truthy name); cbn [negb];
    now destruct (tryParseJSONObject _).
Qed.

(** *** Steps that leave the tool-call buffers alone *)

Lemma Silent_refl (s : State) : Silent s s.
Proof.
  repeat split. exists []. split; [now rewrite app_nil_r | constructor].
Qed.

Lemma Silent_trans (a b c : State) : Silent a b -> Silent b c -> Silent a c.
Proof.
  intros (H1 & H2 & l & H3 & H4) (G1 & G2 & l' & G3 & G4).
  split; [congruence|]. split; [congruence|].
  exists (l ++ l')%list. split.
  - now rewrite G3, H3, app_assoc.
  - apply Forall_app. now split.
Qed.

Lemma Silent_report (part : LanguageModelResponsePart) (s : State) :
  Silent s (report part None s).
Proof.
  repeat split. exists [(part, None)]. split; [reflexivity|].
  repeat constructor.
Qed.

Lemma Silent_fields (s s' : State) :
  _toolCallBuffers s' = _toolCallBuffers s ->
  _completedToolCallIndices s' = _completedToolCallIndices s ->
  reported s' = reported s ->
  Silent s s'.
Proof.
  intros H1 H2 H3. repeat split; try assumption.
  exists []. split; [now rewrite app_nil_r | constructor].
Qed.

Lemma Silent_step (s a b : State) :
  Silent s a ->
  _toolCallBuffers b = _toolCallBuffers a ->
  _completedToolCallIndices b = _completedToolCallIndices a ->
  reported b = reported a ->
  Silent s b.
Proof.
  intros H H1 H2 H3. eapply Silent_trans; [exact H|].
  now apply Silent_fields.
Qed.

Lemma Silent_r_report (part : LanguageModelResponsePart) (s s' : State) :
  Silent s s' -> Silent s (report part None s').
Proof. intro H. eapply Silent_trans; [exact H | apply Silent_report]. Qed.

Lemma Silent_r_reasoning (s s' : State) a b c :
  Silent s s' -> Silent s (set_reasoning a b c s').
Proof. intro H. now apply (Silent_step s s'). Qed.

Lemma Silent_r_think (s s' : State) a b c :
  Silent s s' -> Silent s (set_think a b c s').
Proof. intro H. now apply (Silent_step s s'). Qed.

Lemma Silent_r_thinkingId (s s' : State) a :
  Silent s s' -> Silent s (set_thinkingId a s').
Proof. intro H. now apply (Silent_step s s'). Qed.

Lemma Silent_r_flags (s s' : State) a b :
  Silent s s' -> Silent s (set_flags a b s').
Proof. intro H. now apply (Silent_step s s'). Qed.

Lemma Silent_r_draws (s s' : State) a :
  Silent s s' -> Silent s (set_draws a s').
Proof. intro H. now apply (Silent_step s s'). Qed.

Lemma Silent_r_ensure (s s' : State) :
  Silent s s' -> Silent s (ensureThinkingId random s').
Proof.
  intro H. unfold ensureThinkingId.
  destruct (truthyOpt (_currentThinkingId s')); [assumption|].
  cbn [generateThinkingId]. now apply Silent_r_thinkingId, Silent_r_draws.
Qed.

Ltac silent :=
  repeat first
    [ apply Silent_refl
    | assumption
    | apply Silent_r_report
    | apply Silent_r_reasoning
    | apply Silent_r_think
    | apply Silent_r_thinkingId
    | apply Silent_r_flags
    | apply Silent_r_draws
    | apply Silent_r_ensure ].

Lemma Silent_processDetail (s : State) (d : ReasoningDetail) :
  Silent s (fst (processDetail random s d)).
Proof.
  unfold processDetail.
  destruct (truthy _); destruct (_ && _); cbn [fst]; silent.
Qed.

Lemma Silent_processDetails (ds : list ReasoningDetail) :
  forall s, Silent s (fst (processDetails random s ds)).
Proof.
  induction ds as [|d ds IH]; intro s; cbn [processDetails].
  - apply Silent_refl.
  - pose proof (Silent_processDetail s d) as H1.
    destruct (processDetail random s d) as [s1 e1]. cbn [fst] in H1.
    pose proof (IH s1) as H2.
    destruct (processDetails random s1 ds) as [s2 e2]. cbn [fst] in *.
    eapply Silent_trans; eassumption.
Qed.

Lemma Silent_processThinking (s : State) (t : ThinkingValue) :
  Silent s (fst (processThinking random s t)).
Proof.
  unfold processThinking.
  destruct (match t with
            | ThinkingString t0 => (t0, None)
            | ThinkingObject (Some t0) md _ => (t0, md)
            | ThinkingObject None md j => (j, md)
            | ThinkingOther => ("", None)
            end) as [text md].
  destruct (truthy text); cbn [fst]; silent.
Qed.

Lemma Silent_xmlLoop (fuel : nat) :
  forall s0 s data e,
    Silent s0 s -> Silent s0 (fst (xmlLoop random fuel s data e)).
Proof.
  induction fuel as [|fuel IH]; intros s0 s data e H; cbn [xmlLoop].
  - assumption.
  - destruct (String.length data =? 0); [assumption|].
    destruct (negb (_xmlThinkActive s)).
    + destruct (indexOf THINK_START data).
      * cbn [generateThinkingId]. apply IH. silent.
      * cbn [fst]. silent.
    + destruct (indexOf THINK_END data).
      * destruct (truthy (take n data)); apply IH; silent.
      * destruct (truthy (trim data)); cbn [fst]; silent.
Qed.

Lemma Silent_processXmlThinkBlocks (s : State) (input : string) :
  Silent s (fst (processXmlThinkBlocks random s input)).
Proof.
  unfold processXmlThinkBlocks.
  destruct (_ && _); [apply Silent_refl | apply Silent_xmlLoop; silent].
Qed.

Lemma Silent_processTextContent (s : State) (input : string) :
  Silent s (fst (processTextContent s input)).
Proof.
  unfold processTextContent. destruct (truthy input); cbn [fst]; silent.
Qed.

Lemma Silent_beginToolCallsHint (s : State) (tcs : list ToolCallDelta) :
  Silent s (beginToolCallsHint s tcs).
Proof. unfold beginToolCallsHint. destruct (_ && _); silent. Qed.

(** *** The invariant of the buffer manager *)

Lemma emissions_app (j : nat) (l l' : list Report) :
  emissions j (l ++ l') = emissions j l + emissions j l'.
Proof. unfold emissions. now rewrite filter_app, length_app. Qed.

Lemma emissions_silent (j : nat) (l : list Report) :
  Forall (fun r : Report => snd r = None) l -> emissions j l = 0.
Proof.
  induction 1 as [|[part key] l Hk _ IH]; [reflexivity|].
  cbn in Hk. subst key. unfold emissions in *. cbn.
  destruct part; assumption.
Qed.

Lemma Invariant_Silent (s s' : State) :
  Invariant s -> Silent s s' -> Invariant s'.
Proof.
  intros (Hnd & Hinv) (Hb & Hc & l & Hr & Hl).
  unfold Invariant. rewrite Hb, Hc, Hr. split; [assumption|].
  intro j. rewrite emissions_app, (emissions_silent j l Hl), Nat.add_0_r.
  apply Hinv.
Qed.

Lemma Grows_refl (s : State) : Grows s s.
Proof. intros j H. exact H. Qed.

Lemma Grows_trans (a b c : State) : Grows a b -> Grows b c -> Grows a c.
Proof. intros H1 H2 j H. apply H2, H1, H. Qed.

Lemma Grows_Silent (s s' : State) : Silent s s' -> Grows s s'.
Proof. intros (_ & Hc & _) j H. now rewrite Hc. Qed.

Lemma Invariant_reset (m : list (string * list ReasoningDetail)) :
  Invariant (reset m).
Proof.
  split; [constructor|]. intro j. split; [discriminate | reflexivity].
Qed.

Lemma Invariant_storeFragment (s : State) (tc : ToolCallDelta) :
  Invariant s ->
  has Nat.eqb (indexOfCall tc) (_completedToolCallIndices s) = false ->
  Invariant (storeFragment s tc) /\
  _completedToolCallIndices (storeFragment s tc) = _completedToolCallIndices s.
Proof.
  intros (Hnd & Hinv) Hopen. split; [|reflexivity].
  unfold Invariant, storeFragment.
  cbn [_toolCallBuffers _completedToolCallIndices reported set_tools
         set_reasoning].
  split; [now apply NoDup_set; [apply nat_eqb_spec|]|].
  intro j. destruct (Hinv j) as (H1 & H2). split; [|assumption].
  intro Hj. destruct (H1 Hj) as (Hnin & Hem). split; [|assumption].
  rewrite (keys_set Nat.eqb nat_eqb_spec). intros [->|Hin]; [|contradiction].
  congruence.
Qed.

Lemma emitToolCall_fields (index : nat) (buf : ToolCallBuffer) (name : string)
  (parameters : json) (s : State) :
  let s' := emitToolCall stringify random index buf name parameters s in
  _toolCallBuffers s' = delete Nat.eqb index (_toolCallBuffers s) /\
  _completedToolCallIndices s'
  = add Nat.eqb index (_completedToolCallIndices s) /\
  exists callId,
    reported s'
    = (reported s
       ++ [(LanguageModelToolCallPart callId name parameters, Some index)])%list.
Proof.
  unfold emitToolCall, idOrRandom.
  destruct (buf_id buf); cbn; repeat split; eexists; reflexivity.
Qed.

Lemma emissions_one (j index : nat) (callId name : string) (v : json) :
  emissions j [(LanguageModelToolCallPart callId name v, Some index)]
  = if Nat.eqb index j then 1 else 0.
Proof. unfold emissions. cbn. now destruct (Nat.eqb index j). Qed.

Lemma Invariant_emitToolCall (index : nat) (buf : ToolCallBuffer)
  (name : string) (parameters : json) (s : State) :
  Invariant s ->
  has Nat.eqb index (_completedToolCallIndices s) = false ->
  Invariant (emitToolCall stringify random index buf name parameters s).
Proof.
  intros (Hnd & Hinv) Hopen.
  destruct (emitToolCall_fields index buf name parameters s)
    as (Hb & Hc & callId & Hr).
  unfold Invariant. rewrite Hb, Hc, Hr.
  split; [now apply NoDup_delete; [apply nat_eqb_spec|]|].
  intro j. rewrite emissions_app, emissions_one.
  rewrite (keys_delete Nat.eqb nat_eqb_spec) by assumption.
  destruct (Hinv j) as (H1 & H2).
  destruct (Nat.eqb_spec index j) as [->|Hne].
  - rewrite (H2 Hopen). split.
    + intros _. split; [tauto | reflexivity].
    + intro Hf. exfalso.
      assert (Ht : has Nat.eqb j (add Nat.eqb j (_completedToolCallIndices s))
                   = true)
        by (apply (has_add Nat.eqb nat_eqb_spec); now left).
      congruence.
  - rewrite Nat.add_0_r. split.
    + intro Hj. apply (has_add Nat.eqb nat_eqb_spec) in Hj.
      destruct Hj as [->|Hj]; [contradiction|].
      destruct (H1 Hj) as (Hnin & Hem). split; [tauto | assumption].
    + intro Hj. apply H2.
      destruct (has Nat.eqb j (_completedToolCallIndices s)) eqn:E;
        [|reflexivity].
      assert (Ht : has Nat.eqb j
                     (add Nat.eqb index (_completedToolCallIndices s)) = true)
        by (apply (has_add Nat.eqb nat_eqb_spec); now right).
      congruence.
Qed.

Lemma Grows_emitToolCall (index : nat) (buf : ToolCallBuffer)
  (name : string) (parameters : json) (s : State) :
  Grows s (emitToolCall stringify random index buf name parameters s).
Proof.
  intros j Hj.
  destruct (emitToolCall_fields index buf name parameters s) as (_ & Hc & _).
  rewrite Hc. apply (has_add Nat.eqb nat_eqb_spec). now right.
Qed.

Lemma tryEmit_cases (s : State) (index : nat) :
  tryEmitBufferedToolCall tryParseJSONObject stringify random s index = s \/
  exists buf name parameters,
    tryEmitBufferedToolCall tryParseJSONObject stringify random s index
    = emitToolCall stringify random index buf name parameters s.
Proof.
  unfold tryEmitBufferedToolCall.
  destruct (get Nat.eqb index (_toolCallBuffers s)) as [buf|]; [|now left].
  destruct (buf_name buf) as [name|]; [|now left].
  destruct (negb (truthy name)); [now left|].
  destruct (tryParseJSONObject (buf_args buf)) as [v|]; [|now left].
  right. now exists buf, name, v.
Qed.

Lemma Invariant_processToolCall (s : State) (tc : ToolCallDelta) :
  Invariant s ->
  Invariant (processToolCall tryParseJSONObject stringify random s tc) /\
  Grows s (processToolCall tryParseJSONObject stringify random s tc).
Proof.
  intro Hinv. unfold processToolCall.
  destruct (has Nat.eqb (indexOfCall tc) (_completedToolCallIndices s)) eqn:E.
  - split; [assumption | apply Grows_refl].
  - destruct (Invariant_storeFragment s tc Hinv E) as (Hinv' & Hc).
    assert (Hg : Grows s (storeFragment s tc))
      by (intros j Hj; now rewrite Hc).
    destruct (tryEmit_cases (storeFragment s tc) (indexOfCall tc))
      as [->|(buf & name & v & ->)]; [now split|].
    split.
    + apply Invariant_emitToolCall; [assumption | now rewrite Hc].
    + eapply Grows_trans; [exact Hg | apply Grows_emitToolCall].
Qed.

Lemma Invariant_processToolCalls (tcs : list ToolCallDelta) :
  forall s, Invariant s ->
  Invariant (processToolCalls tryParseJSONObject stringify random s tcs) /\
  Grows s (processToolCalls tryParseJSONObject stringify random s tcs).
Proof.
  unfold processToolCalls.
  induction tcs as [|tc tcs IH]; intros s Hinv; cbn [fold_left].
  - split; [assumption | apply Grows_refl].
  - destruct (Invariant_processToolCall s tc Hinv) as (H1 & G1).
    destruct (IH _ H1) as (H2 & G2).
    split; [assumption | eapply Grows_trans; eassumption].
Qed.

Lemma Invariant_flushLoop (throwOnInvalid : bool)
  (entries : list (nat * ToolCallBuffer)) :
  forall s,
    Invariant s -> NoDup (map fst entries) ->
    (forall k, In k (map fst entries) ->
               has Nat.eqb k (_completedToolCallIndices s) = false) ->
    Invariant (fst (flushLoop tryParseJSONObject stringify random
                      throwOnInvalid s entries)) /\
    Grows s (fst (flushLoop tryParseJSONObject stringify random
                    throwOnInvalid s entries)).
Proof.
  induction entries as [|[idx buf] rest IH]; intros s Hinv Hnd Hopen;
    cbn [flushLoop].
  - split; [assumption | apply Grows_refl].
  - cbn [map fst] in Hnd, Hopen.
    inversion Hnd as [|? ? Hnin Hnd']; subst.
    destruct (tryParseJSONObject (buf_args buf)) as [v|].
    + set (name := match buf_name buf with
                    | Some n => n
                    | None => "unknown_tool"
                    end).
      assert (Hinv' : Invariant (emitToolCall stringify random idx buf name v s)).
      { apply Invariant_emitToolCall; [assumption|]. apply Hopen. now left. }
      destruct (IH (emitToolCall stringify random idx buf name v s) Hinv' Hnd')
        as (H1 & G1).
      { intros k Hk.
        destruct (emitToolCall_fields idx buf name v s) as (_ & Hc & _).
        rewrite Hc.
        destruct (has Nat.eqb k (add Nat.eqb idx (_completedToolCallIndices s)))
          eqn:E; [|reflexivity].
        apply (has_add Nat.eqb nat_eqb_spec) in E.
        destruct E as [->|E]; [contradiction|].
        rewrite Hopen in E; [discriminate | now right]. }
      split; [assumption|].
      eapply Grows_trans; [apply Grows_emitToolCall | exact G1].
    + destruct throwOnInvalid; cbn [fst].
      * split; [assumption | apply Grows_refl].
      * apply IH; try assumption. intros k Hk. apply Hopen. now right.
Qed.

Lemma Invariant_flushToolCallBuffers (s : State) (throwOnInvalid : bool) :
  Invariant s ->
  Invariant (fst (flushToolCallBuffers tryParseJSONObject stringify random s
                    throwOnInvalid)) /\
  Grows s (fst (flushToolCallBuffers tryParseJSONObject stringify random s
                  throwOnInvalid)).
Proof.
  intro Hinv. unfold flushToolCallBuffers.
  apply Invariant_flushLoop; try assumption; [apply Hinv|].
  intros k Hk. destruct Hinv as (_ & Hinv). destruct (Hinv k) as (H1 & _).
  destruct (has Nat.eqb k (_completedToolCallIndices s)); [|reflexivity].
  destruct (H1 eq_refl) as (Hnin & _). contradiction.
Qed.

Lemma Silent_processReasoning (s : State) (choice : Choice) :
  Silent s (fst (processReasoning random s choice)).
Proof.
  unfold processReasoning.
  destruct (orElse (field choice d_reasoning_details) _) as [[|d ds]|].
  2: apply Silent_processDetails.
  all: destruct (orElse (c_thinking choice) _);
    [apply Silent_processThinking | apply Silent_refl].
Qed.

Lemma Silent_processContent (s : State) (content : string) :
  Silent s (fst (processContent random s content)).
Proof.
  unfold processContent.
  pose proof (Silent_processXmlThinkBlocks s content) as Hx.
  destruct (processXmlThinkBlocks random s content) as [sx e]. cbn [fst] in Hx.
  destruct e; cbn [fst]; [assumption|].
  unfold processTextContent.
  destruct (truthy content); destruct (_ && _); cbn [fst]; silent.
Qed.

Lemma Invariant_processDelta (s : State) (d : Delta) :
  Invariant s ->
  Invariant (fst (fst (processDelta tryParseJSONObject stringify random s d)))
  /\
  Grows s (fst (fst (processDelta tryParseJSONObject stringify random s d))).
Proof.
  intro Hinv. unfold processDelta.
  destruct (choices d) as [|choice _]; cbn [fst];
    [split; [assumption | apply Grows_refl]|].
  pose proof (Silent_processReasoning s choice) as H2.
  destruct (processReasoning random s choice) as [s2 e2]. cbn [fst] in H2.
  assert (H3 : Silent s2
                 (fst match field choice d_content with
                      | Some content =>
                          if truthy content
                          then processContent random s2 content
                          else (s2, false)
                      | None => (s2, false)
                      end)).
  { destruct (field choice d_content) as [content|]; [|apply Silent_refl].
    destruct (truthy content);
      [apply Silent_processContent | apply Silent_refl]. }
  destruct (match field choice d_content with
            | Some content =>
                if truthy content
                then processContent random s2 content
                else (s2, false)
            | None => (s2, false)
            end) as [s3 e3]. cbn [fst] in H3.
  assert (Hs3 : Silent s s3) by (eapply Silent_trans; eassumption).
  set (s4 := match field choice d_tool_calls with
             | Some toolCalls =>
                 processToolCalls tryParseJSONObject stringify random
                   (beginToolCallsHint s3 toolCalls) toolCalls
             | None => s3
             end).
  assert (H4 : Invariant s4 /\ Grows s s4).
  { unfold s4. destruct (field choice d_tool_calls) as [tcs|].
    - assert (Hh : Silent s (beginToolCallsHint s3 tcs))
        by (eapply Silent_trans;
            [exact Hs3 | apply Silent_beginToolCallsHint]).
      destruct (Invariant_processToolCalls tcs _
                  (Invariant_Silent _ _ Hinv Hh)) as (I & G).
      split; [assumption|].
      eapply Grows_trans; [apply Grows_Silent; exact Hh | exact G].
    - split; [eapply Invariant_Silent; eassumption
             | now apply Grows_Silent]. }
  destruct H4 as (I4 & G4).
  destruct (c_finish_reason choice) as [finish|]; cbn [fst];
    [|now split].
  destruct (_ || _); cbn [fst]; [|now split].
  destruct (Invariant_flushToolCallBuffers s4 true I4) as (I5 & G5).
  destruct (flushToolCallBuffers tryParseJSONObject stringify random s4 true)
    as [s5 threw]. cbn [fst] in *.
  split; [assumption | eapply Grows_trans; eassumption].
Qed.

Lemma Invariant_processLine (s : State) (line : StreamLine) :
  Invariant s ->
  Invariant (processLine tryParseJSONObject stringify random s line) /\
  Grows s (processLine tryParseJSONObject stringify random s line).
Proof.
  intro Hinv. destruct line as [|d]; cbn [processLine].
  - now apply Invariant_flushToolCallBuffers.
  - now apply Invariant_processDelta.
Qed.

Lemma Invariant_processLines (lines : list StreamLine) :
  forall s, Invariant s ->
  Invariant (processLines tryParseJSONObject stringify random s lines) /\
  Grows s (processLines tryParseJSONObject stringify random s lines).
Proof.
  unfold processLines.
  induction lines as [|line lines IH]; intros s Hinv; cbn [fold_left].
  - split; [assumption | apply Grows_refl].
  - destruct (Invariant_processLine s line Hinv) as (H1 & G1).
    destruct (IH _ H1) as (H2 & G2).
    split; [assumption | eapply Grows_trans; eassumption].
Qed.

(** Claim C8.  Once a key is marked complete, a later fragment for it
    leaves the provider as it is, and over the rest of the stream the
    number of tool calls reported for the key stays exactly 1. *)
Theorem completed_key_emitted_once
  (detailsMap : list (string * list ReasoningDetail))
  (before after : list StreamLine) (idx : nat) :
  let run := processLines tryParseJSONObject stringify random in
  let s := run (reset detailsMap) before in
  has Nat.eqb idx (_completedToolCallIndices s) = true ->
  emissions idx (reported s) = 1 /\
  emissions idx (reported (run s after)) = 1 /\
  forall tc, indexOfCall tc = idx ->
    processToolCall tryParseJSONObject stringify random (run s after) tc
    = run s after.
Proof.
  intros run s Hdone.
  destruct (Invariant_processLines before (reset detailsMap)
              (Invariant_reset detailsMap)) as (Hinv & _).
  fold run in Hinv. fold s in Hinv.
  destruct (Invariant_processLines after s Hinv) as (Hinv' & Hgrow).
  fold run in Hinv', Hgrow.
  split; [apply Hinv, Hdone|].
  split; [apply Hinv', Hgrow, Hdone|].
  intros tc <-. unfold processToolCall. now rewrite (Hgrow _ Hdone).
Qed.

(** *** The signature encoded in the identifier *)



End Facts.

Section Scenario.
Variable stringify : json -> string.
Variable random : nat -> string.

(** Claim C7, as amended.  For a record with a function name whose
    argument text arrives as the two fragments [{'] and [a':1}] (['] is
    the double quote; together they are the object with member [a] equal
    to 1), nothing is reported after the first fragment, and exactly one
    tool call, with the arguments [{a:1}], is reported after the second;
    the end of the stream adds nothing. *)
Theorem two_fragments_emit_once (index : nat) (id : option string)
  (name : string) :
  truthy name = true ->
  let callId :=
    if truthyOpt id
    then match id with Some i => i | None => "" end
    else "call_" ++ random 0 in
  let run := processLines Json.tryParseJSONObject stringify random init in
  let lines := twoFragments index id name (js "{'") (js "a':1}") in
  let emitted :=
    [(LanguageModelToolCallPart callId name (JObject [("a", JNumber "1")]),
      Some index)] in
  reported (run (firstn 1 lines)) = [] /\
  reported (run lines) = emitted /\
  reported (run (lines ++ [Done])%list) = emitted.
Proof.
  intros Hname callId run lines emitted.
  set (tc1 := fragment index id (Some name) (Some (js "{'"))).
  set (tc2 := fragment index None None (Some (js "a':1}"))).
  assert (E1 : run (firstn 1 lines) = storeFragment init tc1).
  { unfold run, lines, twoFragments, processLines.
    cbn [firstn fold_left processLine]. rewrite processDelta_toolCalls.
    cbn [beginToolCallsHint init reset _emittedBeginToolCallsHint
           _hasEmittedAssistantText negb andb processToolCalls fold_left].
    fold init. fold tc1.
    rewrite processToolCall_open by reflexivity.
    replace (Json.tryParseJSONObject (buf_args (mergeFragment init tc1)))
      with (@None json) by (vm_compute; reflexivity).
    reflexivity. }
  split; [now rewrite E1|].
  set (s1 := storeFragment init tc1) in *.
  assert (Hb1 : mergeFragment s1 tc2
                = {| buf_id := if truthyOpt id then id else None;
                     buf_name := Some name;
                     buf_args := js "{'a':1}";
                     buf_thoughtSignature := None |}).
  { assert (Hget : get Nat.eqb (indexOfCall tc2) (_toolCallBuffers s1)
                   = Some (mergeFragment init tc1))
      by exact (get_stored init tc1).
    unfold mergeFragment at 1. rewrite Hget.
    unfold tc2, tc1, mergeFragment. cbn. rewrite Hname. reflexivity. }
  assert (E2 : run lines
               = emitToolCall stringify random index (mergeFragment s1 tc2)
                   name (JObject [("a", JNumber "1")]) (storeFragment s1 tc2)).
  { change lines with (firstn 1 lines ++ skipn 1 lines)%list.
    unfold run, processLines in *. rewrite fold_left_app, E1.
    cbn [skipn lines twoFragments fold_left processLine].
    rewrite processDelta_toolCalls. fold tc2.
    cbn [beginToolCallsHint storeFragment s1 set_tools set_reasoning
           init reset _emittedBeginToolCallsHint
           _hasEmittedAssistantText negb andb processToolCalls fold_left].
    fold init. fold (storeFragment init tc1). fold s1.
    rewrite processToolCall_open by reflexivity.
    rewrite Hb1. cbn [buf_args buf_name].
    replace (Json.tryParseJSONObject (js "{'a':1}"))
      with (Some (JObject [("a", JNumber "1")])) by (vm_compute; reflexivity).
    now rewrite Hname. }
  assert (R2 : reported (run lines) = emitted).
  { rewrite E2. unfold emitToolCall, idOrRandom. rewrite Hb1.
    cbn [buf_id]. unfold emitted, callId.
    destruct id as [[|c i]|]; reflexivity. }
  split; [assumption|].
  unfold run, processLines in *. rewrite fold_left_app.
  cbn [fold_left processLine]. unfold flushToolCallBuffers.
  replace (_toolCallBuffers (fold_left _ lines init))
    with (@nil (nat * ToolCallBuffer)).
  - cbn [flushLoop fst]. exact R2.
  - rewrite E2. unfold emitToolCall, idOrRandom. rewrite Hb1. cbn [buf_id].
    destruct id as [[|c i]|]; cbn; rewrite Nat.eqb_refl; cbn;
      now rewrite Nat.eqb_refl.
Qed.

End Scenario.

(** Claim C7 as stated fails: the fragments [{'] and ['a':1}] join into
    [{''a':1}], which is no JSON object, so the record is never reported,
    not even at a finish marker or at the end of the stream. *)
Lemma literal_fragments_counterexample :
  let lines :=
    (twoFragments 0 (Some "call_1") "get_weather" (js "{'") (js "'a':1}")
     ++ [Data (toolCallsDelta [] (Some "stop")); Done])%list in
  Json.parse (js "{'" ++ js "'a':1}") = None /\
  reported (processLines Json.tryParseJSONObject Json.stringify
              (fun _ => "x") init lines) = [].
Proof. split; vm_compute; reflexivity. Qed.

Lemma two_fragments_emit_once_witness :
  truthy "get_weather" = true /\
  reported (processLines Json.tryParseJSONObject Json.stringify
              (fun _ => "x") init
              (twoFragments 0 (Some "call_1") "get_weather"
                 (js "{'") (js "a':1}")))
  = [(LanguageModelToolCallPart "call_1" "get_weather"
        (JObject [("a", JNumber "1")]), Some 0)].
Proof.
  split; [reflexivity|].
  exact (proj1 (proj2 (two_fragments_emit_once Json.stringify (fun _ => "x")
                         0 (Some "call_1") "get_weather" eq_refl))).
Defined.

(** A stream in which the fragments of call 0 are sent again after the
    call was reported. *)
Lemma completed_key_emitted_once_witness :
  let before :=
    twoFragments 0 (Some "call_1") "get_weather" (js "{'") (js "a':1}") in
  let run :=
    processLines Json.tryParseJSONObject Json.stringify (fun _ => "x") in
  has Nat.eqb 0 (_completedToolCallIndices (run (reset []) before)) = true /\
  emissions 0 (reported (run (run (reset []) before) (before ++ [Done])%list))
  = 1.
Proof.
  split; [vm_compute; reflexivity|].
  refine (proj1 (proj2 (completed_key_emitted_once Json.tryParseJSONObject
                          Json.stringify (fun _ => "x") []
                          (twoFragments 0 (Some "call_1") "get_weather"
                             (js "{'") (js "a':1}"))
                          (twoFragments 0 (Some "call_1") "get_weather"
                             (js "{'") (js "a':1}") ++ [Done])%list 0 _))).
  vm_compute; reflexivity.
Defined.



(** A signature that itself contains the separator comes back cut at the
    separator. *)
Lemma signature_with_separator_truncated :
  finalId "call_1" (Some "a::gemini_sig::b")
  = "call_1::gemini_sig::a::gemini_sig::b" /\
  decodeToolCall {| otc_id := "call_1::gemini_sig::a::gemini_sig::b";
                    otc_thought_signature := None |}
  = ({| otc_id := "call_1"; otc_thought_signature := Some "a" |}, "call_1").
Proof. split; reflexivity. Qed.

End ProviderFacts.


(** ** The coalescing of reasoning text, forced flushes and think tags *)

Module CoalescerFacts.
Import JSString JSStringFacts Json Host OrderedMap OrderedMapFacts Coalescer.

Section Facts.
Variable tryParseJSONObject : string -> option json.
Variable stringify : json -> string.
Variable random : nat -> string.

Lemma ensureThinkingId_fields (s : State) :
  let s' := ensureThinkingId random s in
  reported s' = reported s /\
  _reasoningTextBuffer s' = _reasoningTextBuffer s /\
  _toolCallBuffers s' = _toolCallBuffers s /\
  truthyOpt (_currentThinkingId s') = true /\
  _currentThinkingId s'
  = if truthyOpt (_currentThinkingId s) then _currentThinkingId s
    else Some ("thinking_" ++ random (draws s)).
Proof.
  unfold ensureThinkingId.
  destruct (truthyOpt (_currentThinkingId s)) eqn:E; cbn; auto 6.
Qed.

Lemma ensureThinkingId_ready (s : State) :
  truthyOpt (_currentThinkingId s) = true -> ensureThinkingId random s = s.
Proof. intro H. unfold ensureThinkingId. now rewrite H. Qed.

Lemma flushReasoningBuffer_fields (s : State) :
  let s' := flushReasoningBuffer random s in
  reported s'
  = (reported s ++ pendingFlush (_currentThinkingId s') s)%list /\
  _reasoningTextBuffer s' = "" /\
  _toolCallBuffers s' = _toolCallBuffers s /\
  ((0 <? String.length (_reasoningTextBuffer s)) = true ->
   truthyOpt (_currentThinkingId s') = true /\
   _currentThinkingId s'
   = if truthyOpt (_currentThinkingId s) then _currentThinkingId s
     else Some ("thinking_" ++ random (draws s))).
Proof.
  unfold flushReasoningBuffer, pendingFlush.
  destruct (0 <? String.length (_reasoningTextBuffer s)) eqn:E.
  - destruct (ensureThinkingId_fields s) as (H1 & H2 & H3 & H4 & H5).
    cbn. rewrite H1, H2, H3. auto 6.
  - cbn. rewrite app_nil_r. repeat split; try discriminate.
    apply Nat.ltb_ge in E. apply length_zero. lia.
Qed.

Lemma set_reasoning_twice (a c : list ReasoningDetail) (b d : string)
  (s : State) :
  set_reasoning a b (set_reasoning c d s) = set_reasoning a b s.
Proof. reflexivity. Qed.

Lemma set_reasoning_same (s : State) :
  set_reasoning (_currentResponseReasoningDetails s) (_reasoningTextBuffer s) s
  = s.
Proof. now destruct s. Qed.

(** An unsigned plain segment joins the buffer; the buffer is flushed
    when it has grown beyond 4000 characters. *)
Lemma processDetail_unsigned (s : State) (t : string) :
  processDetail random s (plainText t)
  = let s1 :=
      set_reasoning (_currentResponseReasoningDetails s ++ [plainText t])%list
        (_reasoningTextBuffer s ++ t) s in
    if 4000 <? String.length (_reasoningTextBuffer s ++ t)
    then (flushReasoningBuffer random s1, true)
    else (s1, false).
Proof. reflexivity. Qed.

Lemma processDelta_unsigned (s : State) (t : string) :
  fst (processDelta tryParseJSONObject stringify random s
         (reasoningDelta [plainText t]))
  = fst (processDetail random s (plainText t)).
Proof.
  unfold processDelta, reasoningDelta, choiceOf. cbn [choices].
  unfold processReasoning, field. cbn [c_delta c_thinking c_reasoning_details
    c_finish_reason d_reasoning_details d_thinking d_reasoning_content
    d_reasoning d_content d_tool_calls orElse].
  change (sortDetails [plainText t]) with [plainText t].
  cbn [processDetails].
  destruct (processDetail random s (plainText t)) as [s1 e1]. reflexivity.
Qed.

Lemma length_join_uniform (n : nat) (texts : list string) :
  Forall (fun t => String.length t = n) texts ->
  String.length (join texts) = n * List.length texts.
Proof.
  induction 1 as [|t r Ht _ IH]; cbn [join List.length].
  - cbn. lia.
  - rewrite length_append, Ht, IH. lia.
Qed.

(** While the buffer stays within 4000 characters the unsigned segments
    are only collected. *)
Lemma unsigned_buffered (rest : list StreamLine) (texts : list string) :
  forall s,
    String.length (_reasoningTextBuffer s) + String.length (join texts)
    <= 4000 ->
    processStreamingResponse tryParseJSONObject stringify random s
      (unsignedSegments texts ++ rest)%list
    = processStreamingResponse tryParseJSONObject stringify random
        (set_reasoning
           (_currentResponseReasoningDetails s ++ map plainText texts)%list
           (_reasoningTextBuffer s ++ join texts) s)
        rest.
Proof.
  induction texts as [|t r IH]; intros s Hlen.
  - cbn [unsignedSegments map join app]. rewrite app_nil_r, append_nil_r.
    now rewrite set_reasoning_same.
  - cbn [unsignedSegments map join app processStreamingResponse] in *.
    rewrite length_append in Hlen.
    rewrite processDelta_unsigned, processDetail_unsigned. cbv zeta.
    assert (E : (4000 <? String.length (_reasoningTextBuffer s ++ t)) = false).
    { apply Nat.ltb_ge. rewrite length_append. lia. }
    rewrite E. cbn [fst].
    fold (unsignedSegments r). rewrite IH.
    + cbn [_currentResponseReasoningDetails _reasoningTextBuffer set_reasoning].
      rewrite <- app_assoc, append_assoc. reflexivity.
    + cbn [_reasoningTextBuffer set_reasoning]. rewrite length_append. lia.
Qed.


Lemma processDetail_flushes (s : State) (detail : ReasoningDetail) :
  let '(text, signature, isSimpleText) := extract detail in
  isSimpleText && negb (truthyOpt signature) = false ->
  let s' := fst (processDetail random s detail) in
  reported s'
  = (reported s ++ pendingFlush (_currentThinkingId s') s
     ++ (if truthy text || truthyOpt signature
         then [LanguageModelThinkingPart text (_currentThinkingId s')
                 (Some {| md_format := rd_format detail;
                          md_type := Some (rd_type detail);
                          md_index := rd_index detail;
                          md_signature :=
                            if truthyOpt signature then signature else None;
                          md_data := None |})]
         else []))%list /\
  _reasoningTextBuffer s' = "".
Proof.
  unfold processDetail.
  destruct (extract detail) as [[text signature] isSimpleText].
  intros Hkind. rewrite Hkind.
  set (s0 := set_reasoning _ _ s).
  destruct (flushReasoningBuffer_fields s0) as (F1 & F2 & _ & F4).
  unfold pendingFlush.
  change (_reasoningTextBuffer s) with (_reasoningTextBuffer s0).
  change (reported s) with (reported s0).
  destruct (0 <? String.length (_reasoningTextBuffer s0)) eqn:E.
  - destruct (F4 eq_refl) as [F4' _].
    destruct (truthy text || truthyOpt signature).
    + rewrite (ensureThinkingId_ready _ F4').
      cbn [fst reported report _reasoningTextBuffer _currentThinkingId].
      rewrite F1, F2. unfold pendingFlush. rewrite E.
      rewrite <- app_assoc. split; reflexivity.
    + cbn [fst]. rewrite F1, F2. unfold pendingFlush. rewrite E.
      rewrite app_nil_r. split; reflexivity.
  - assert (Hb : _reasoningTextBuffer s0 = "").
    { apply Nat.ltb_ge in E. apply length_zero. lia. }
    destruct (truthy text || truthyOpt signature).
    + destruct (ensureThinkingId_fields s0) as (H1 & H2 & _).
      cbn [fst reported report _reasoningTextBuffer _currentThinkingId].
      rewrite H1, H2. split; [reflexivity | assumption].
    + cbn [fst app]. rewrite app_nil_r. split; [reflexivity | assumption].
Qed.

Lemma flushToolCallBuffers_none (s : State) :
  _toolCallBuffers s = [] ->
  flushToolCallBuffers tryParseJSONObject stringify s = s.
Proof. intro H. unfold flushToolCallBuffers. now rewrite H. Qed.

Lemma closeActiveThinking_fields (s : State) :
  let s' := closeActiveThinking s in
  reported s'
  = (reported s
     ++ (if truthyOpt (_currentThinkingId s)
         then [LanguageModelThinkingPart "" (_currentThinkingId s) None]
         else []))%list /\
  _currentThinkingId s'
  = if truthyOpt (_currentThinkingId s) then None else _currentThinkingId s.
Proof.
  unfold closeActiveThinking.
  destruct (truthyOpt (_currentThinkingId s)); cbn.
  - auto.
  - now rewrite app_nil_r.
Qed.

Lemma closeActiveThinking_idle (s : State) :
  _currentThinkingId s = None -> closeActiveThinking s = s.
Proof. intro H. unfold closeActiveThinking. now rewrite H. Qed.

Lemma reported_finally (s : State) :
  reported (finally s) = reported (closeActiveThinking s).
Proof. reflexivity. Qed.


(** After 400 segments of 10 characters the buffer holds 4000 characters
    and nothing was reported; the next segment flushes 4010 characters,
    and [[DONE]] flushes the remaining 990. *)
Lemma five_hundred_segments (texts : list string) :
  List.length texts = 500 ->
  Forall (fun t => String.length t = 10) texts ->
  reported (processStreamingResponse tryParseJSONObject stringify random init
              (unsignedSegments texts ++ [Done])%list)
  = [LanguageModelThinkingPart (join (firstn 401 texts))
       (Some ("thinking_" ++ random 0)) (Some flushMetadata);
     LanguageModelThinkingPart (join (skipn 401 texts))
       (Some ("thinking_" ++ random 0)) (Some flushMetadata);
     LanguageModelThinkingPart "" (Some ("thinking_" ++ random 0)) None].
Proof.
  intros Hlen Hall.
  assert (LA : List.length (firstn 400 texts) = 400)
    by (rewrite length_firstn; lia).
  assert (LB : List.length (skipn 400 texts) = 100)
    by (rewrite length_skipn; lia).
  rewrite <- (firstn_skipn 400 texts) in Hall |- *.
  set (A := firstn 400 texts) in *. set (R := skipn 400 texts) in *.
  clearbody A R. clear Hlen texts.
  apply Forall_app in Hall. destruct Hall as [HA HB].
  rewrite firstn_app, skipn_app, LA.
  rewrite firstn_all2, skipn_all2 by lia.
  change (401 - 400) with 1. cbn [app].
  destruct R as [|t B]; [discriminate|].
  cbn [firstn skipn]. inversion HB as [|? ? Ht HB']; subst.
  cbn [List.length] in LB.
  pose proof (length_join_uniform 10 A HA) as JA.
  pose proof (length_join_uniform 10 B HB') as JB.
  assert (Japp : join (A ++ [t]) = join A ++ t).
  { clear. induction A; cbn [join app].
    - now rewrite append_nil_r.
    - now rewrite IHA, append_assoc. }
  unfold unsignedSegments. rewrite map_app, <- app_assoc.
  fold (unsignedSegments A).
  rewrite unsigned_buffered by (cbn; lia).
  cbn [map app processStreamingResponse].
  rewrite processDelta_unsigned, processDetail_unsigned. cbv zeta.
  rewrite set_reasoning_twice.
  cbn [_reasoningTextBuffer set_reasoning init append].
  assert (E1 : (4000 <? String.length (join A ++ t)) = true).
  { apply Nat.ltb_lt. rewrite length_append. lia. }
  rewrite E1. cbn [fst].
  match goal with
  | |- context [flushReasoningBuffer random ?x] => set (sA := x)
  end.
  destruct (flushReasoningBuffer_fields sA) as (F1 & F2 & F3 & F4).
  destruct F4 as [_ F4].
  { apply Nat.ltb_lt. cbn. rewrite length_append. lia. }
  set (sF := flushReasoningBuffer random sA) in *.
  fold (unsignedSegments B).
  rewrite unsigned_buffered by (rewrite F2; cbn; lia).
  rewrite F2. cbn [append processStreamingResponse].
  match goal with
  | |- context [done _ _ _ ?x] => set (sB := x)
  end.
  unfold done.
  rewrite flushToolCallBuffers_none by (cbn; now rewrite F3).
  destruct (flushReasoningBuffer_fields sB) as (G1 & _ & _ & G4).
  destruct G4 as [G4 G5].
  { apply Nat.ltb_lt. cbn. lia. }
  set (sG := flushReasoningBuffer random sB) in *.
  rewrite reported_finally.
  destruct (closeActiveThinking_fields sG) as (C1 & C2).
  rewrite G4 in C1, C2.
  rewrite (closeActiveThinking_idle (closeActiveThinking sG))
    by (now rewrite C2).
  rewrite C1, G1.
  assert (IdF : _currentThinkingId sF = Some ("thinking_" ++ random 0))
    by (rewrite F4; reflexivity).
  assert (IdG : _currentThinkingId sG = Some ("thinking_" ++ random 0)).
  { rewrite G5. change (_currentThinkingId sB) with (_currentThinkingId sF).
    rewrite IdF. reflexivity. }
  rewrite IdG.
  change (reported sB) with (reported sF). rewrite F1, IdF.
  unfold pendingFlush.
  change (_reasoningTextBuffer sB) with (join B).
  change (_reasoningTextBuffer sA) with (join A ++ t).
  replace (0 <? String.length (join B)) with true
    by (symmetry; apply Nat.ltb_lt; lia).
  replace (0 <? String.length (join A ++ t)) with true
    by (symmetry; apply Nat.ltb_lt; rewrite length_append; lia).
  rewrite Japp. reflexivity.
Qed.


(** *** Forced flushes of the tool-call buffers *)









(** What [src/provider.ts] reports for one entry of the details: the
    extracted text, when it is not empty. *)
Lemma Provider_processDetail_reported (p : Provider.State)
  (detail : ReasoningDetail) :
  let p' := fst (Provider.processDetail random p detail) in
  let isText := String.eqb (rd_type detail) "reasoning.text" in
  let isEncrypted := String.eqb (rd_type detail) "reasoning.encrypted" in
  let extractedText :=
    if String.eqb (rd_type detail) "reasoning.summary" then rd_summary detail
    else if isText then rd_text detail
    else if isEncrypted then "[REDACTED]"
    else rd_json detail in
  Provider.reported p'
  = (Provider.reported p
     ++ (if truthy extractedText
         then [(LanguageModelThinkingPart extractedText
                  (Provider._currentThinkingId p')
                  (Some {| md_format := rd_format detail;
                           md_type := Some (rd_type detail);
                           md_index := rd_index detail;
                           md_signature :=
                             if isText && truthyOpt (rd_signature detail)
                             then rd_signature detail else None;
                           md_data :=
                             if isEncrypted && truthyOpt (rd_data detail)
                             then rd_data detail else None |}), None)]
         else []))%list.
Proof.
  cbv zeta. unfold Provider.processDetail.
  destruct (truthy _).
  - cbn [fst Provider.reported Provider.report Provider._currentThinkingId].
    f_equal. unfold Provider.ensureThinkingId.
    destruct (_ && _); destruct (truthyOpt _); reflexivity.
  - cbn [fst]. rewrite app_nil_r. destruct (_ && _); reflexivity.
Qed.

(** Claim C1, as amended.  A reasoning segment that carries a
    continuation signature (a [reasoning.text] entry with a signature, or
    a [reasoning.encrypted] entry with data) is, in the revision that
    coalesces, reported as a thinking part of its own whose metadata
    holds the signature, after the pending buffer, if there is one, was
    flushed as a part of its own; the segment is not put into the buffer,
    which is empty afterwards.  [src/provider.ts], which has no buffer,
    reports the segment as a part of its own, with the signature in the
    metadata, exactly when the text of the segment is not empty. *)
Theorem signed_segment_own_event (s : State) (p : Provider.State)
  (detail : ReasoningDetail) (sig : string) :
  truthy sig = true ->
  (rd_type detail = "reasoning.text" /\ rd_signature detail = Some sig) \/
  (rd_type detail = "reasoning.encrypted" /\ rd_data detail = Some sig) ->
  let isText := String.eqb (rd_type detail) "reasoning.text" in
  let text := if isText then rd_text detail else "[REDACTED]" in
  let s' := fst (processDetail random s detail) in
  let p' := fst (Provider.processDetail random p detail) in
  (reported s'
   = (reported s ++ pendingFlush (_currentThinkingId s') s
      ++ [LanguageModelThinkingPart text (_currentThinkingId s')
            (Some {| md_format := rd_format detail;
                     md_type := Some (rd_type detail);
                     md_index := rd_index detail;
                     md_signature := Some sig;
                     md_data := None |})])%list /\
   _reasoningTextBuffer s' = "") /\
  Provider.reported p'
  = (Provider.reported p
     ++ (if truthy text
         then [(LanguageModelThinkingPart text (Provider._currentThinkingId p')
                  (Some {| md_format := rd_format detail;
                           md_type := Some (rd_type detail);
                           md_index := rd_index detail;
                           md_signature := if isText then Some sig else None;
                           md_data := if isText then None else Some sig |}),
                None)]
         else []))%list.
Proof.
  intros Hsig Hkind isText text s' p'.
  assert (Hex : extract detail = (text, Some sig, isText)).
  { unfold extract, text, isText.
    destruct Hkind as [(Ht & Hs)|(Ht & Hd)]; rewrite Ht; cbn.
    - rewrite Hs. cbn. now rewrite Hsig.
    - rewrite Hd. cbn. now rewrite Hsig. }
  split.
  - pose proof (processDetail_flushes s detail) as H. rewrite Hex in H.
    cbn [truthyOpt] in H. rewrite Hsig in H. cbn [negb] in H.
    rewrite andb_false_r, orb_true_r in H. exact (H eq_refl).
  - unfold p'. rewrite Provider_processDetail_reported.
    unfold text, isText.
    destruct Hkind as [(Ht & Hs)|(Ht & Hd)]; rewrite Ht; cbn.
    + rewrite Hs. cbn. rewrite Hsig. reflexivity.
    + rewrite Hd. cbn. rewrite Hsig. reflexivity.
Qed.

(** Claim C6, as amended.  Unsigned plain reasoning text is appended to
    [_reasoningTextBuffer] and not reported; the buffer is flushed as one
    thinking part when its length exceeds 4000 characters, when a signed
    entry or an entry that is not plain text arrives (before the part of
    that entry), and when [[DONE]] is processed.  500 unsigned segments of
    10 characters followed by [[DONE]] give exactly two coalesced thinking
    parts, of 4010 and of 990 characters, and then the empty part that
    closes the thinking block. *)
Theorem reasoning_text_coalesced :
  (forall (s : State) (t : string),
     let s' := fst (processDetail random s (plainText t)) in
     let whole := _reasoningTextBuffer s ++ t in
     if 4000 <? String.length whole
     then reported s'
          = (reported s
             ++ [LanguageModelThinkingPart whole (_currentThinkingId s')
                   (Some flushMetadata)])%list /\
          _reasoningTextBuffer s' = ""
     else reported s' = reported s /\ _reasoningTextBuffer s' = whole) /\
  (forall (s : State) (detail : ReasoningDetail) text signature isSimpleText,
     extract detail = (text, signature, isSimpleText) ->
     isSimpleText && negb (truthyOpt signature) = false ->
     let s' := fst (processDetail random s detail) in
     reported s'
     = (reported s ++ pendingFlush (_currentThinkingId s') s
        ++ (if truthy text || truthyOpt signature
            then [LanguageModelThinkingPart text (_currentThinkingId s')
                    (Some {| md_format := rd_format detail;
                             md_type := Some (rd_type detail);
                             md_index := rd_index detail;
                             md_signature :=
                               if truthyOpt signature then signature else None;
                             md_data := None |})]
            else []))%list /\
     _reasoningTextBuffer s' = "") /\
  (forall (s : State) (rest : list StreamLine),
     processStreamingResponse tryParseJSONObject stringify random s
       (Done :: rest)
     = finally
         (closeActiveThinking
            (flushReasoningBuffer random
               (flushToolCallBuffers tryParseJSONObject stringify s))) /\
     let s' := flushReasoningBuffer random s in
     reported s'
     = (reported s ++ pendingFlush (_currentThinkingId s') s)%list /\
     _reasoningTextBuffer s' = "") /\
  (forall texts : list string,
     List.length texts = 500 ->
     Forall (fun t => String.length t = 10) texts ->
     reported (processStreamingResponse tryParseJSONObject stringify random
                 init (unsignedSegments texts ++ [Done])%list)
     = [LanguageModelThinkingPart (join (firstn 401 texts))
          (Some ("thinking_" ++ random 0)) (Some flushMetadata);
        LanguageModelThinkingPart (join (skipn 401 texts))
          (Some ("thinking_" ++ random 0)) (Some flushMetadata);
        LanguageModelThinkingPart "" (Some ("thinking_" ++ random 0)) None] /\
     String.length (join (firstn 401 texts)) = 4010 /\
     String.length (join (skipn 401 texts)) = 990).
Proof.
  split; [|split; [|split]].
  - intros s t s' whole. unfold s'. rewrite processDetail_unsigned. cbv zeta.
    fold whole. destruct (4000 <? String.length whole) eqn:E; cbn [fst].
    + match goal with
      | |- context [flushReasoningBuffer random ?x] => set (s1 := x)
      end.
      destruct (flushReasoningBuffer_fields s1) as (F1 & F2 & _).
      split; [|assumption]. rewrite F1. unfold pendingFlush.
      change (_reasoningTextBuffer s1) with whole.
      change (reported s1) with (reported s).
      replace (0 <? String.length whole) with true; [reflexivity|].
      symmetry. apply Nat.ltb_lt. apply Nat.ltb_lt in E. lia.
    + split; reflexivity.
  - intros s detail text signature isSimpleText Hex Hkind.
    pose proof (processDetail_flushes s detail) as H. rewrite Hex in H.
    exact (H Hkind).
  - intros s rest. split; [reflexivity|].
    destruct (flushReasoningBuffer_fields s) as (F1 & F2 & _). now split.
  - intros texts Hlen Hall. split; [now apply five_hundred_segments|].
    rewrite <- (firstn_skipn 401 texts) in Hall.
    apply Forall_app in Hall. destruct Hall as [HA HB].
    rewrite (length_join_uniform 10 _ HA), (length_join_uniform 10 _ HB).
    rewrite length_firstn, length_skipn, Hlen. split; reflexivity.
Qed.


(** Claim C9, as amended.  The content fragments [Hello <thi],
    [nk>pondering] and [</think> world] are reported, by both revisions,
    as three text parts that carry the fragments as they are; no thinking
    part is reported, since a tag cut by a fragment boundary is not
    recognised. *)
Theorem split_think_tag_fragments :
  Provider.parts
    (Provider.processLines tryParseJSONObject stringify random Provider.init
       thinkFragments)
  = [LanguageModelTextPart "Hello <thi"; LanguageModelTextPart "nk>pondering";
     LanguageModelTextPart "</think> world"] /\
  reported (processStreamingResponse tryParseJSONObject stringify random init
              thinkFragments)
  = [LanguageModelTextPart "Hello <thi"; LanguageModelTextPart "nk>pondering";
     LanguageModelTextPart "</think> world"].
Proof. split; vm_compute; reflexivity. Qed.

End Facts.

(** Claim C1 as stated fails in [src/provider.ts]: a signed
    [reasoning.text] entry whose text is empty reports nothing. *)
Lemma signed_empty_text_counterexample :
  truthyOpt (rd_signature (signedText "" "sig")) = true /\
  Provider.parts
    (Provider.processLines Json.tryParseJSONObject Json.stringify
       (fun _ => "x") Provider.init
       [Data (reasoningDelta [signedText "" "sig"])])
  = [].
Proof. split; vm_compute; reflexivity. Qed.

Lemma signed_segment_own_event_witness :
  reported (fst (processDetail (fun _ => "x") init (signedText "abc" "sig")))
  = [LanguageModelThinkingPart "abc" (Some "thinking_x")
       (Some {| md_format := None; md_type := Some "reasoning.text";
                md_index := None; md_signature := Some "sig";
                md_data := None |})].
Proof.
  exact (proj1 (proj1 (signed_segment_own_event (fun _ => "x") init
                         Provider.init (signedText "abc" "sig") "sig"
                         eq_refl (or_introl (conj eq_refl eq_refl))))).
Defined.

(** Without [[DONE]] the reasoning text still buffered is discarded by the
    [finally] block. *)
Lemma buffer_discarded_without_done :
  reported (processStreamingResponse Json.tryParseJSONObject Json.stringify
              (fun _ => "x") init (unsignedSegments ["abc"]))
  = [].
Proof. vm_compute. reflexivity. Qed.

(** Claim C6 as stated fails: a buffer that has reached 4000 characters
    is not flushed; it takes more than 4000. *)
Lemma buffer_at_4000_counterexample :
  let s' :=
    fst (processDetail (fun _ => "x") init
           (plainText (repeatChar "a" 4000))) in
  String.length (_reasoningTextBuffer s') = 4000 /\ reported s' = [].
Proof. split; vm_compute; reflexivity. Qed.

Lemma reasoning_text_coalesced_witness :
  let texts := List.repeat "0123456789" 500 in
  List.length
    (reported (processStreamingResponse Json.tryParseJSONObject Json.stringify
                 (fun _ => "x") init (unsignedSegments texts ++ [Done])%list))
  = 3.
Proof.
  cbv zeta.
  destruct (proj2 (proj2 (proj2
              (reasoning_text_coalesced Json.tryParseJSONObject Json.stringify
                 (fun _ => "x")))) (List.repeat "0123456789" 500))
    as [H _].
  - apply repeat_length.
  - apply Forall_forall. intros x Hx. apply repeat_spec in Hx.
    rewrite Hx. reflexivity.
  - rewrite H. reflexivity.
Defined.



(** Claim C9 as stated fails: the three fragments come out as three text
    parts, and there is no thinking part. *)
Lemma split_think_tag_counterexample :
  Provider.parts
    (Provider.processLines Json.tryParseJSONObject Json.stringify
       (fun _ => "x") Provider.init thinkFragments)
  = [LanguageModelTextPart "Hello <thi"; LanguageModelTextPart "nk>pondering";
     LanguageModelTextPart "</think> world"].
Proof. vm_compute. reflexivity. Qed.

End CoalescerFacts.

(** ** Searching past a token *)

Module SearchFacts.
Import JSString JSStringFacts.

Lemma found_at (token text rest : string) :
  indexOf token (text ++ token) = Some (String.length text) ->
  indexOf token (text ++ token ++ rest) = Some (String.length text).
Proof. intro H. rewrite <- append_assoc. now apply indexOf_app_found. Qed.

Lemma drop_beyond (token text rest : string) :
  drop (String.length text + String.length token) (text ++ token ++ rest)
  = rest.
Proof. now rewrite drop_app_ge, drop_length_app. Qed.

Lemma length_nonzero (s : string) :
  0 < String.length s -> (String.length s =? 0) = false.
Proof. intro H. apply Nat.eqb_neq. lia. Qed.

End SearchFacts.

(** ** The parser of the Kimi tokens on whole streams *)

Module KimiStreamFacts.
Import JSString JSStringFacts Kimi KimiFacts KimiStreams SearchFacts.

Lemma run_cases (Q : Parser -> Parser * list StreamResult -> Prop) :
  (forall p, buffer p = "" -> Q p (p, [])) ->
  (forall p i,
      indexOf (sentinel p) (buffer p) = Some i ->
      Q (fst (found p i)) (run (fst (found p i))) ->
      Q p (fst (run (fst (found p i))),
           (snd (found p i) ++ snd (run (fst (found p i))))%list)) ->
  (forall p,
      awaitingCall p = true -> indexOf (sentinel p) (buffer p) = None ->
      Q p (p, [])) ->
  (forall p,
      0 < String.length (buffer p) -> awaitingCall p = false ->
      indexOf (sentinel p) (buffer p) = None ->
      let q := String.length (buffer p)
               - findPartialMatch (buffer p) (sentinel p) in
      Q p (absorb p (take q (buffer p)) (drop q (buffer p)))) ->
  forall p, Q p (run p).
Proof.
  intros Hempty Hfound Hwait Habsent p.
  remember (String.length (buffer p)) as n eqn:Hn.
  assert (Hle : String.length (buffer p) <= n) by lia. clear Hn.
  revert p Hle. induction n as [|n IH]; intros p Hle.
  - rewrite run_empty by (apply length_zero; lia).
    apply Hempty. apply length_zero. lia.
  - destruct (Nat.eq_dec (String.length (buffer p)) 0) as [Hz|Hnz].
    { rewrite run_empty by (now apply length_zero).
      apply Hempty. now apply length_zero. }
    destruct (indexOf (sentinel p) (buffer p)) as [i|] eqn:E.
    + rewrite (run_found p i E). apply Hfound; [assumption|].
      apply IH.
      assert (Hit := iteration_found_view p i E).
      rewrite (surjective_pairing (found p i)) in Hit.
      apply iteration_shrinks in Hit; lia.
    + destruct (awaitingCall p) eqn:Haw.
      * rewrite (run_awaiting p Haw E). now apply Hwait.
      * rewrite (run_absent p ltac:(lia) Haw E). apply Habsent; [lia|assumption..].
Qed.

Lemma found_tools (p : Parser) (n : nat) :
  inToolSection p = true ->
  inToolSection (fst (found p n)) = true /\
  Forall isToolResult (snd (found p n)).
Proof.
  parser_cases p; intro H; try discriminate; split; try reflexivity;
    repeat constructor.
Qed.

(** In the tool section the parser stays in it and emits tool calls only. *)
Lemma run_section_tools (p : Parser) :
  inToolSection p = true ->
  inToolSection (fst (run p)) = true /\ Forall isToolResult (snd (run p)).
Proof.
  revert p.
  apply (run_cases (fun p res => inToolSection p = true ->
           inToolSection (fst res) = true /\ Forall isToolResult (snd res))).
  - intros p _ H. now split.
  - intros p i E IH H. cbn [fst snd].
    destruct (found_tools p i H) as (H1 & H2).
    destruct (IH H1) as (I1 & I2).
    split; [assumption|]. apply Forall_app. now split.
  - intros p _ _ H. now split.
  - intros p _ _ _ q H.
    destruct (absorb_section p (take q (buffer p)) (drop q (buffer p)) H)
      as (H1 & H2).
    split; [assumption|]. rewrite H2. constructor.
Qed.

(** Property X2.  Once in the tool section the parser stays in it, and
    whatever the chunks hold [processChunk] pushes tool calls only: no
    text is given out as thinking content any more. *)
Theorem section_emits_tools_only (p : Parser) (chunks : list string) :
  inToolSection p = true ->
  inToolSection (fst (processChunks p chunks)) = true /\
  Forall isToolResult (snd (processChunks p chunks)).
Proof.
  revert p. induction chunks as [|c rest IH]; intros p H; cbn [processChunks].
  - now split.
  - destruct (processChunk p c) as [p1 r1] eqn:E1.
    assert (H1 : inToolSection p1 = true /\ Forall isToolResult r1).
    { pose proof (run_section_tools (set_buffer p (buffer p ++ c)) H) as R.
      unfold processChunk in E1. rewrite E1 in R. exact R. }
    destruct H1 as (H1 & H2). specialize (IH p1 H1).
    destruct (processChunks p1 rest) as [p2 r2]. cbn [fst snd] in *.
    destruct IH as (I1 & I2). split; [assumption|].
    apply Forall_app. now split.
Qed.

(** The withheld text is shorter than the sentinel searched for, except
    while the parser waits for a call to begin. *)
Lemma run_buffer_bound (p : Parser) :
  awaitingCall (fst (run p)) = false ->
  String.length (buffer (fst (run p)))
  <= String.length (sentinel (fst (run p))) - 1.
Proof.
  revert p.
  apply (run_cases (fun p res => awaitingCall (fst res) = false ->
           String.length (buffer (fst res))
           <= String.length (sentinel (fst res)) - 1)).
  - intros p Hb _. cbn [fst]. rewrite Hb. cbn. lia.
  - intros p i _ IH H. exact (IH H).
  - intros p Haw _ H. cbn [fst] in H. congruence.
  - intros p _ _ _ q _.
    rewrite buffer_absorb, sentinel_absorb, length_drop.
    destruct (findPartialMatch_candidate (buffer p) (sentinel p))
      as (H1 & H2 & _).
    unfold q. lia.
Qed.

(** Property X3.  After [processChunk], unless the parser waits for a
    call to begin, the buffer holds less than the sentinel searched for,
    at most 27 characters: only a possible beginning of the sentinel is
    withheld. *)
Theorem withheld_buffer_bounded (p : Parser) (chunk : string) :
  let p' := fst (processChunk p chunk) in
  awaitingCall p' = false ->
  String.length (buffer p') < String.length (sentinel p') /\
  String.length (buffer p') <= 27.
Proof.
  intros p' H. unfold p', processChunk in *.
  pose proof (run_buffer_bound _ H) as B.
  pose proof (sentinel_length (fst (run (set_buffer p (buffer p ++ chunk)))))
    as L.
  split; [lia|].
  assert (String.length (sentinel (fst (run (set_buffer p (buffer p ++ chunk)))))
          <= 28).
  { unfold sentinel. repeat destruct (negb _); cbn; lia. }
  lia.
Qed.

Lemma coalesce_tools (rs : list StreamResult) :
  Forall isToolResult rs -> coalesce rs = rs.
Proof.
  induction 1 as [|r rest [Ht Hc] _ IH]; cbn [coalesce]; [reflexivity|].
  rewrite IH. unfold thinkingContent. rewrite Ht. reflexivity.
Qed.

Lemma toolOf_isToolResult (calls : list Call) :
  Forall isToolResult (map toolOf calls).
Proof. induction calls; constructor; [now split | assumption]. Qed.

(** One call, from the state that waits for it. *)
Lemma run_one_call (p : Parser) (c : Call) (rest : string) :
  inToolSection p = true -> inToolCall p = false -> inArguments p = false ->
  WellFormed c ->
  buffer p = renderCall c ++ rest ->
  let p' := {| buffer := rest; inToolSection := true; inToolCall := false;
               inArguments := false; currentToolName := callName c;
               currentToolArgs := callArgs c |} in
  run p = (fst (run p'), toolOf c :: snd (run p')).
Proof.
  intros Hs Hc Ha (W1 & W2 & W3) Hb p'.
  destruct p as [buf s1 s2 s3 nm ar]. cbn in Hs, Hc, Ha, Hb. subst s1 s2 s3.
  unfold renderCall in Hb. rewrite !append_assoc in Hb. subst buf.
  rewrite (run_found _ (String.length (junk c)))
    by (cbn [sentinel inToolSection inToolCall negb buffer];
        now apply found_at).
  unfold found.
  cbn [sentinel inToolSection inToolCall inArguments negb buffer fst snd
       currentToolName currentToolArgs app append].
  rewrite drop_beyond.
  rewrite (run_found _ (String.length (callName c)))
    by (cbn [sentinel inToolSection inToolCall inArguments negb buffer];
        now apply found_at).
  unfold found.
  cbn [sentinel inToolSection inToolCall inArguments negb buffer fst snd
       currentToolName currentToolArgs app append].
  rewrite drop_beyond, take_length_app.
  rewrite (run_found _ (String.length (callArgs c)))
    by (cbn [sentinel inToolSection inToolCall inArguments negb buffer];
        now apply found_at).
  unfold found.
  cbn [sentinel inToolSection inToolCall inArguments negb buffer fst snd
       currentToolName currentToolArgs app append].
  rewrite drop_beyond, take_length_app.
  reflexivity.
Qed.

Lemma run_calls (calls : list Call) (rest : string) :
  Forall WellFormed calls ->
  indexOf CALL_BEGIN rest = None ->
  forall p,
    inToolSection p = true -> inToolCall p = false -> inArguments p = false ->
    buffer p = join (map renderCall calls) ++ rest ->
    snd (run p) = map toolOf calls /\
    buffer (fst (run p)) = rest /\
    awaitingCall (fst (run p)) = true.
Proof.
  intros Hwf Hrest. induction Hwf as [|c calls Hc _ IH];
    intros p Hs Hi Ha Hb; cbn [map join] in *.
  - cbn [append] in Hb.
    assert (Haw : awaitingCall p = true)
      by (unfold awaitingCall; now rewrite Hs, Hi).
    rewrite run_awaiting; [now cbn | assumption |].
    unfold sentinel. rewrite Hs, Hi. cbn [negb]. now rewrite Hb.
  - rewrite append_assoc in Hb.
    rewrite (run_one_call p c _ Hs Hi Ha Hc Hb). cbn [fst snd].
    match goal with |- context [run ?x] => set (p' := x) end.
    destruct (IH p' eq_refl eq_refl eq_refl eq_refl) as (I1 & I2 & I3).
    rewrite I1. now repeat split.
Qed.

(** Property X1.  A stream made of text, the section-begin sentinel and
    calls written as junk, call-begin sentinel, name, argument-begin
    sentinel, arguments and call-end sentinel, where none of these pieces
    holds or begins the sentinel searched in it and no further call begins
    after the last one, gives, however it is cut into chunks, the text as
    thinking content followed by one tool call per call, name and
    arguments trimmed; what follows the last call stays in the buffer. *)
Theorem well_formed_calls_parsed (before rest : string) (calls : list Call)
  (chunks : list string) :
  firstAt SECTION_BEGIN before ->
  Forall WellFormed calls ->
  indexOf CALL_BEGIN rest = None ->
  join chunks = renderStream before calls rest ->
  coalesce (snd (processChunks init chunks))
  = ((if 0 <? String.length before then [thinkingResult before] else [])
     ++ map toolOf calls)%list /\
  buffer (fst (processChunks init chunks)) = rest.
Proof.
  intros Hb Hwf Hrest Hjoin.
  destruct (processChunks_init_join chunks) as (E1 & E2).
  rewrite E1, E2, Hjoin. clear E1 E2 Hjoin.
  unfold processChunk, renderStream.
  change (buffer init ++ ?x) with x.
  rewrite (run_found _ (String.length before))
    by (cbn [sentinel inToolSection init set_buffer negb buffer];
        now apply found_at).
  unfold found.
  cbn [sentinel inToolSection inToolCall inArguments negb buffer fst snd
       currentToolName currentToolArgs init set_buffer].
  rewrite drop_beyond, take_length_app.
  match goal with |- context [run ?x] => set (p' := x) end.
  destruct (run_calls calls rest Hwf Hrest p' eq_refl eq_refl eq_refl eq_refl)
    as (I1 & I2 & _).
  rewrite I1, I2. split; [|reflexivity].
  destruct (0 <? String.length before).
  - cbn [app coalesce]. rewrite (coalesce_tools _ (toolOf_isToolResult calls)).
    cbn [thinkingContent thinkingResult type content toolCall].
    destruct calls; reflexivity.
  - cbn [app]. apply coalesce_tools, toolOf_isToolResult.
Qed.

Lemma well_formed_calls_parsed_witness :
  coalesce
    (snd (processChunks init
            ["Let me look. <|tool_calls_sec";
             "tion_begin|> <|tool_call_begin|> get_weather <|tool_call_arg";
             "ument_begin|> {} <|tool_call_end|>"]))
  = [thinkingResult "Let me look. "; toolResult "get_weather" "{}"].
Proof.
  refine (proj1 (well_formed_calls_parsed "Let me look. " ""
            [{| junk := " "; callName := " get_weather ";
                callArgs := " {} " |}] _ _ _ _ _)).
  - reflexivity.
  - repeat constructor.
  - reflexivity.
  - reflexivity.
Defined.

Lemma section_emits_tools_only_witness :
  let p := fst (processChunk init "<|tool_calls_section_begin|>") in
  Forall isToolResult
    (snd (processChunks p
            ["<|tool_call_begin|>f<|tool_call_arg";
             "ument_begin|>{}<|tool_call_end|> and more"])).
Proof.
  exact (proj2 (section_emits_tools_only
                  (fst (processChunk init "<|tool_calls_section_begin|>"))
                  ["<|tool_call_begin|>f<|tool_call_arg";
                   "ument_begin|>{}<|tool_call_end|> and more"] eq_refl)).
Defined.

Lemma withheld_buffer_bounded_witness :
  let p' := fst (processChunk init "Let me look. <|tool_calls_sec") in
  buffer p' = "<|tool_calls_sec" /\ String.length (buffer p') <= 27.
Proof.
  cbv zeta. split; [reflexivity|].
  exact (proj2 (withheld_buffer_bounded init "Let me look. <|tool_calls_sec"
                  eq_refl)).
Defined.

End KimiStreamFacts.

(** ** The lines of the event stream *)

Module SseFacts.
Import JSString JSStringFacts Sse.

Lemma split_nonempty (sep s : string) : split sep s <> [].
Proof.
  unfold split. generalize 0 as k. generalize (@nil ascii) as acc.
  induction s as [|c s IH]; intros acc k; cbn [split_go].
  - discriminate.
  - destruct k; [|apply IH].
    destruct (startsWith sep (String c s)); [discriminate | apply IH].
Qed.

Lemma split_absent (sep s : string) :
  indexOf sep s = None -> split sep s = [s].
Proof. intro H. unfold split. now rewrite split_go_absent. Qed.

Lemma split_found (sep s : string) (n : nat) :
  0 < String.length sep -> indexOf sep s = Some n ->
  split sep s = take n s :: split sep (drop (n + String.length sep) s).
Proof. intros Hsep H. unfold split. now rewrite (split_go_found sep n Hsep s [] H). Qed.

Lemma removelast_cons {A : Type} (x : A) (l : list A) :
  l <> [] -> removelast (x :: l) = x :: removelast l.
Proof. destruct l; [congruence | reflexivity]. Qed.

Lemma last_cons {A : Type} (x d : A) (l : list A) :
  l <> [] -> last (x :: l) d = last l d.
Proof. destruct l; [congruence | reflexivity]. Qed.

(** The text is split where the separator is; splitting what follows
    the last separator again, with more text, gives the pieces of the
    whole. *)
Lemma split_app (sep : string) (n : nat) :
  0 < String.length sep ->
  forall a b,
    String.length a <= n ->
    split sep (a ++ b)
    = (removelast (split sep a) ++ split sep (last (split sep a) "" ++ b))%list
    /\ indexOf sep (last (split sep a) "") = None.
Proof.
  intro Hsep. induction n as [|n IH]; intros a b Hlen.
  - assert (a = "") by (apply length_zero; lia). subst a.
    destruct (indexOf sep "") eqn:E.
    + apply indexOf_Some in E. cbn in E. lia.
    + rewrite (split_absent sep "" E). cbn. now split.
  - destruct (indexOf sep a) as [i|] eqn:E.
    + destruct (indexOf_Some _ _ _ E) as (_ & Hi & _).
      rewrite (split_found sep a i Hsep E).
      rewrite (split_found sep (a ++ b) i Hsep (indexOf_app_found _ _ b _ E)).
      rewrite take_app_le, drop_app_le by lia.
      destruct (IH (drop (i + String.length sep) a) b) as (H1 & H2).
      { rewrite length_drop. lia. }
      rewrite removelast_cons, last_cons by apply split_nonempty.
      rewrite H1. now split.
    + rewrite (split_absent sep a E). cbn. now split.
Qed.

Lemma readChunk_app (buffer a b : string) :
  readChunk (snd (readChunk buffer a)) b
  = (removelast (split NEWLINE (snd (readChunk buffer a) ++ b)),
     snd (readChunk buffer (a ++ b))) /\
  (fst (readChunk buffer a) ++ fst (readChunk (snd (readChunk buffer a)) b))%list
  = fst (readChunk buffer (a ++ b)).
Proof.
  unfold readChunk. cbn [fst snd].
  destruct (split_app NEWLINE _ ltac:(cbn; lia) (buffer ++ a) b (Nat.le_refl _))
    as (H & _).
  rewrite <- append_assoc, H.
  set (l1 := removelast (split NEWLINE (buffer ++ a))).
  set (l2 := split NEWLINE (last (split NEWLINE (buffer ++ a)) "" ++ b)).
  assert (Hne : l2 <> []) by apply split_nonempty.
  split.
  - f_equal. clearbody l1 l2. induction l1 as [|x l1 IH]; [reflexivity|].
    cbn [app]. rewrite last_cons; [exact IH|].
    destruct l1; [assumption | discriminate].
  - clearbody l1 l2. induction l1 as [|x l1 IH]; [reflexivity|].
    cbn [app]. rewrite removelast_cons; [now rewrite IH|].
    destruct l1; [assumption | discriminate].
Qed.

(** Property X4.  The lines handed on and the piece kept in the buffer
    are those of the chunks joined: they do not depend on where the
    stream is cut into chunks.  The piece kept holds no line feed. *)
Theorem lines_independent_of_chunking (chunks : list string) :
  readChunks "" chunks = readChunk "" (join chunks) /\
  indexOf NEWLINE (snd (readChunks "" chunks)) = None.
Proof.
  assert (G : forall tail buffer first,
             readChunks buffer (first :: tail)
             = readChunk buffer (join (first :: tail))).
  { induction tail as [|c rest IH]; intros buffer first.
    - cbn [readChunks join]. rewrite append_nil_r.
      destruct (readChunk buffer first). now rewrite app_nil_r.
    - change (readChunks buffer (first :: c :: rest))
        with (let '(l, b1) := readChunk buffer first in
              let '(m, b2) := readChunks b1 (c :: rest) in
              ((l ++ m)%list, b2)).
      destruct (readChunk_app buffer first (join (c :: rest))) as (H1 & H2).
      destruct (readChunk buffer first) as [l1 b1] eqn:E1.
      cbn [fst snd] in H1, H2. rewrite IH.
      destruct (readChunk b1 (join (c :: rest))) as [m b2] eqn:E2.
      cbn [fst] in H2. change (join (first :: c :: rest))
        with (first ++ join (c :: rest)).
      rewrite (surjective_pairing (readChunk buffer (first ++ _))).
      rewrite <- H2. inversion H1. reflexivity. }
  assert (E : readChunks "" chunks = readChunk "" (join chunks)).
  { destruct chunks as [|c rest]; [reflexivity | apply G]. }
  split; [assumption|]. rewrite E. unfold readChunk. cbn [snd].
  apply (split_app NEWLINE _ ltac:(cbn; lia) _ "" (Nat.le_refl _)).
Qed.

End SseFacts.

(** ** [src/provider.ts] on whole streams *)

Module ProviderStreamFacts.
Import JSString JSStringFacts Json Host OrderedMap OrderedMapFacts.
Import Provider ProviderFacts Streams ProviderViews SearchFacts.

Section Facts.
Variable tryParseJSONObject : string -> option json.
Variable stringify : json -> string.
Variable random : nat -> string.

Lemma processDelta_content (s : State) (c : string) :
  fst (fst (processDelta tryParseJSONObject stringify random s (contentDelta c)))
  = if truthy c then fst (processContent random s c) else s.
Proof.
  unfold processDelta, contentDelta, choiceOf. cbn [choices].
  unfold processReasoning, field. cbn [c_delta c_thinking c_reasoning_details
    c_finish_reason d_reasoning_details d_thinking d_reasoning_content
    d_reasoning d_content d_tool_calls orElse].
  destruct (truthy c); [|reflexivity].
  destruct (processContent random s c) as [s3 e3]. reflexivity.
Qed.

Lemma truthy_length (c : string) :
  truthy c = true -> (String.length c =? 0) = false.
Proof. destruct c; [discriminate | reflexivity]. Qed.

(** A fragment that is not searched, or that has no opening tag, goes
    out as it is. *)
Lemma processContent_plain (s : State) (c : string) :
  _xmlThinkActive s = false -> _currentThinkingId s = None ->
  _xmlThinkDetectionAttempted s = true \/ indexOf THINK_START c = None ->
  truthy c = true ->
  let s' := fst (processContent random s c) in
  reported s' = (reported s ++ [(LanguageModelTextPart c, None)])%list /\
  _xmlThinkActive s' = false /\ _currentThinkingId s' = None /\
  _xmlThinkDetectionAttempted s' = true.
Proof.
  intros Ha Hid Hgate Hc. cbv zeta.
  unfold processContent, processXmlThinkBlocks. rewrite Ha. cbn [negb].
  destruct (_xmlThinkDetectionAttempted s) eqn:Hatt; cbn [andb].
  - rewrite Hid. cbn [truthyOpt]. rewrite andb_false_r.
    unfold processTextContent. rewrite Hc. cbn. now rewrite Ha, Hid, Hatt.
  - destruct Hgate as [Hf|Hnone]; [discriminate|].
    cbn [xmlLoop]. rewrite (truthy_length c Hc), Ha. cbn [negb].
    rewrite Hnone. cbn [set_think _currentThinkingId]. rewrite Hid.
    cbn [truthyOpt]. rewrite andb_false_r.
    unfold processTextContent. rewrite Hc. cbn. auto.
Qed.

Lemma plain_fragments (fs : list string) :
  forall s,
    _xmlThinkActive s = false -> _currentThinkingId s = None ->
    _xmlThinkDetectionAttempted s = true \/ startsPlain fs ->
    parts (processLines tryParseJSONObject stringify random s (contentLines fs))
    = (parts s ++ map LanguageModelTextPart (filter truthy fs))%list.
Proof.
  unfold parts, processLines.
  induction fs as [|f fs IH]; intros s Ha Hid Hgate;
    cbn [contentLines map fold_left filter processLine].
  - now rewrite app_nil_r.
  - fold (contentLines fs). rewrite processDelta_content.
    destruct (truthy f) eqn:Hf.
    + assert (Hg : _xmlThinkDetectionAttempted s = true
                   \/ indexOf THINK_START f = None).
      { destruct Hgate as [H|H]; [now left | right].
        unfold startsPlain in H. cbn [filter] in H. now rewrite Hf in H. }
      destruct (processContent_plain s f Ha Hid Hg Hf) as (R & A & I & T).
      rewrite IH by (try assumption; now left).
      rewrite R, map_app, <- app_assoc. reflexivity.
    + apply IH; try assumption.
      destruct Hgate as [H|H]; [now left | right].
      unfold startsPlain in *. cbn [filter] in H. now rewrite Hf in H.
Qed.

(** Property X5.  [src/provider.ts]: when the first content fragment that
    is not empty holds no opening think tag, every fragment that is not
    empty is reported as a text part, unchanged and in order, and nothing
    else is reported; a think tag in a later fragment is text. *)
Theorem plain_content_verbatim (fragments : list string) :
  startsPlain fragments ->
  parts (processLines tryParseJSONObject stringify random init
           (contentLines fragments))
  = map LanguageModelTextPart (filter truthy fragments).
Proof.
  intro H. now rewrite plain_fragments by (try reflexivity; now right).
Qed.

(** Property X6.  [src/provider.ts]: a content fragment that holds one
    whole think block, met before any fragment was searched, reports one
    thinking part with the thought under a new identifier, and nothing
    else: the text before and after the block in this fragment is not
    reported.  Later fragments are searched again only when nothing
    follows the block. *)
Theorem think_block_reported (s : State) (before thought after : string) :
  _xmlThinkActive s = false -> _xmlThinkDetectionAttempted s = false ->
  indexOf THINK_START (before ++ THINK_START) = Some (String.length before) ->
  indexOf THINK_END (thought ++ THINK_END) = Some (String.length thought) ->
  indexOf THINK_START after = None ->
  truthy thought = true ->
  let s' := fst (processContent random s (thinkBlock before thought after)) in
  let id := Some ("thinking_" ++ random (draws s)) in
  reported s'
  = (reported s ++ [(LanguageModelThinkingPart thought id None, None)])%list /\
  _xmlThinkActive s' = false /\ _currentThinkingId s' = None /\
  _xmlThinkDetectionAttempted s' = truthy after.
Proof.
  intros Ha Hatt Hstart Hend Hafter Ht. cbv zeta.
  unfold processContent, processXmlThinkBlocks, thinkBlock.
  rewrite Ha, Hatt. cbn [andb negb].
  change "<think>" with THINK_START. change "</think>" with THINK_END.
  set (content := before ++ THINK_START ++ thought ++ THINK_END ++ after).
  assert (Hlen : S (String.length content)
                 = S (S (S (String.length before + String.length thought
                            + String.length after + 13)))).
  { unfold content. rewrite !length_append. cbn. lia. }
  rewrite Hlen. cbn [xmlLoop].
  rewrite length_nonzero by (unfold content; rewrite !length_append; cbn; lia).
  rewrite Ha. cbn [negb]. unfold content.
  rewrite (found_at _ _ _ Hstart), drop_beyond.
  unfold generateThinkingId.
  cbn [set_think set_draws _xmlThinkActive _xmlThinkDetectionAttempted
       _currentThinkingId negb].
  rewrite length_nonzero by (rewrite !length_append; cbn; lia).
  rewrite (found_at _ _ _ Hend), drop_beyond, take_length_app, Ht.
  cbn [orUndefined truthyOpt truthy append THINK_START].
  destruct after as [|c r].
  - cbn. now rewrite Hatt.
  - cbn [String.length Nat.eqb]. 
    cbn [set_think report _xmlThinkActive negb].
    rewrite Hafter. cbn. auto.
Qed.

Lemma piece_step (index : nat) (id : option string) (name args piece : string)
  (s : State) :
  truthy name = true ->
  Waiting index id name args s ->
  let s' :=
    processLine tryParseJSONObject stringify random s
      (Data (toolCallsDelta [fragment index None None (Some piece)] None)) in
  match tryParseJSONObject (args ++ piece) with
  | None => Waiting index id name (args ++ piece) s'
  | Some v =>
      reported s'
      = [(LanguageModelToolCallPart
            (match id with Some i => i | None => "call_" ++ random 0 end)
            name v, Some index)] /\
      _toolCallBuffers s' = [] /\
      has Nat.eqb index (_completedToolCallIndices s') = true
  end.
Proof.
  intros Hname (Hr & Hb & Hc & Ht & Hs & Hd & Hdr). cbv zeta.
  cbn [processLine]. rewrite processDelta_toolCalls.
  assert (Hh : beginToolCallsHint s
                 [fragment index None None (Some piece)] = s).
  { unfold beginToolCallsHint. rewrite Ht. now rewrite andb_false_r. }
  rewrite Hh. cbn [processToolCalls fold_left].
  set (tc := fragment index None None (Some piece)).
  assert (Hm : mergeFragment s tc
               = {| buf_id := id; buf_name := Some name;
                    buf_args := args ++ piece;
                    buf_thoughtSignature := None |}).
  { unfold mergeFragment, tc, fragment, indexOfCall.
    cbn [tc_index tc_id tc_function tc_thought_signature fn_name fn_arguments
         truthyOpt].
    rewrite Hb, Hs. cbn [get]. rewrite Nat.eqb_refl.
    cbn [buf_id buf_name buf_args buf_thoughtSignature truthyOpt]. reflexivity. }
  assert (Hst : storeFragment s tc
                = set_tools
                    [(index, {| buf_id := id; buf_name := Some name;
                                buf_args := args ++ piece;
                                buf_thoughtSignature := None |})]
                    (_completedToolCallIndices s)
                    (_emittedTextToolCallKeys s) s).
  { unfold storeFragment. rewrite Hm. unfold captureDetails.
    cbn [buf_id]. rewrite Hd. cbn [List.length Nat.ltb Nat.leb].
    replace (match id with
             | Some id0 =>
                 if truthy id0 && false then _ else _reasoningDetailsMap s
             | None => _reasoningDetailsMap s
             end)
      with (_reasoningDetailsMap s)
      by (destruct id; [now rewrite andb_false_r | reflexivity]).
    cbn [set_reasoning set_tools _toolCallBuffers _completedToolCallIndices
         _emittedTextToolCallKeys].
    rewrite Hb. unfold tc, fragment, indexOfCall. cbn [tc_index set].
    rewrite Nat.eqb_refl. destruct s. cbn in *. subst. reflexivity. }
  rewrite processToolCall_open
    by (unfold tc, fragment, indexOfCall; cbn [tc_index]; now rewrite Hc).
  rewrite Hm. cbn [buf_args buf_name].
  destruct (tryParseJSONObject (args ++ piece)) as [v|].
  - rewrite Hname, Hst.
    unfold emitToolCall, idOrRandom, tc, fragment, indexOfCall.
    cbn [buf_id tc_index buf_thoughtSignature finalId].
    destruct id as [i|]; cbn; rewrite ?Hr, ?Hc, ?Hdr, Nat.eqb_refl; cbn;
      rewrite ?Nat.eqb_refl; auto.
  - rewrite Hst. unfold Waiting. cbn. auto 10.
Qed.


Lemma first_step (index : nat) (id : option string) (name first : string) :
  truthy name = true ->
  let id' := if truthyOpt id then id else None in
  let s' :=
    processLine tryParseJSONObject stringify random init
      (Data (toolCallsDelta [fragment index id (Some name) (Some first)] None)) in
  match tryParseJSONObject first with
  | None => Waiting index id' name first s'
  | Some v =>
      reported s'
      = [(LanguageModelToolCallPart
            (match id' with Some i => i | None => "call_" ++ random 0 end)
            name v, Some index)] /\
      _toolCallBuffers s' = [] /\
      has Nat.eqb index (_completedToolCallIndices s') = true
  end.
Proof.
  intros Hname. cbv zeta. cbn [processLine]. rewrite processDelta_toolCalls.
  change (beginToolCallsHint init _) with init.
  cbn [processToolCalls fold_left].
  set (tc := fragment index id (Some name) (Some first)).
  assert (Hm : mergeFragment init tc
               = {| buf_id := if truthyOpt id then id else None;
                    buf_name := Some name; buf_args := first;
                    buf_thoughtSignature := None |}).
  { unfold mergeFragment, tc, fragment, indexOfCall. cbn. now rewrite Hname. }
  rewrite processToolCall_open by reflexivity.
  rewrite Hm. cbn [buf_args buf_name].
  assert (Hst : storeFragment init tc
                = set_tools
                    [(index, {| buf_id := if truthyOpt id then id else None;
                                buf_name := Some name; buf_args := first;
                                buf_thoughtSignature := None |})] [] [] init).
  { unfold storeFragment. rewrite Hm. unfold captureDetails.
    cbn [buf_id init reset _currentResponseReasoningDetails List.length
         Nat.ltb Nat.leb _reasoningDetailsMap].
    replace (match (if truthyOpt id then id else None) with
             | Some id0 => if truthy id0 && false then _ else []
             | None => []
             end)
      with (@nil (string * list ReasoningDetail))
      by (destruct (if truthyOpt id then id else None);
          [now rewrite andb_false_r | reflexivity]).
    reflexivity. }
  destruct (tryParseJSONObject first) as [v|].
  - rewrite Hname, Hst.
    unfold emitToolCall, idOrRandom, tc, fragment, indexOfCall.
    cbn [buf_id tc_index buf_thoughtSignature finalId].
    destruct (if truthyOpt id then id else None) as [i|]; cbn;
      rewrite ?Nat.eqb_refl; cbn; rewrite ?Nat.eqb_refl; auto.
  - rewrite Hst. unfold Waiting. cbn. auto 10.
Qed.

Lemma pieces_run (index : nat) (id : option string) (name : string)
  (v : json) (rest : list string) :
  truthy name = true ->
  forall args s,
    Waiting index id name args s ->
    rest <> [] ->
    (forall n, 0 < n < List.length rest ->
               tryParseJSONObject (args ++ join (firstn n rest)) = None) ->
    tryParseJSONObject (args ++ join rest) = Some v ->
    let run := processLines tryParseJSONObject stringify random s in
    (forall n, n < List.length rest ->
               reported (run (firstn n (pieceLines index rest))) = []) /\
    reported (run (pieceLines index rest))
    = [(LanguageModelToolCallPart
          (match id with Some i => i | None => "call_" ++ random 0 end)
          name v, Some index)] /\
    _toolCallBuffers (run (pieceLines index rest)) = [].
Proof.
  intros Hname. induction rest as [|p rest IH]; intros args s Hw Hne Hnone Hall;
    [congruence|]. cbv zeta. unfold processLines.
  cbn [pieceLines map fold_left].
  pose proof (piece_step index id name args p s Hname Hw) as Hstep.
  cbv zeta in Hstep.
  set (s1 := processLine tryParseJSONObject stringify random s _) in *.
  destruct rest as [|q rest].
  - cbn [join] in Hall. rewrite append_nil_r in Hall. rewrite Hall in Hstep.
    destruct Hstep as (H1 & H2 & _). cbn [map fold_left List.length].
    split; [|split; assumption].
    intros n Hn. assert (n = 0) by lia. subst n. cbn. apply Hw.
  - assert (Hp : tryParseJSONObject (args ++ p) = None).
    { specialize (Hnone 1 ltac:(cbn; lia)). cbn [firstn join] in Hnone.
      now rewrite append_nil_r in Hnone. }
    rewrite Hp in Hstep.
    destruct (IH (args ++ p) s1 Hstep ltac:(discriminate)) as (I1 & I2 & I3).
    { intros n Hn. specialize (Hnone (S n) ltac:(cbn [List.length] in *; lia)).
      cbn [firstn join] in Hnone. now rewrite append_assoc. }
    { cbn [join] in Hall. now rewrite append_assoc. }
    unfold processLines in *. fold (pieceLines index (q :: rest)) in *.
    split; [|split; assumption].
    intros [|n] Hn; [cbn; apply Hw|].
    cbn [firstn fold_left]. fold s1. apply I1. cbn [List.length] in *. lia.
Qed.

(** Property X7.  [src/provider.ts]: when the argument text of a call
    arrives in any number of fragments, no beginning of which parses as an
    object while the whole does, nothing is reported before the last
    fragment and exactly one tool call, with the parsed object and the
    identifier of the first fragment (or a generated one), is reported
    after it; [[DONE]] adds nothing. *)
Theorem fragments_reported_once (index : nat) (id : option string)
  (name first : string) (rest : list string) (v : json) :
  truthy name = true ->
  (forall n, 0 < n <= List.length rest ->
             tryParseJSONObject (join (firstn n (first :: rest))) = None) ->
  tryParseJSONObject (join (first :: rest)) = Some v ->
  let lines := argumentLines index id name first rest in
  let run := processLines tryParseJSONObject stringify random init in
  let callId :=
    if truthyOpt id then match id with Some i => i | None => "" end
    else "call_" ++ random 0 in
  let emitted := [(LanguageModelToolCallPart callId name v, Some index)] in
  (forall n, n <= List.length rest -> reported (run (firstn n lines)) = []) /\
  reported (run lines) = emitted /\
  reported (run (lines ++ [Done])%list) = emitted.
Proof.
  intros Hname Hnone Hall lines run callId emitted.
  pose proof (first_step index id name first Hname) as Hfirst.
  cbv zeta in Hfirst.
  assert (Hid : match (if truthyOpt id then id else None) with
                | Some i => i
                | None => "call_" ++ random 0
                end = callId).
  { unfold callId. destruct id as [i|]; cbn [truthyOpt]; [|reflexivity].
    now destruct (truthy i). }
  rewrite Hid in Hfirst.
  assert (Hdone : forall s, _toolCallBuffers s = [] ->
            processLine tryParseJSONObject stringify random s Done = s).
  { intros s Hs. cbn [processLine]. unfold flushToolCallBuffers.
    now rewrite Hs. }
  unfold run, lines, argumentLines, processLines in *.
  set (s1 := processLine tryParseJSONObject stringify random init _) in *.
  destruct rest as [|q rest].
  - cbn [join] in Hall. rewrite append_nil_r in Hall. rewrite Hall in Hfirst.
    destruct Hfirst as (H1 & H2 & _).
    cbn [pieceLines map fold_left app List.length]. fold s1.
    split; [|split].
    + intros n Hn. assert (n = 0) by lia. now subst n.
    + assumption.
    + now rewrite Hdone.
  - assert (Hp : tryParseJSONObject first = None).
    { specialize (Hnone 1 ltac:(cbn; lia)). cbn [firstn join] in Hnone.
      now rewrite append_nil_r in Hnone. }
    rewrite Hp in Hfirst.
    destruct (pieces_run index _ name v (q :: rest) Hname first s1 Hfirst
                ltac:(discriminate)) as (I1 & I2 & I3).
    { intros n Hn. specialize (Hnone (S n) ltac:(lia)).
      now cbn [firstn join] in Hnone. }
    { exact Hall. }
    rewrite Hid in I2. unfold processLines in *.
    split; [|split].
    + intros [|n] Hn; [reflexivity|].
      cbn [firstn fold_left]. fold s1. apply I1. lia.
    + cbn [fold_left]. fold s1. exact I2.
    + cbn [app fold_left]. fold s1. rewrite fold_left_app.
      cbn [fold_left]. now rewrite Hdone.
Qed.

Lemma map_ensureThinkingId (s : State) :
  _reasoningDetailsMap (ensureThinkingId random s) = _reasoningDetailsMap s.
Proof. unfold ensureThinkingId. now destruct (truthyOpt _). Qed.

Lemma map_processDetail (s : State) (d : ReasoningDetail) :
  _reasoningDetailsMap (fst (processDetail random s d)) = _reasoningDetailsMap s.
Proof.
  unfold processDetail.
  destruct (truthy _); cbn [fst _reasoningDetailsMap report];
    rewrite ?map_ensureThinkingId; now destruct (_ && _).
Qed.

Lemma map_processDetails (ds : list ReasoningDetail) :
  forall s,
    _reasoningDetailsMap (fst (processDetails random s ds))
    = _reasoningDetailsMap s.
Proof.
  induction ds as [|d r IH]; intros s; cbn [processDetails]; [reflexivity|].
  pose proof (map_processDetail s d) as H.
  destruct (processDetail random s d) as [s1 e1]. cbn [fst] in H.
  specialize (IH s1). destruct (processDetails random s1 r) as [s2 e2].
  cbn [fst] in *. congruence.
Qed.

Lemma map_processThinking (s : State) (t : ThinkingValue) :
  _reasoningDetailsMap (fst (processThinking random s t))
  = _reasoningDetailsMap s.
Proof.
  unfold processThinking.
  destruct t as [x|[x|] md j|]; destruct (truthy _);
    cbn [fst _reasoningDetailsMap report]; rewrite ?map_ensureThinkingId;
    reflexivity.
Qed.

Lemma map_xmlLoop (fuel : nat) :
  forall s data e,
    _reasoningDetailsMap (fst (xmlLoop random fuel s data e))
    = _reasoningDetailsMap s.
Proof.
  induction fuel as [|fuel IH]; intros s data e; cbn [xmlLoop];
    [reflexivity|].
  destruct (String.length data =? 0); [reflexivity|].
  destruct (negb (_xmlThinkActive s)).
  - destruct (indexOf THINK_START data); [|reflexivity].
    unfold generateThinkingId. now rewrite IH.
  - destruct (indexOf THINK_END data).
    + destruct (truthy (take n data)); now rewrite IH.
    + destruct (truthy (trim data)); reflexivity.
Qed.

Lemma map_processContent (s : State) (c : string) :
  _reasoningDetailsMap (fst (processContent random s c))
  = _reasoningDetailsMap s.
Proof.
  unfold processContent, processXmlThinkBlocks.
  destruct (_ && _).
  - cbn. unfold processTextContent.
    destruct (_ && _); destruct (truthy c); reflexivity.
  - pose proof (map_xmlLoop (S (String.length c)) s c false) as H.
    destruct (xmlLoop random (S (String.length c)) s c false) as [sx ex].
    cbn [fst] in H. destruct ex; [assumption|].
    unfold processTextContent.
    destruct (_ && _); destruct (truthy c); cbn; assumption.
Qed.

Lemma map_processReasoning (s : State) (choice : Choice) :
  _reasoningDetailsMap (fst (processReasoning random s choice))
  = _reasoningDetailsMap s.
Proof.
  unfold processReasoning.
  destruct (orElse (field choice d_reasoning_details) _) as [[|d ds]|];
    try apply map_processDetails;
    destruct (orElse (c_thinking choice) _);
    try apply map_processThinking; reflexivity.
Qed.

Lemma map_emitToolCall (index : nat) (buf : ToolCallBuffer) (name : string)
  (v : json) (s : State) :
  _reasoningDetailsMap (emitToolCall stringify random index buf name v s)
  = _reasoningDetailsMap s.
Proof. unfold emitToolCall, idOrRandom. now destruct (buf_id buf). Qed.

Lemma map_tryEmit (s : State) (index : nat) :
  _reasoningDetailsMap
    (tryEmitBufferedToolCall tryParseJSONObject stringify random s index)
  = _reasoningDetailsMap s.
Proof.
  unfold tryEmitBufferedToolCall.
  destruct (get Nat.eqb index _) as [buf|]; [|reflexivity].
  destruct (buf_name buf) as [n|]; [|reflexivity].
  destruct (negb (truthy n)); [reflexivity|].
  destruct (tryParseJSONObject _); [apply map_emitToolCall | reflexivity].
Qed.

Lemma map_flushLoop (t : bool) (entries : list (nat * ToolCallBuffer)) :
  forall s,
    _reasoningDetailsMap
      (fst (flushLoop tryParseJSONObject stringify random t s entries))
    = _reasoningDetailsMap s.
Proof.
  induction entries as [|[idx buf] rest IH]; intros s; cbn [flushLoop];
    [reflexivity|].
  destruct (tryParseJSONObject _).
  - now rewrite IH, map_emitToolCall.
  - destruct t; [reflexivity | apply IH].
Qed.

Lemma length_set (k : string) (v : list ReasoningDetail)
  (m : list (string * list ReasoningDetail)) :
  List.length (set String.eqb k v m) <= S (List.length m).
Proof.
  induction m as [|[j w] r IH]; cbn [set List.length]; [lia|].
  destruct (String.eqb k j); cbn [List.length]; lia.
Qed.

Lemma Forall_set (k : string) (v : list ReasoningDetail)
  (m : list (string * list ReasoningDetail)) :
  truthy k = true ->
  Forall (fun e => truthy (fst e) = true) m ->
  Forall (fun e => truthy (fst e) = true) (set String.eqb k v m).
Proof.
  intros Hk. induction 1 as [|[j w] r Hj Hr IH]; cbn [set].
  - now repeat constructor.
  - destruct (String.eqb k j); constructor; cbn [fst] in *; assumption.
Qed.

Lemma Bounded_captureDetails (s : State) (buf : ToolCallBuffer) :
  BoundedMap (_reasoningDetailsMap s) -> BoundedMap (captureDetails s buf).
Proof.
  intros (Hlen & Hkeys). unfold captureDetails.
  destruct (buf_id buf) as [id|]; [|now split].
  destruct (truthy id) eqn:Hid; [|now split]. cbn [andb].
  destruct (0 <? _); [|now split].
  destruct (100 <? List.length (_reasoningDetailsMap s)) eqn:Hbig.
  - destruct (_reasoningDetailsMap s) as [|[k w] r] eqn:Hm.
    + split; [cbn; lia | now apply Forall_set].
    + inversion Hkeys as [|? ? Hk Hr]; subst. cbn [fst] in Hk. rewrite Hk.
      cbn [delete]. rewrite String.eqb_refl.
      split.
      * pose proof (length_set id (_currentResponseReasoningDetails s) r).
        cbn [List.length] in Hlen. lia.
      * now apply Forall_set.
  - apply Nat.ltb_ge in Hbig. split.
    + pose proof (length_set id (_currentResponseReasoningDetails s)
                    (_reasoningDetailsMap s)). lia.
    + now apply Forall_set.
Qed.

Lemma Bounded_processToolCall (s : State) (tc : ToolCallDelta) :
  BoundedMap (_reasoningDetailsMap s) ->
  BoundedMap (_reasoningDetailsMap
                (processToolCall tryParseJSONObject stringify random s tc)).
Proof.
  intro H. unfold processToolCall.
  destruct (has Nat.eqb _ _); [assumption|].
  rewrite map_tryEmit. unfold storeFragment.
  cbn [_reasoningDetailsMap set_tools set_reasoning].
  now apply Bounded_captureDetails.
Qed.

Lemma Bounded_processLine (s : State) (line : StreamLine) :
  BoundedMap (_reasoningDetailsMap s) ->
  BoundedMap (_reasoningDetailsMap
                (processLine tryParseJSONObject stringify random s line)).
Proof.
  intro H. destruct line as [|d]; cbn [processLine].
  - unfold flushToolCallBuffers. now rewrite map_flushLoop.
  - unfold processDelta.
    destruct (choices d) as [|choice rest]; [assumption|].
    pose proof (map_processReasoning s choice) as H2.
    destruct (processReasoning random s choice) as [s2 e2]. cbn [fst] in H2.
    assert (H3 : forall x : State * bool,
                 _reasoningDetailsMap (fst x) = _reasoningDetailsMap s2
                 -> BoundedMap (_reasoningDetailsMap (fst x)))
      by (intros x Hx; now rewrite Hx, H2).
    set (r3 := match field choice d_content with
               | Some content =>
                   if truthy content then processContent random s2 content
                   else (s2, false)
               | None => (s2, false)
               end).
    assert (B3 : BoundedMap (_reasoningDetailsMap (fst r3))).
    { apply H3. unfold r3. destruct (field choice d_content) as [c|];
        [|reflexivity]. destruct (truthy c); [apply map_processContent
                                             | reflexivity]. }
    destruct r3 as [s3 e3]. cbn [fst] in B3.
    set (s4 := match field choice d_tool_calls with
               | Some toolCalls =>
                   processToolCalls tryParseJSONObject stringify random
                     (beginToolCallsHint s3 toolCalls) toolCalls
               | None => s3
               end).
    assert (B4 : BoundedMap (_reasoningDetailsMap s4)).
    { unfold s4. destruct (field choice d_tool_calls) as [tcs|];
        [|assumption].
      unfold processToolCalls.
      assert (B0 : BoundedMap
                     (_reasoningDetailsMap (beginToolCallsHint s3 tcs))).
      { unfold beginToolCallsHint. now destruct (_ && _). }
      revert B0. generalize (beginToolCallsHint s3 tcs).
      induction tcs as [|tc tcs IH]; intros x Bx; cbn [fold_left];
        [assumption|].
      apply IH. now apply Bounded_processToolCall. }
    destruct (c_finish_reason choice) as [finish|]; [|assumption].
    destruct (_ || _); [|assumption].
    unfold flushToolCallBuffers.
    pose proof (map_flushLoop true (_toolCallBuffers s4) s4) as F.
    destruct (flushLoop tryParseJSONObject stringify random true s4
                (_toolCallBuffers s4)) as [s5 threw].
    cbn [fst] in *. now rewrite F.
Qed.

(** Property X8.  [src/provider.ts]: over any stream the map of reasoning
    details keeps at most 101 entries, none under the empty key. *)
Theorem reasoning_map_bounded
  (detailsMap : list (string * list ReasoningDetail))
  (lines : list StreamLine) :
  BoundedMap detailsMap ->
  BoundedMap (_reasoningDetailsMap
                (processLines tryParseJSONObject stringify random
                   (reset detailsMap) lines)).
Proof.
  intro H. unfold processLines.
  assert (G : forall s, BoundedMap (_reasoningDetailsMap s) ->
              BoundedMap (_reasoningDetailsMap
                            (fold_left
                               (processLine tryParseJSONObject stringify random)
                               lines s))).
  { induction lines as [|l ls IH]; intros s Hs; cbn [fold_left];
      [assumption|]. apply IH. now apply Bounded_processLine. }
  now apply G.
Qed.

Lemma option_Z_eqb_spec (a b : option Z) :
  option_Z_eqb a b = true <-> a = b.
Proof.
  destruct a as [x|], b as [y|]; cbn; split; intro H;
    try discriminate; try reflexivity.
  - apply Z.eqb_eq in H. now subst.
  - inversion H. apply Z.eqb_refl.
Qed.

Lemma option_Z_eqb_refl (a : option Z) : option_Z_eqb a a = true.
Proof. now apply option_Z_eqb_spec. Qed.

Lemma option_Z_eqb_sym (a b : option Z) :
  option_Z_eqb a b = option_Z_eqb b a.
Proof.
  destruct (option_Z_eqb a b) eqn:E1, (option_Z_eqb b a) eqn:E2;
    try reflexivity.
  - apply option_Z_eqb_spec in E1. subst.
    now rewrite option_Z_eqb_refl in E2.
  - apply option_Z_eqb_spec in E2. subst.
    now rewrite option_Z_eqb_refl in E1.
Qed.

Lemma details_processDetail (s : State) (d : ReasoningDetail) :
  _currentResponseReasoningDetails (fst (processDetail random s d))
  = mergeDetail d (_currentResponseReasoningDetails s).
Proof.
  unfold processDetail.
  destruct (truthy _); cbn [fst _currentResponseReasoningDetails report].
  - unfold ensureThinkingId.
    destruct (_ && _); destruct (truthyOpt _); reflexivity.
  - destruct (_ && _); reflexivity.
Qed.

Lemma details_processDetails (ds : list ReasoningDetail) :
  forall s,
    _currentResponseReasoningDetails (fst (processDetails random s ds))
    = fold_left (fun acc d => mergeDetail d acc) ds
        (_currentResponseReasoningDetails s).
Proof.
  induction ds as [|d r IH]; intros s; cbn [processDetails fold_left];
    [reflexivity|].
  pose proof (details_processDetail s d) as H.
  destruct (processDetail random s d) as [s1 e1]. cbn [fst] in H.
  specialize (IH s1). destruct (processDetails random s1 r) as [s2 e2].
  cbn [fst] in *. now rewrite IH, H.
Qed.

Lemma indices_mergeDetail (d : ReasoningDetail) (l : list ReasoningDetail) :
  map rd_index (mergeDetail d l)
  = if existsb (fun e => option_Z_eqb (rd_index e) (rd_index d)) l
    then map rd_index l
    else (map rd_index l ++ [rd_index d])%list.
Proof.
  induction l as [|e r IH]; cbn [mergeDetail existsb map app]; [reflexivity|].
  destruct (option_Z_eqb (rd_index e) (rd_index d)) eqn:E; cbn [orb map].
  - now destruct (_ && _).
  - rewrite IH. now destruct (existsb _ r).
Qed.

Lemma NoDup_mergeDetail (d : ReasoningDetail) (l : list ReasoningDetail) :
  NoDup (map rd_index l) -> NoDup (map rd_index (mergeDetail d l)).
Proof.
  intro H. rewrite indices_mergeDetail.
  destruct (existsb _ l) eqn:E; [assumption|].
  apply NoDup_app; [assumption | repeat constructor; intros [] |].
  intros i Hi [Heq|[]]. subst i.
  apply in_map_iff in Hi. destruct Hi as (e & He & Hin).
  assert (existsb (fun e => option_Z_eqb (rd_index e) (rd_index d)) l = true).
  { apply existsb_exists. exists e. split; [assumption|].
    now apply option_Z_eqb_spec. }
  congruence.
Qed.

(** The entry with the index of the merged detail. *)
Lemma detailAt_merge_same (d : ReasoningDetail) (l : list ReasoningDetail) :
  detailAt (rd_index d) (mergeDetail d l)
  = match detailAt (rd_index d) l with
    | None => Some d
    | Some e =>
        Some (if isText e && isText d
              then {| rd_type := rd_type e; rd_index := rd_index e;
                      rd_format := rd_format e;
                      rd_text := rd_text e ++ rd_text d;
                      rd_summary := rd_summary e;
                      rd_signature :=
                        if truthyOpt (rd_signature d) then rd_signature d
                        else rd_signature e;
                      rd_data := rd_data e; rd_json := rd_json e |}
              else e)
    end.
Proof.
  unfold detailAt, isText.
  induction l as [|e r IH]; cbn [mergeDetail find].
  - now rewrite option_Z_eqb_refl.
  - destruct (option_Z_eqb (rd_index e) (rd_index d)) eqn:E.
    + destruct (_ && _); cbn [find rd_index]; now rewrite E.
    + cbn [find]. now rewrite E.
Qed.

Lemma detailAt_merge_other (i : option Z) (d : ReasoningDetail)
  (l : list ReasoningDetail) :
  option_Z_eqb (rd_index d) i = false ->
  detailAt i (mergeDetail d l) = detailAt i l.
Proof.
  intro Hne. unfold detailAt.
  induction l as [|e r IH]; cbn [mergeDetail find].
  - now rewrite Hne.
  - destruct (option_Z_eqb (rd_index e) (rd_index d)) eqn:E.
    + assert (Hei : option_Z_eqb (rd_index e) i = false).
      { apply option_Z_eqb_spec in E. now rewrite E. }
      destruct (_ && _); cbn [find rd_index]; now rewrite Hei.
    + cbn [find]. destruct (option_Z_eqb (rd_index e) i); [reflexivity|].
      exact IH.
Qed.

(** What the entry of an index becomes when further details are merged. *)
Lemma detailAt_fold (i : option Z) (ds : list ReasoningDetail) :
  forall l e,
    detailAt i l = Some e ->
    exists e',
      detailAt i (fold_left (fun acc d => mergeDetail d acc) ds l) = Some e' /\
      rd_type e' = rd_type e /\ rd_index e' = rd_index e /\
      rd_text e' = rd_text e ++ (if isText e then textAt i ds else "").
Proof.
  induction ds as [|d r IH]; intros l e He; cbn [fold_left].
  - exists e. unfold textAt. cbn. destruct (isText e); now rewrite append_nil_r.
  - unfold textAt. cbn [filter].
    destruct (option_Z_eqb (rd_index d) i) eqn:E.
    + apply option_Z_eqb_spec in E. subst i.
      pose proof (detailAt_merge_same d l) as M. rewrite He in M.
      destruct (IH _ _ M) as (e' & H1 & H2 & H3 & H4).
      exists e'. split; [assumption|].
      destruct (isText e) eqn:Te; cbn [andb] in *.
      * destruct (isText d) eqn:Td; cbn [rd_type rd_index rd_text isText] in *.
        -- unfold isText in H4 at 1. cbn [rd_type] in H4.
           unfold isText in Te. rewrite Te in H4.
           cbn [map join]. rewrite H4, append_assoc. auto.
        -- rewrite Te in H4. auto.
      * rewrite Te in H4. auto.
    + cbn [andb].
      pose proof (detailAt_merge_other i d l E) as M. rewrite He in M.
      exact (IH _ _ M).
Qed.

(** Property X9.  [src/provider.ts]: the reasoning details stored for a
    response hold one entry per index; the entry of an index has the type
    of the first detail received with this index, and when that is a
    [reasoning.text] detail its text is the texts of all [reasoning.text]
    details of the index, joined in the order processed. *)
Theorem streamed_details_merged (s : State) (ds : list ReasoningDetail) :
  _currentResponseReasoningDetails s = [] ->
  let stored := _currentResponseReasoningDetails (fst (processDetails random s ds)) in
  NoDup (map rd_index stored) /\
  forall (i : option Z) (first : ReasoningDetail),
    detailAt i ds = Some first ->
    exists e,
      detailAt i stored = Some e /\ rd_type e = rd_type first /\
      (isText first = true -> rd_text e = textAt i ds).
Proof.
  intros Hfresh stored. unfold stored.
  rewrite details_processDetails, Hfresh. clear stored Hfresh. split.
  - assert (G : forall l, NoDup (map rd_index l) ->
              NoDup (map rd_index
                       (fold_left (fun acc d => mergeDetail d acc) ds l))).
    { induction ds as [|d r IH]; intros l Hl; cbn [fold_left];
        [assumption|]. apply IH. now apply NoDup_mergeDetail. }
    apply G. constructor.
  - intros i first Hfirst.
    assert (G : forall l,
              detailAt i l = None ->
              exists e,
                detailAt i (fold_left (fun acc d => mergeDetail d acc) ds l)
                = Some e /\ rd_type e = rd_type first /\
                (isText first = true -> rd_text e = textAt i ds)).
    { revert Hfirst. induction ds as [|d r IH]; intros Hfirst l Hl;
        [discriminate|].
      unfold detailAt in Hfirst. cbn [find] in Hfirst. cbn [fold_left].
      destruct (option_Z_eqb (rd_index d) i) eqn:E.
      - inversion Hfirst; subst first. clear Hfirst.
        apply option_Z_eqb_spec in E. subst i.
        pose proof (detailAt_merge_same d l) as M. rewrite Hl in M.
        destruct (detailAt_fold (rd_index d) r _ _ M) as (e & H1 & H2 & _ & H4).
        exists e. split; [assumption|]. split; [assumption|].
        intro Td. rewrite Td in H4. unfold textAt. cbn [filter].
        rewrite option_Z_eqb_refl, Td. cbn [andb map join]. exact H4.
      - destruct (IH Hfirst (mergeDetail d l)) as (e & H1 & H2 & H3).
        { now rewrite detailAt_merge_other. }
        exists e. split; [assumption|]. split; [assumption|].
        intro Td. rewrite (H3 Td). unfold textAt. cbn [filter].
        now rewrite E. }
    now apply G.
Qed.

End Facts.

(** After the first fragment a think tag is text like any other. *)
Lemma plain_content_verbatim_witness :
  parts (processLines Json.tryParseJSONObject Json.stringify (fun _ => "x")
           init (contentLines ["Hello"; ""; " <think>world"]))
  = [LanguageModelTextPart "Hello"; LanguageModelTextPart " <think>world"].
Proof.
  exact (plain_content_verbatim Json.tryParseJSONObject Json.stringify
           (fun _ => "x") ["Hello"; ""; " <think>world"] eq_refl).
Defined.

Lemma think_block_reported_witness :
  let s' :=
    fst (processContent (fun _ => "x") init
           (thinkBlock "Sure. " "plan" " Hi")) in
  reported s'
  = [(LanguageModelThinkingPart "plan" (Some "thinking_x") None, None)] /\
  _xmlThinkDetectionAttempted s' = true.
Proof.
  cbv zeta.
  destruct (think_block_reported (fun _ => "x") init "Sure. " "plan" " Hi"
              eq_refl eq_refl eq_refl eq_refl eq_refl eq_refl)
    as (H1 & _ & _ & H4).
  split; [exact H1 | exact H4].
Defined.

Lemma fragments_reported_once_witness :
  reported (processLines Json.tryParseJSONObject Json.stringify
              (fun _ => "x") init
              (argumentLines 0 (Some "call_1") "get_weather" (js "{")
                 [js "'a'"; js ":1}"]))
  = [(LanguageModelToolCallPart "call_1" "get_weather"
        (JObject [("a", JNumber "1")]), Some 0)].
Proof.
  refine (proj1 (proj2 (fragments_reported_once Json.tryParseJSONObject
                          Json.stringify (fun _ => "x") 0 (Some "call_1")
                          "get_weather" (js "{") [js "'a'"; js ":1}"]
                          (JObject [("a", JNumber "1")]) eq_refl _ _))).
  - intros [|[|[|n]]] Hn; try (exfalso; cbn in Hn; lia);
      vm_compute; reflexivity.
  - vm_compute; reflexivity.
Defined.

Lemma reasoning_map_bounded_witness :
  BoundedMap
    (_reasoningDetailsMap
       (processLines Json.tryParseJSONObject Json.stringify (fun _ => "x")
          (reset [])
          [Data (reasoningDelta [plainText "plan"]);
           Data (toolCallsDelta
                   [fragment 0 (Some "call_1") (Some "f") (Some "{}")]
                   None)])).
Proof.
  apply reasoning_map_bounded. split; [cbn; lia | constructor].
Defined.

Lemma streamed_details_merged_witness :
  let ds := [plainText "pl"; plainText "an"] in
  exists e,
    detailAt (rd_index (plainText "pl"))
      (_currentResponseReasoningDetails
         (fst (processDetails (fun _ => "x") init ds))) = Some e /\
    rd_text e = "plan".
Proof.
  cbv zeta.
  destruct (proj2 (streamed_details_merged (fun _ => "x") init
                     [plainText "pl"; plainText "an"] eq_refl)
              (rd_index (plainText "pl")) (plainText "pl") eq_refl)
    as (e & H1 & _ & H3).
  exists e. split; [exact H1 | exact (H3 eq_refl)].
Defined.

End ProviderStreamFacts.

(** ** The request side of the signature in the identifier *)

Module DecodeFacts.
Import JSString JSStringFacts Json Host OrderedMap OrderedMapFacts.
Import Provider ProviderFacts ProviderViews.

Lemma split_first (sep s : string) (n : nat) :
  0 < String.length sep -> indexOf sep s = Some n ->
  exists rest, split sep s = take n s :: rest /\ rest <> [].
Proof.
  intros Hsep H. unfold split.
  rewrite (split_go_found sep n Hsep s [] H).
  eexists. split; [reflexivity|].
  destruct (drop (n + String.length sep) s) as [|c r]; cbn [split_go].
  - discriminate.
  - destruct (startsWith sep (String c r)); [discriminate|].
    clear. generalize [c]. induction r as [|c' r IH]; intros acc; cbn [split_go].
    + discriminate.
    + destruct (startsWith sep (String c' r)); [discriminate | apply IH].
Qed.

Lemma includes_take_first (sep s : string) (n : nat) :
  0 < String.length sep -> indexOf sep s = Some n ->
  includes sep (take n s) = false.
Proof.
  intros Hsep H. unfold includes.
  now rewrite (indexOf_take_None sep s n Hsep H).
Qed.

(** What [decodeToolCall] does, by cases on the first occurrence of the
    separator. *)
Lemma decodeToolCall_cases (tc : OpenAIToolCall) :
  (decodeToolCall tc = (tc, otc_id tc)) \/
  (exists n signature,
     indexOf SIG_SEPARATOR (otc_id tc) = Some n /\
     truthy (take n (otc_id tc)) = true /\ truthy signature = true /\
     nth_error (split SIG_SEPARATOR (otc_id tc)) 1 = Some signature /\
     decodeToolCall tc
     = ({| otc_id := take n (otc_id tc);
           otc_thought_signature := Some signature |},
        take n (otc_id tc))).
Proof.
  unfold decodeToolCall, splitId, includes.
  destruct (indexOf SIG_SEPARATOR (otc_id tc)) as [n|] eqn:E; [|now left].
  destruct (split_first SIG_SEPARATOR (otc_id tc) n ltac:(cbn; lia) E)
    as (rest & Hs & Hne).
  rewrite Hs. cbn [nth_error].
  destruct rest as [|signature rest]; [congruence|]. cbn [nth_error].
  destruct (truthy (take n (otc_id tc))) eqn:T1; [|now left].
  destruct (truthy signature) eqn:T2; [|now left].
  right. exists n, signature. cbn [andb]. auto.
Qed.

(** Property X10.  Decoding a tool call of the history twice is decoding
    it once.  When decoding changes the identifier, the new identifier
    holds no separator and the old one is the new one followed by the
    separator and more text. *)
Theorem decodeToolCall_idempotent (tc : OpenAIToolCall) :
  let tc' := fst (decodeToolCall tc) in
  decodeToolCall tc' = (tc', snd (decodeToolCall tc)) /\
  (String.eqb (otc_id tc') (otc_id tc) = false ->
   includes SIG_SEPARATOR (otc_id tc') = false /\
   exists rest, otc_id tc = otc_id tc' ++ SIG_SEPARATOR ++ rest).
Proof.
  cbv zeta.
  destruct (decodeToolCall_cases tc) as [H|(n & sig & E & T1 & T2 & _ & H)];
    rewrite H; cbn [fst snd].
  - split; [assumption|]. rewrite String.eqb_refl. discriminate.
  - assert (Hinc : includes SIG_SEPARATOR (take n (otc_id tc)) = false)
      by (apply includes_take_first; [cbn; lia | assumption]).
    split.
    + unfold decodeToolCall. cbn [otc_id]. now rewrite Hinc.
    + intros _. cbn [otc_id]. split; [assumption|].
      exists (drop (n + String.length SIG_SEPARATOR) (otc_id tc)).
      destruct (indexOf_Some _ _ _ E) as (Hst & _ & _).
      apply startsWith_inv in Hst.
      rewrite <- (take_drop n (otc_id tc)) at 1. f_equal.
      rewrite Hst at 1. f_equal.
      clear. revert n. generalize (otc_id tc) as s.
      generalize (String.length SIG_SEPARATOR) as k.
      intros k s n. revert s. induction n; intros s; cbn.
      * reflexivity.
      * destruct s; cbn; [now destruct k | apply IHn].
Qed.

(** Property X11.  When decoding changes the identifier of a tool call,
    the tool message that answers under the encoded identifier gets the
    same decoded identifier: call and result still match. *)
Theorem tool_result_id_follows_call (tc : OpenAIToolCall)
  (detailsMap reconstructed : list (string * list ReasoningDetail)) :
  let tc' := fst (decodeToolCall tc) in
  String.eqb (otc_id tc') (otc_id tc) = false ->
  tool_call_id (decodeMessage detailsMap reconstructed (toolMessage (otc_id tc)))
  = Some (otc_id tc').
Proof.
  cbv zeta.
  destruct (decodeToolCall_cases tc) as [H|(n & sig & E & T1 & T2 & _ & H)];
    rewrite H; cbn [fst otc_id].
  - rewrite String.eqb_refl. discriminate.
  - intros _. unfold decodeMessage, toolMessage, splitId, includes.
    cbn [role tool_calls tool_call_id String.eqb Ascii.eqb Bool.eqb andb].
    cbn. rewrite E.
    destruct (split_first SIG_SEPARATOR (otc_id tc) n ltac:(cbn; lia) E)
      as (rest & Hs & _).
    unfold SIG_SEPARATOR in *. rewrite Hs. cbn [nth_error fst].
    now rewrite T1.
Qed.

Lemma tool_result_id_follows_call_witness :
  tool_call_id (decodeMessage [] [] (toolMessage "call_1::gemini_sig::c2ln"))
  = Some "call_1".
Proof.
  exact (tool_result_id_follows_call
           {| otc_id := "call_1::gemini_sig::c2ln";
              otc_thought_signature := None |} [] [] eq_refl).
Defined.

Lemma decodeToolCall_idempotent_witness :
  let tc := {| otc_id := "call_1::gemini_sig::c2ln";
               otc_thought_signature := None |} in
  decodeToolCall tc
  = ({| otc_id := "call_1"; otc_thought_signature := Some "c2ln" |},
     "call_1") /\
  includes SIG_SEPARATOR (otc_id (fst (decodeToolCall tc))) = false.
Proof.
  cbv zeta. split; [reflexivity|].
  exact (proj1 (proj2 (decodeToolCall_idempotent
                         {| otc_id := "call_1::gemini_sig::c2ln";
                            otc_thought_signature := None |}) eq_refl)).
Defined.

End DecodeFacts.

(** ** The reasoning details of the history *)

Module HistoryFacts.
Import JSString JSStringFacts Json Host OrderedMap OrderedMapFacts History.

Section Facts.
Variable random : nat -> string.

Lemma thinkingParts_app (a b : list MessagePart) :
  thinkingParts (a ++ b) = (thinkingParts a ++ thinkingParts b)%list.
Proof.
  induction a as [|[v i m|c n j|] a IH]; cbn [app thinkingParts];
    [reflexivity | now rewrite IH | assumption | assumption].
Qed.

Lemma toolCallIds_app (a b : list MessagePart) :
  toolCallIds (a ++ b) = (toolCallIds a ++ toolCallIds b)%list.
Proof.
  induction a as [|[v i m|c n j|] a IH]; cbn [app toolCallIds];
    [reflexivity | assumption | now rewrite IH | assumption].
Qed.

(** The keys of the result are identifiers of tool calls of assistant
    messages that also hold a thinking part. *)
Lemma reconstructMessage_keys (m : ChatMessage)
  (map : list (string * list HistoryDetail)) (k : string) :
  In k (List.map fst (reconstructMessage map m)) ->
  In k (List.map fst map) \/
  (msg_role m = Assistant /\ truthy k = true /\
   In k (toolCallIds (msg_content m)) /\
   thinkingParts (msg_content m) <> []).
Proof.
  unfold reconstructMessage.
  destruct (msg_role m); try (now left).
  destruct (List.length (toolCallIds (msg_content m)) =? 0); [now left|].
  destruct (List.length (thinkingParts (msg_content m)) =? 0) eqn:Et;
    [now left|]. cbn [orb].
  destruct (0 <? _); [|now left].
  assert (Hth : thinkingParts (msg_content m) <> []).
  { intro H. rewrite H in Et. discriminate. }
  generalize (flat_map (detailOf (toolCallIds (msg_content m)))
                (thinkingParts (msg_content m))) as details.
  intros details.
  assert (G : forall ids acc,
             In k (List.map fst
                     (fold_left
                        (fun acc callId =>
                           if truthy callId
                           then set String.eqb callId details acc else acc)
                        ids acc)) ->
             In k (List.map fst acc) \/ (truthy k = true /\ In k ids)).
  { induction ids as [|c ids IH]; intros acc H; cbn [fold_left] in H.
    - now left.
    - destruct (IH _ H) as [H1|(H1 & H2)].
      + destruct (truthy c) eqn:Tc.
        * apply (keys_set String.eqb string_eqb_spec) in H1.
          destruct H1 as [->|H1]; [right; split; [assumption | now left]
                                  | now left].
        * now left.
      + right. split; [assumption | now right]. }
  intro H. destruct (G _ _ H) as [H1|(H1 & H2)]; [now left | right; auto].
Qed.

(** Property X12.  Every key of the map made by
    [reconstructReasoningDetails] is the identifier, not empty, of a tool
    call in an assistant message that also holds a thinking part. *)
Theorem reconstructed_keys (messages : list ChatMessage) (k : string) :
  In k (List.map fst (reconstructReasoningDetails messages)) ->
  exists m,
    In m messages /\ msg_role m = Assistant /\ truthy k = true /\
    In k (toolCallIds (msg_content m)) /\
    thinkingParts (msg_content m) <> [].
Proof.
  unfold reconstructReasoningDetails.
  assert (G : forall ms acc,
             In k (List.map fst (fold_left reconstructMessage ms acc)) ->
             In k (List.map fst acc) \/
             exists m, In m ms /\ msg_role m = Assistant /\ truthy k = true /\
                       In k (toolCallIds (msg_content m)) /\
                       thinkingParts (msg_content m) <> []).
  { induction ms as [|m ms IH]; intros acc H; cbn [fold_left] in H.
    - now left.
    - destruct (IH _ H) as [H1|(m' & Hin & H')].
      + destruct (reconstructMessage_keys m acc k H1) as [H2|H2];
          [now left | right].
        exists m. split; [now left | assumption].
      + right. exists m'. split; [now right | assumption]. }
  intro H. destruct (G _ _ H) as [[]|H']. exact H'.
Qed.

(** The message that hands back what was reported for one entry of the
    details, followed by a tool call. *)
Lemma reconstruct_single (value : string) (id : option string) (md : Metadata)
  (callId name : string) (input : json) :
  truthy callId = true ->
  reconstructReasoningDetails
    [{| msg_role := Assistant;
        msg_content := [ThinkingPart (ValueString value) id (Some md);
                        ToolCallPart callId name input] |}]
  = match detailOf [callId] (ValueString value, id, Some md) with
    | [] => []
    | details => [(callId, details)]
    end.
Proof.
  intro Hc. unfold reconstructReasoningDetails, reconstructMessage.
  cbn [fold_left msg_role msg_content thinkingParts toolCallIds List.length
       Nat.eqb orb flat_map].
  rewrite app_nil_r.
  destruct (detailOf [callId] (ValueString value, id, Some md)) as [|h t].
  - reflexivity.
  - cbn [List.length Nat.ltb Nat.leb fold_left]. rewrite Hc. reflexivity.
Qed.

(** Property X13.  What [processDelta] of [src/provider.ts] reports for a
    signed [reasoning.text] entry with text, for a [reasoning.summary]
    entry with a summary, or for a [reasoning.encrypted] entry with data,
    handed back in an assistant message together with a tool call, is
    reconstructed under the identifier of the call as one entry with the
    type, the text, summary or data, the signature, the format and the
    index of the entry streamed. *)
Theorem reported_detail_reconstructed (p : Provider.State)
  (d : ReasoningDetail) (callId name : string) (input : json) :
  Provider.reported p = [] -> truthy callId = true ->
  let p' := fst (Provider.processDetail random p d) in
  let message :=
    {| msg_role := Assistant;
       msg_content :=
         (map asMessagePart (Provider.parts p')
          ++ [ToolCallPart callId name input])%list |} in
  let entry text summary data signature :=
    {| hd_type := rd_type d; hd_text := text; hd_summary := summary;
       hd_data := data; hd_signature := signature;
       hd_format := rd_format d; hd_index := rd_index d;
       hd_id := Provider._currentThinkingId p' |} in
  (rd_type d = "reasoning.text" -> truthy (rd_text d) = true ->
   truthyOpt (rd_signature d) = true ->
   reconstructReasoningDetails [message]
   = [(callId, [entry (Some (rd_text d)) None None (rd_signature d)])]) /\
  (rd_type d = "reasoning.summary" -> truthy (rd_summary d) = true ->
   reconstructReasoningDetails [message]
   = [(callId, [entry None (Some (rd_summary d)) None None])]) /\
  (rd_type d = "reasoning.encrypted" -> truthyOpt (rd_data d) = true ->
   reconstructReasoningDetails [message]
   = [(callId, [entry None None (rd_data d) None])]).
Proof.
  intros Hfresh Hc p' message entry.
  pose proof (CoalescerFacts.Provider_processDetail_reported random p d) as R.
  cbv zeta in R. fold p' in R. rewrite Hfresh in R. cbn [app] in R.
  unfold message, entry, Provider.parts.
  clearbody p'.
  split; [|split].
  - intros Ht Htext Hsig. rewrite Ht in R |- *. cbn in R.
    rewrite Htext, Hsig in R. rewrite R. cbn [map fst asMessagePart app].
    rewrite (reconstruct_single _ _ _ _ _ _ Hc).
    unfold detailOf. cbn [md_type md_signature md_format md_index md_data].
    cbn. rewrite Hsig. reflexivity.
  - intros Ht Hsum. rewrite Ht in R |- *. cbn in R.
    rewrite Hsum in R. rewrite R. cbn [map fst asMessagePart app].
    rewrite (reconstruct_single _ _ _ _ _ _ Hc).
    unfold detailOf. cbn. reflexivity.
  - intros Ht Hdata. rewrite Ht in R |- *. cbn in R.
    rewrite Hdata in R. rewrite R. cbn [map fst asMessagePart app].
    rewrite (reconstruct_single _ _ _ _ _ _ Hc).
    unfold detailOf. cbn. rewrite Hdata. reflexivity.
Qed.

(** The second piece of an identifier made by the encoder. *)
Lemma signatureFromIds_encoded (old : option string) (id sig : string)
  (rest : list string) :
  truthy sig = true ->
  indexOf SIG_SEPARATOR (id ++ SIG_SEPARATOR) = Some (String.length id) ->
  indexOf SIG_SEPARATOR sig = None ->
  signatureFromIds old ((id ++ SIG_SEPARATOR ++ sig) :: rest) = Some sig.
Proof.
  intros Hsig Hfirst Hclean. cbn [signatureFromIds].
  assert (Hinc : includes SIG_SEPARATOR (id ++ SIG_SEPARATOR ++ sig) = true).
  { unfold includes. rewrite <- append_assoc.
    now rewrite (indexOf_app_found _ _ sig _ Hfirst). }
  assert (Ht : truthy (id ++ SIG_SEPARATOR ++ sig) = true)
    by (destruct id; reflexivity).
  rewrite Hinc, Ht. cbn [andb].
  rewrite split_joined; [| cbn; lia | assumption | assumption].
  cbn [nth_error truthyOpt]. now rewrite Hsig.
Qed.

(** Property X14.  A thinking part of type [reasoning.text] whose metadata
    holds no signature is reconstructed with the signature that the
    encoder put into the identifier of the tool call beside it. *)
Theorem signature_recovered_from_call_id (value : PartValue)
  (partId : option string) (md : Metadata) (id sig name : string)
  (input : json) :
  md_type md = Some "reasoning.text" ->
  truthyOpt (md_signature md) = false ->
  truthy sig = true ->
  indexOf SIG_SEPARATOR (id ++ SIG_SEPARATOR) = Some (String.length id) ->
  indexOf SIG_SEPARATOR sig = None ->
  let callId := Provider.finalId id (Some sig) in
  reconstructReasoningDetails
    [{| msg_role := Assistant;
        msg_content := [ThinkingPart value partId (Some md);
                        ToolCallPart callId name input] |}]
  = [(callId,
      [{| hd_type := "reasoning.text"; hd_text := Some (valueText value);
          hd_summary := None; hd_data := None; hd_signature := Some sig;
          hd_format := md_format md; hd_index := md_index md;
          hd_id := partId |}])].
Proof.
  intros Ht Hnosig Hsig Hfirst Hclean callId.
  assert (Hid : callId = id ++ SIG_SEPARATOR ++ sig).
  { unfold callId, Provider.finalId. now rewrite Hsig. }
  assert (Hc : truthy callId = true) by (rewrite Hid; destruct id; reflexivity).
  unfold reconstructReasoningDetails, reconstructMessage.
  cbn [fold_left msg_role msg_content thinkingParts toolCallIds List.length
       Nat.eqb orb flat_map].
  rewrite app_nil_r. unfold detailOf. rewrite Ht, Hnosig.
  cbn [truthy negb String.eqb Ascii.eqb Bool.eqb andb].
  cbn [List.length Nat.ltb Nat.leb fold_left]. rewrite Hc.
  rewrite Hid, (signatureFromIds_encoded _ id sig [] Hsig Hfirst Hclean).
  reflexivity.
Qed.

End Facts.

Lemma reported_detail_reconstructed_witness :
  reconstructReasoningDetails
    [{| msg_role := Assistant;
        msg_content :=
          [ThinkingPart (ValueString "plan") (Some "thinking_x")
             (Some {| md_format := None; md_type := Some "reasoning.text";
                      md_index := None; md_signature := Some "sig";
                      md_data := None |});
           ToolCallPart "call_1" "f" (JObject [])] |}]
  = [("call_1",
      [{| hd_type := "reasoning.text"; hd_text := Some "plan";
          hd_summary := None; hd_data := None; hd_signature := Some "sig";
          hd_format := None; hd_index := None;
          hd_id := Some "thinking_x" |}])].
Proof.
  exact (proj1 (reported_detail_reconstructed (fun _ => "x") Provider.init
                  (signedText "plan" "sig") "call_1" "f" (JObject [])
                  eq_refl eq_refl) eq_refl eq_refl eq_refl).
Defined.

Lemma signature_recovered_from_call_id_witness :
  reconstructReasoningDetails
    [{| msg_role := Assistant;
        msg_content :=
          [ThinkingPart (ValueArray ["pl"; "an"]) None
             (Some {| md_format := None; md_type := Some "reasoning.text";
                      md_index := None; md_signature := None;
                      md_data := None |});
           ToolCallPart "call_1::gemini_sig::c2ln" "f" (JObject [])] |}]
  = [("call_1::gemini_sig::c2ln",
      [{| hd_type := "reasoning.text"; hd_text := Some "plan";
          hd_summary := None; hd_data := None; hd_signature := Some "c2ln";
          hd_format := None; hd_index := None; hd_id := None |}])].
Proof.
  exact (signature_recovered_from_call_id (ValueArray ["pl"; "an"]) None
           {| md_format := None; md_type := Some "reasoning.text";
              md_index := None; md_signature := None; md_data := None |}
           "call_1" "c2ln" "f" (JObject [])
           eq_refl eq_refl eq_refl eq_refl eq_refl).
Defined.

Lemma reconstructed_keys_witness :
  exists m,
    In m [{| msg_role := Assistant;
             msg_content :=
               [ThinkingPart (ValueString "plan") None
                  (Some {| md_format := None;
                           md_type := Some "reasoning.text";
                           md_index := None; md_signature := None;
                           md_data := None |});
                ToolCallPart "call_1" "f" (JObject [])] |}] /\
    msg_role m = Assistant /\ truthy "call_1" = true /\
    In "call_1" (toolCallIds (msg_content m)) /\
    thinkingParts (msg_content m) <> [].
Proof.
  apply reconstructed_keys. vm_compute. now left.
Defined.

End HistoryFacts.

(** ** The key, the endpoint and the model of a request *)

Module RequestFacts.
Import JSString JSStringFacts Host OrderedMap OrderedMapFacts Request.

Section ApiKeyFacts.
Variable toLowerCase : string -> string.

Lemma get_set_other (k j v : string) (m : Secrets) :
  k <> j -> get String.eqb k (set String.eqb j v m) = get String.eqb k m.
Proof.
  intro Hne. induction m as [|[i w] r IH]; cbn [set get].
  - now rewrite (proj2 (String.eqb_neq k j) Hne).
  - destruct (String.eqb j i) eqn:E; cbn [get].
    + apply String.eqb_eq in E. subst i.
      now rewrite (proj2 (String.eqb_neq k j) Hne).
    + destruct (String.eqb k i); [reflexivity | exact IH].
Qed.

Lemma get_set_key (k v : string) (m : Secrets) :
  get String.eqb k (set String.eqb k v m) = Some v.
Proof. apply (get_set_same String.eqb string_eqb_spec). Qed.

(** The call when no provider is given: the generic key. *)
Lemma ensureApiKey_generic (entered : option string) (store : Secrets)
  (useGenericKey : bool) (provider : option string) :
  providerKeyOf toLowerCase provider = None ->
  ensureApiKey toLowerCase entered store useGenericKey provider
  = let stored := get String.eqb "oaicopilot.apiKey" store in
    if negb (truthyOpt stored) && useGenericKey
    then acceptEntered entered "oaicopilot.apiKey" "API Key" stored store
    else {| apiKey := stored; secrets := store; prompted := None |}.
Proof.
  unfold providerKeyOf, ensureApiKey. intro H.
  destruct provider as [p|].
  - destruct (truthy p && negb (String.eqb (trim p) "")); [discriminate|].
    reflexivity.
  - reflexivity.
Qed.

(** The call for a provider whose key is stored. *)
Lemma ensureApiKey_stored (entered : option string) (store : Secrets)
  (useGenericKey : bool) (provider : option string) (key : string) :
  providerKeyOf toLowerCase provider = Some key ->
  truthyOpt (get String.eqb key store) = true ->
  ensureApiKey toLowerCase entered store useGenericKey provider
  = {| apiKey := get String.eqb key store; secrets := store;
       prompted := None |}.
Proof.
  unfold providerKeyOf, ensureApiKey. intros H Hk.
  destruct provider as [p|]; [|discriminate].
  destruct (truthy p && negb (String.eqb (trim p) "")); [|discriminate].
  assert (E : key = "oaicopilot.apiKey." ++ toLowerCase p) by congruence.
  subst key. clear H. cbv zeta. rewrite Hk.
  cbn [negb andb apiKey secrets prompted]. rewrite Hk.
  cbn [negb andb apiKey secrets prompted]. rewrite Hk. reflexivity.
Qed.

(** The call for a provider whose key is not stored. *)
Lemma ensureApiKey_missing (entered : option string) (store : Secrets)
  (useGenericKey : bool) (provider : option string) (key : string) :
  providerKeyOf toLowerCase provider = Some key ->
  truthyOpt (get String.eqb key store) = false ->
  ensureApiKey toLowerCase entered store useGenericKey provider
  = if useGenericKey then
      let stored := get String.eqb "oaicopilot.apiKey" store in
      if negb (truthyOpt stored)
      then acceptEntered entered "oaicopilot.apiKey" "API Key" stored store
      else {| apiKey := stored; secrets := store; prompted := None |}
    else
      let first :=
        acceptEntered entered key
          ("API Key for " ++ match provider with
                             | Some p => toLowerCase p
                             | None => ""
                             end)
          (get String.eqb key store) store in
      if truthyOpt (apiKey first) then first
      else {| apiKey := get String.eqb "oaicopilot.apiKey" (secrets first);
              secrets := secrets first; prompted := prompted first |}.
Proof.
  unfold providerKeyOf, ensureApiKey. intros H Hk.
  destruct provider as [p|]; [|discriminate].
  destruct (truthy p && negb (String.eqb (trim p) "")); [|discriminate].
  assert (E : key = "oaicopilot.apiKey." ++ toLowerCase p) by congruence.
  subst key. clear H. cbv zeta. rewrite Hk.
  destruct useGenericKey; cbn [negb andb apiKey secrets prompted].
  - rewrite Hk. cbn [negb andb apiKey secrets prompted].
    rewrite andb_true_r. reflexivity.
  - set (first := acceptEntered entered _ _ _ _).
    destruct (truthyOpt (apiKey first));
      cbn [negb andb apiKey secrets prompted]; rewrite ?andb_false_r;
      reflexivity.
Qed.

Lemma acceptEntered_some (e key title : string) (old : option string)
  (store : Secrets) :
  truthy (trim e) = true ->
  acceptEntered (Some e) key title old store
  = {| apiKey := Some (trim e); secrets := set String.eqb key (trim e) store;
       prompted := Some title |}.
Proof.
  intro Htrim. unfold acceptEntered.
  assert (He : truthy e = true) by (destruct e; [discriminate | reflexivity]).
  now rewrite He, Htrim.
Qed.

Lemma providerKey_other (provider : option string) (key : string) :
  providerKeyOf toLowerCase provider = Some key -> "oaicopilot.apiKey" <> key.
Proof.
  unfold providerKeyOf. destruct provider as [p|]; [|discriminate].
  destruct (_ && _); [|discriminate]. intros H E.
  assert (E' : key = "oaicopilot.apiKey." ++ toLowerCase p) by congruence.
  rewrite E' in E.
  apply (f_equal String.length) in E. rewrite length_append in E.
  cbn in E. lia.
Qed.

(** Property X15.  A key typed into the input box is returned trimmed and
    stored, and the next call for the same model returns it without
    asking. *)
Theorem entered_key_is_kept (store : Secrets) (useGenericKey : bool)
  (provider : option string) (e : string) (again : option string) :
  let first := ensureApiKey toLowerCase (Some e) store useGenericKey provider in
  (exists title, prompted first = Some title) ->
  truthy (trim e) = true ->
  apiKey first = Some (trim e) /\
  ensureApiKey toLowerCase again (secrets first) useGenericKey provider
  = {| apiKey := Some (trim e); secrets := secrets first; prompted := None |}.
Proof.
  cbv zeta. intros (title & Hp) Htrim.
  destruct (providerKeyOf toLowerCase provider) as [key|] eqn:Hkey.
  - destruct (truthyOpt (get String.eqb key store)) eqn:Hk.
    { rewrite (ensureApiKey_stored _ _ _ _ _ Hkey Hk) in Hp. discriminate. }
    rewrite (ensureApiKey_missing _ _ _ _ _ Hkey Hk) in *.
    pose proof (providerKey_other _ _ Hkey) as Hne.
    destruct useGenericKey; cbv zeta in *.
    + destruct (truthyOpt (get String.eqb "oaicopilot.apiKey" store)) eqn:Hg;
        simpl negb in *; cbv iota in *; [discriminate|].
      rewrite acceptEntered_some in * by assumption. simpl.
      split; [reflexivity|].
      rewrite ensureApiKey_missing with (key := key);
        [| assumption | now rewrite get_set_other by congruence].
      rewrite get_set_key. simpl. now rewrite Htrim.
    + rewrite acceptEntered_some in * by assumption. simpl in *.
      rewrite Htrim in *. simpl. split; [reflexivity|].
      rewrite ensureApiKey_stored with (key := key);
        [| assumption | rewrite get_set_key; simpl; assumption].
      now rewrite get_set_key.
  - rewrite (ensureApiKey_generic _ _ _ _ Hkey) in *. cbv zeta in *.
    destruct (truthyOpt (get String.eqb "oaicopilot.apiKey" store)) eqn:Hg;
      simpl negb in *; simpl andb in *; cbv iota in *; [discriminate|].
    destruct useGenericKey; [|discriminate].
    rewrite acceptEntered_some in * by assumption. simpl.
    split; [reflexivity|].
    rewrite (ensureApiKey_generic _ _ _ _ Hkey). cbv zeta.
    rewrite get_set_key. simpl. now rewrite Htrim.
Qed.

End ApiKeyFacts.

Section StoreFacts.
Variable toLowerCase : string -> string.

(** What the input box leaves: the entry stored under the key, or
    nothing changed. *)
Lemma acceptEntered_cases (entered : option string) (key title : string)
  (old : option string) (store : Secrets) :
  (exists e,
     entered = Some e /\ truthy (trim e) = true /\
     acceptEntered entered key title old store
     = {| apiKey := Some (trim e);
          secrets := set String.eqb key (trim e) store;
          prompted := Some title |}) \/
  acceptEntered entered key title old store
  = {| apiKey := old; secrets := store; prompted := Some title |}.
Proof.
  unfold acceptEntered. destruct entered as [e|]; [|now right].
  destruct (truthy e); [|now right].
  destruct (truthy (trim e)) eqn:E; [|now right].
  left. exists e. auto.
Qed.

(** Property X16.  [ensureApiKey] changes the secrets only by storing,
    trimmed, an entry typed into the input box that is not blank, under
    the key of the provider or the generic key, and then returns this
    entry.  Otherwise the secrets are unchanged, and a usable key that is
    returned is the one stored under one of these two keys. *)
Theorem store_changes_only_by_entry (entered : option string)
  (store : Secrets) (useGenericKey : bool) (provider : option string) :
  let r := ensureApiKey toLowerCase entered store useGenericKey provider in
  (secrets r = store /\
   (truthyOpt (apiKey r) = true ->
    exists key,
      (key = "oaicopilot.apiKey" \/ providerKeyOf toLowerCase provider = Some key)
      /\ apiKey r = get String.eqb key store)) \/
  (exists e key title,
     entered = Some e /\ truthy (trim e) = true /\
     (key = "oaicopilot.apiKey" \/ providerKeyOf toLowerCase provider = Some key)
     /\ prompted r = Some title /\ apiKey r = Some (trim e) /\
     secrets r = set String.eqb key (trim e) store).
Proof.
  cbv zeta.
  assert (Generic : forall title,
    let r := acceptEntered entered "oaicopilot.apiKey" title
               (get String.eqb "oaicopilot.apiKey" store) store in
    (secrets r = store /\
     (truthyOpt (apiKey r) = true ->
      exists key,
        (key = "oaicopilot.apiKey"
         \/ providerKeyOf toLowerCase provider = Some key)
        /\ apiKey r = get String.eqb key store)) \/
    (exists e key title,
       entered = Some e /\ truthy (trim e) = true /\
       (key = "oaicopilot.apiKey"
        \/ providerKeyOf toLowerCase provider = Some key)
       /\ prompted r = Some title /\ apiKey r = Some (trim e) /\
       secrets r = set String.eqb key (trim e) store)).
  { intros title. cbv zeta.
    destruct (acceptEntered_cases entered "oaicopilot.apiKey" title
                (get String.eqb "oaicopilot.apiKey" store) store)
      as [(e & He & Ht & E)|E]; rewrite E.
    - right. exists e, "oaicopilot.apiKey", title. cbn. auto 10.
    - left. cbn. split; [reflexivity|]. intros _.
      exists "oaicopilot.apiKey". auto. }
  assert (Stored : forall key,
    key = "oaicopilot.apiKey" \/ providerKeyOf toLowerCase provider = Some key ->
    let r := {| apiKey := get String.eqb key store; secrets := store;
                prompted := None |} in
    secrets r = store /\
    (truthyOpt (apiKey r) = true ->
     exists key,
       (key = "oaicopilot.apiKey"
        \/ providerKeyOf toLowerCase provider = Some key)
       /\ apiKey r = get String.eqb key store)).
  { intros key Hkey. cbn. split; [reflexivity|]. intros _. exists key. auto. }
  destruct (providerKeyOf toLowerCase provider) as [key|] eqn:Hkey.
  - destruct (truthyOpt (get String.eqb key store)) eqn:Hk.
    + rewrite (ensureApiKey_stored _ _ _ _ _ _ Hkey Hk). left.
      apply Stored. now right.
    + rewrite (ensureApiKey_missing _ _ _ _ _ _ Hkey Hk).
      destruct useGenericKey; cbv zeta.
      * destruct (negb _); [apply Generic | left; apply Stored; now left].
      * match goal with
        | |- context [acceptEntered entered key ?t ?o store] =>
            destruct (acceptEntered_cases entered key t o store)
              as [(e & He & Ht & E)|E]; rewrite E
        end.
        -- right. cbn [apiKey secrets prompted truthyOpt]. rewrite Ht.
           exists e, key. eexists. cbn [apiKey secrets prompted]. auto 10.
        -- cbn [apiKey secrets prompted]. rewrite Hk. left. cbn.
           split; [reflexivity|]. intros _. exists "oaicopilot.apiKey". auto.
  - rewrite (ensureApiKey_generic _ _ _ _ _ Hkey). cbv zeta.
    destruct (_ && _); [apply Generic | left; apply Stored; now left].
Qed.

End StoreFacts.

Lemma strip_spec (s : string) :
  endsWithSlash (stripTrailingSlashes s) = false /\
  exists k, s = stripTrailingSlashes s ++ repeatChar "/" k.
Proof.
  induction s as [|c r (IH1 & k & IH2)]; cbn [stripTrailingSlashes].
  - split; [reflexivity | now exists 0].
  - destruct (stripTrailingSlashes r) as [|c' r'] eqn:E.
    + destruct (Ascii.eqb c "/") eqn:Ec.
      * split; [reflexivity|]. exists (S k). apply Ascii.eqb_eq in Ec.
        subst c. cbn [repeatChar append]. rewrite IH2 at 1. reflexivity.
      * split; [cbn; exact Ec|]. exists k. cbn [append]. now rewrite IH2 at 1.
    + split.
      * cbn [endsWithSlash]. exact IH1.
      * exists k. cbn [append]. now rewrite IH2 at 1.
Qed.

(** Property X17.  The request is refused exactly when the base address
    does not begin with [http]; otherwise it goes to the base address
    without the slashes at its end, followed by [/chat/completions]. *)
Theorem endpoint_without_double_slash (baseUrl : string) :
  (endpoint baseUrl = None <-> startsWith "http" baseUrl = false) /\
  forall url,
    endpoint baseUrl = Some url ->
    exists stem k,
      baseUrl = stem ++ repeatChar "/" k /\
      endsWithSlash stem = false /\
      url = stem ++ "/chat/completions".
Proof.
  unfold endpoint. split.
  - destruct baseUrl as [|c r]; [now split|].
    cbn [truthy negb orb].
    destruct (startsWith "http" (String c r)); cbn [negb]; split;
      intro; try discriminate; reflexivity.
  - intros url H.
    destruct (negb (truthy baseUrl) || negb (startsWith "http" baseUrl));
      [discriminate|].
    inversion H; subst url. clear H.
    destruct (strip_spec baseUrl) as (H1 & k & H2).
    exists (stripTrailingSlashes baseUrl), k. auto.
Qed.

Lemma find_none_iff {A : Type} (f : A -> bool) (l : list A) :
  find f l = None <-> forall x, In x l -> f x = false.
Proof.
  induction l as [|a l IH]; cbn [find].
  - split; [intros _ x [] | reflexivity].
  - destruct (f a) eqn:E.
    + split; [discriminate|]. intro H. specialize (H a (or_introl eq_refl)).
      congruence.
    + rewrite IH. split.
      * intros H x [<-|Hx]; [assumption | now apply H].
      * intros H x Hx. apply H. now right.
Qed.

(** Property X18.  The model found is an entry of the settings with the
    base identifier of the request; none is found exactly when no entry
    has this identifier; and when the request names a configuration that
    an entry with this identifier has, the entry found has this
    configuration. *)
Theorem model_lookup (userModels : list ModelItem) (parsed : ParsedModelId) :
  (forall um, findModel userModels parsed = Some um ->
     In um userModels /\ item_id um = baseId parsed) /\
  (findModel userModels parsed = None <->
   forall um, In um userModels -> item_id um <> baseId parsed) /\
  (forall exact,
     In exact userModels -> item_id exact = baseId parsed ->
     truthyOpt (configId parsed) = true ->
     item_configId exact = configId parsed ->
     exists um, findModel userModels parsed = Some um /\
                item_configId um = configId parsed).
Proof.
  unfold findModel.
  set (f := fun um => String.eqb (item_id um) (baseId parsed) && _).
  set (g := fun um => String.eqb (item_id um) (baseId parsed)).
  split; [|split].
  - intros um H. destruct (find f userModels) as [x|] eqn:E.
    + inversion H; subst x. apply find_some in E. destruct E as [Hin Hf].
      split; [assumption|]. unfold f in Hf. apply andb_prop in Hf.
      now apply String.eqb_eq.
    + apply find_some in H. destruct H as [Hin Hg].
      split; [assumption | now apply String.eqb_eq].
  - split.
    + intros H um Hin. destruct (find f userModels); [discriminate|].
      pose proof (proj1 (find_none_iff g userModels) H um Hin) as Hg.
      unfold g in Hg. now apply String.eqb_neq.
    + intro H.
      assert (Hg : find g userModels = None).
      { apply find_none_iff. intros x Hx. apply String.eqb_neq. now apply H. }
      destruct (find f userModels) as [x|] eqn:E; [|assumption].
      apply find_some in E. destruct E as [Hin Hf]. unfold f in Hf.
      apply andb_prop in Hf. destruct Hf as [Hid _].
      apply String.eqb_eq in Hid. now destruct (H x Hin).
  - intros exact Hin Hid Hcfg Hsame.
    destruct (find f userModels) as [x|] eqn:E.
    + exists x. split; [reflexivity|].
      apply find_some in E. destruct E as [_ Hf]. unfold f in Hf.
      rewrite Hcfg in Hf. cbn [negb andb orb] in Hf.
      rewrite orb_false_r in Hf. apply andb_prop in Hf. destruct Hf as [_ Hs].
      unfold sameConfig in Hs.
      destruct (item_configId x) as [a|], (configId parsed) as [b|];
        try discriminate.
      apply String.eqb_eq in Hs. now subst.
    + pose proof (proj1 (find_none_iff f userModels) E exact Hin) as Hf.
      unfold f in Hf. rewrite Hid, String.eqb_refl, Hcfg, Hsame in Hf.
      cbn [andb negb orb] in Hf. rewrite orb_false_r in Hf.
      unfold sameConfig in Hf. destruct (configId parsed) as [b|];
        [|discriminate]. now rewrite String.eqb_refl in Hf.
Qed.

Lemma entered_key_is_kept_witness :
  let first :=
    ensureApiKey (fun s => s) (Some " sk-1 ") [] false (Some "openai") in
  apiKey first = Some "sk-1" /\
  ensureApiKey (fun s => s) None (secrets first) false (Some "openai")
  = {| apiKey := Some "sk-1";
       secrets := [("oaicopilot.apiKey.openai", "sk-1")];
       prompted := None |}.
Proof.
  cbv zeta.
  exact (entered_key_is_kept (fun s => s) [] false (Some "openai") " sk-1 "
           None (ex_intro _ "API Key for openai" eq_refl) eq_refl).
Defined.

Lemma endpoint_without_double_slash_witness :
  endpoint "https://api.example.com/v1//"
  = Some "https://api.example.com/v1/chat/completions" /\
  exists stem k,
    "https://api.example.com/v1//" = stem ++ repeatChar "/" k /\
    endsWithSlash stem = false /\
    "https://api.example.com/v1/chat/completions"
    = stem ++ "/chat/completions".
Proof.
  split; [reflexivity|].
  exact (proj2 (endpoint_without_double_slash "https://api.example.com/v1//")
           _ eq_refl).
Defined.

(** Of two entries with the identifier of the request, the one with the
    configuration of the request is found, not the first. *)
Lemma model_lookup_witness :
  let userModels :=
    [{| item_id := "m"; item_configId := None |};
     {| item_id := "m"; item_configId := Some "fast" |}] in
  exists um,
    findModel userModels {| baseId := "m"; configId := Some "fast" |}
    = Some um /\
    item_configId um = Some "fast".
Proof.
  exact (proj2 (proj2 (model_lookup
                         [{| item_id := "m"; item_configId := None |};
                          {| item_id := "m"; item_configId := Some "fast" |}]
                         {| baseId := "m"; configId := Some "fast" |}))
           {| item_id := "m"; item_configId := Some "fast" |}
           (or_intror (or_introl eq_refl)) eq_refl eq_refl eq_refl).
Defined.

End RequestFacts.

(** ** The body of the request *)

Module BodyFacts.
Import JSString JSStringFacts Json OrderedMap OrderedMapFacts Body.

Lemma get_set (k j : string) (v : json) (m : Body) :
  get String.eqb k (set String.eqb j v m)
  = if String.eqb k j then Some v else get String.eqb k m.
Proof.
  induction m as [|[i w] r IH]; cbn [set get].
  - reflexivity.
  - destruct (String.eqb j i) eqn:E; cbn [get].
    + apply String.eqb_eq in E. subst i. now destruct (String.eqb k j).
    + destruct (String.eqb k i) eqn:E2.
      * apply String.eqb_eq in E2. subst i.
        now rewrite String.eqb_sym, E.
      * exact IH.
Qed.

Lemma get_delete_name (k j : string) (m : Body) :
  String.eqb k j = false ->
  get String.eqb k (delete String.eqb j m) = get String.eqb k m.
Proof.
  intro Hne. induction m as [|[i w] r IH]; cbn [delete get]; [reflexivity|].
  destruct (String.eqb j i) eqn:E.
  - apply String.eqb_eq in E. subst i. now rewrite Hne.
  - cbn [get]. destruct (String.eqb k i); [reflexivity | exact IH].
Qed.

Lemma get_delete_same (k : string) (m : Body) :
  NoDup (map fst m) -> get String.eqb k (delete String.eqb k m) = None.
Proof.
  intro H. apply (get_None_notin String.eqb string_eqb_spec).
  intro Hin.
  apply (keys_delete String.eqb string_eqb_spec k k m H) in Hin.
  now destruct Hin.
Qed.

Lemma get_setIf (k name : string) (v : option json) (rb : Body) :
  String.eqb k name = false ->
  get String.eqb k (setIf name v rb) = get String.eqb k rb.
Proof. intro H. destruct v; cbn [setIf]; [|reflexivity]. now rewrite get_set, H. Qed.

Lemma get_setIfTruthy (k name : string) (v : option json) (rb : Body) :
  String.eqb k name = false ->
  get String.eqb k (setIfTruthy name v rb) = get String.eqb k rb.
Proof.
  intro H. unfold setIfTruthy. destruct v as [x|]; [|reflexivity].
  destruct (jsTruthy x); [|reflexivity]. now rewrite get_set, H.
Qed.

Lemma get_deleteIfNull (k name : string) (v : option json) (rb : Body) :
  String.eqb k name = false ->
  get String.eqb k (deleteIfNull name v rb) = get String.eqb k rb.
Proof.
  intro H. unfold deleteIfNull. destruct v as [[]|]; try reflexivity.
  now apply get_delete_name.
Qed.

Lemma get_setThinkingSwitch (k : string) (um : option UserModel) (rb : Body) :
  String.eqb k "enable_thinking" = false ->
  String.eqb k "thinking_budget" = false ->
  get String.eqb k (setThinkingSwitch um rb) = get String.eqb k rb.
Proof.
  intros H1 H2. unfold setThinkingSwitch.
  destruct (umField um um_enable_thinking); [|reflexivity].
  now rewrite get_setIf, get_set, H1.
Qed.

Lemma get_setThinking (k : string) (um : option UserModel) (rb : Body) :
  String.eqb k "thinking" = false ->
  get String.eqb k (setThinking um rb) = get String.eqb k rb.
Proof.
  intro H. unfold setThinking.
  destruct (umField um um_thinking) as [t|]; [|reflexivity].
  destruct (property "type" t); [|reflexivity]. now rewrite get_set, H.
Qed.

Lemma get_setReasoning (k : string) (um : option UserModel) (rb rb' : Body) :
  String.eqb k "reasoning" = false ->
  setReasoning um rb = Some rb' ->
  get String.eqb k rb' = get String.eqb k rb.
Proof.
  intros H. unfold setReasoning.
  destruct (umField um um_reasoning) as [r|]; [|congruence].
  destruct r; try discriminate;
    destruct (property "enabled" _) as [[| [|] | | | |]|]; intro E;
    inversion E; subst rb'; rewrite ?get_set, ?H; reflexivity.
Qed.

Lemma get_setStop (k : string) (mo : option ModelOptions) (rb : Body) :
  String.eqb k "stop" = false ->
  get String.eqb k (setStop mo rb) = get String.eqb k rb.
Proof.
  intro H. unfold setStop. destruct mo as [mo|]; [|reflexivity].
  destruct (mo_stop mo) as [[]|]; rewrite ?get_set, ?H; reflexivity.
Qed.

Lemma get_fold_set_other (k : string) (es : list (string * json)) :
  forall rb,
    ~ In k (map fst es) ->
    get String.eqb k
      (fold_left (fun acc e => set String.eqb (fst e) (snd e) acc) es rb)
    = get String.eqb k rb.
Proof.
  induction es as [|[j v] es IH]; intros rb Hk; cbn [fold_left];
    [reflexivity|].
  cbn [map fst In] in Hk. rewrite IH by tauto. cbn [fst snd].
  rewrite get_set.
  destruct (String.eqb k j) eqn:E; [|reflexivity].
  apply String.eqb_eq in E. subst j. tauto.
Qed.


Ltac other Hk :=
  apply String.eqb_neq; intro; subst; apply Hk; cbn; tauto.

(** Property X19.  [prepareRequestBody] keeps what the body holds under
    every name that is neither one of the seventeen it writes nor a
    member of [extra]. *)
Theorem unwritten_names_kept (rb b : Body) (um : option UserModel)
  (modelOptions : option ModelOptions) (toolConfig : ToolConfig) (k : string) :
  prepareRequestBody rb um modelOptions toolConfig = Some b ->
  ~ In k writtenNames -> ~ In k (map fst (extraEntries um)) ->
  get String.eqb k b = get String.eqb k rb.
Proof.
  intros H Hk Hextra. unfold prepareRequestBody in H.
  destruct (setReasoning um _) as [rb10|] eqn:E; [|discriminate].
  inversion H; subst b. clear H. unfold setExtra.
  rewrite get_fold_set_other by assumption.
  rewrite !get_setIf, !get_setIfTruthy, get_setStop by other Hk.
  rewrite (get_setReasoning k um _ _ ltac:(other Hk) E).
  rewrite get_setThinking, get_setThinkingSwitch, !get_setIf,
    !get_deleteIfNull, !get_set by other Hk.
  replace (String.eqb k "top_p") with false by (symmetry; other Hk).
  replace (String.eqb k "temperature") with false by (symmetry; other Hk).
  reflexivity.
Qed.


(** Property X21.  For a body that holds each name once and an [extra]
    without a temperature, the temperature sent is that of the settings
    of the model, else that of the options of the request, else 0; a
    temperature of [null] in the settings sends none. *)
Theorem temperature_sent (rb b : Body) (um : option UserModel)
  (modelOptions : option ModelOptions) (toolConfig : ToolConfig) :
  prepareRequestBody rb um modelOptions toolConfig = Some b ->
  NoDup (map fst rb) ->
  ~ In "temperature" (map fst (extraEntries um)) ->
  get String.eqb "temperature" b
  = match umField um um_temperature with
    | Some JNull => None
    | Some v => Some v
    | None =>
        Some (orDefault (match modelOptions with
                         | Some mo => mo_temperature mo
                         | None => None
                         end) (JNumber "0"))
    end.
Proof.
  intros H Hnd Hextra. unfold prepareRequestBody in H.
  destruct (setReasoning um _) as [rb10|] eqn:E; [|discriminate].
  inversion H; subst b. clear H. unfold setExtra.
  rewrite get_fold_set_other by assumption.
  rewrite !get_setIf, !get_setIfTruthy, get_setStop by reflexivity.
  rewrite (get_setReasoning "temperature" um _ _ eq_refl E).
  rewrite get_setThinking, get_setThinkingSwitch, !get_setIf,
    get_deleteIfNull by reflexivity.
  unfold deleteIfNull.
  destruct (umField um um_temperature) as [t|].
  - destruct t; cbn [orDefault]; rewrite ?get_set; try reflexivity.
    apply get_delete_same.
    now repeat apply (NoDup_set String.eqb string_eqb_spec).
  - cbn [orDefault]. now rewrite !get_set.
Qed.

(** Property X22.  [prepareRequestBody] fails exactly on a [reasoning]
    setting that is [null].  A [reasoning] setting that is not switched
    off, when [extra] has no member of this name, sends an object that names an effort, truthy and not ["auto"], or
    else a budget of tokens that is never zero, and never both. *)
Theorem reasoning_sent (rb : Body) (um : option UserModel)
  (modelOptions : option ModelOptions) (toolConfig : ToolConfig) :
  (prepareRequestBody rb um modelOptions toolConfig = None
   <-> umField um um_reasoning = Some JNull) /\
  forall b r,
    prepareRequestBody rb um modelOptions toolConfig = Some b ->
    umField um um_reasoning = Some r ->
    property "enabled" r <> Some (JBool false) ->
    ~ In "reasoning" (map fst (extraEntries um)) ->
    exists members,
      get String.eqb "reasoning" b = Some (JObject members) /\
      ((exists effort,
          get String.eqb "effort" members = Some effort /\
          usableEffort (Some effort) = true /\
          get String.eqb "max_tokens" members = None) \/
       (exists budget,
          get String.eqb "max_tokens" members = Some budget /\
          jsTruthy budget = true /\
          get String.eqb "effort" members = None)).
Proof.
  split.
  - unfold prepareRequestBody, setReasoning.
    destruct (umField um um_reasoning) as [r|].
    + destruct r; try (split; [reflexivity | reflexivity]);
        destruct (property "enabled" _) as [[| [|] | | | |]|];
        split; intro H; discriminate.
    + split; discriminate.
  - intros b r H Hr Hen Hextra. unfold prepareRequestBody in H.
    destruct (setReasoning um _) as [rb10|] eqn:E; [|discriminate].
    inversion H; subst b. clear H. unfold setExtra.
    rewrite get_fold_set_other by assumption.
    rewrite !get_setIf, !get_setIfTruthy, get_setStop by reflexivity.
    unfold setReasoning in E. rewrite Hr in E.
    assert (E' : rb10 = set String.eqb "reasoning" (reasoningObject r)
                          (setThinking um (setThinkingSwitch um
                             (setIf "reasoning_effort"
                                (umField um um_reasoning_effort)
                                (setIf "max_completion_tokens"
                                   (umField um um_max_completion_tokens)
                                   (setIf "max_tokens"
                                      (umField um um_max_tokens)
                                      (deleteIfNull "top_p"
                                         (umField um um_top_p)
                                         (deleteIfNull "temperature"
                                            (umField um um_temperature)
                                            (set String.eqb "top_p"
                                               (orDefault (umField um um_top_p)
                                                  (orDefault
                                                     match modelOptions with
                                                     | Some mo => mo_top_p mo
                                                     | None => None
                                                     end (JNumber "1")))
                                               (set String.eqb "temperature"
                                                  (orDefault
                                                     (umField um um_temperature)
                                                     (orDefault
                                                        match modelOptions with
                                                        | Some mo =>
                                                            mo_temperature mo
                                                        | None => None
                                                        end (JNumber "0")))
                                                  rb)))))))))).
    { destruct r; try discriminate;
        destruct (property "enabled" _) as [[| [|] | | | |]|];
        try congruence. }
    clear E. subst rb10. rewrite get_set. cbn [String.eqb Ascii.eqb Bool.eqb andb].
    unfold reasoningObject.
    eexists. split; [reflexivity|].
    destruct (property "effort" r) as [effort|] eqn:Ee.
    + destruct (usableEffort (Some effort)) eqn:Eu.
      * left. exists effort. rewrite !get_setIf by reflexivity.
        cbn. auto.
      * right. eexists. rewrite !get_setIf by reflexivity.
        cbn [get String.eqb Ascii.eqb Bool.eqb andb].
        split; [reflexivity|]. split; [|reflexivity].
        destruct (property "max_tokens" r) as [v|]; [|reflexivity].
        destruct (jsTruthy v) eqn:Tv; [assumption | reflexivity].
    + right. cbn [usableEffort]. eexists. rewrite !get_setIf by reflexivity.
      cbn [get String.eqb Ascii.eqb Bool.eqb andb].
      split; [reflexivity|]. split; [|reflexivity].
      destruct (property "max_tokens" r) as [v|]; [|reflexivity].
      destruct (jsTruthy v) eqn:Tv; [assumption | reflexivity].
Qed.

Lemma unwritten_names_kept_witness :
  let rb := [("model", JString "m"); ("stream", JBool true)] in
  exists b,
    prepareRequestBody rb
      (Some (modelWith (Some JNull) None
               (Some (JObject [("seed", JNumber "7")]))))
      None {| tools := None; tool_choice := None |} = Some b /\
    get String.eqb "model" b = Some (JString "m").
Proof.
  cbv zeta. eexists. split; [reflexivity|].
  refine (unwritten_names_kept
            [("model", JString "m"); ("stream", JBool true)] _
            (Some (modelWith (Some JNull) None
                     (Some (JObject [("seed", JNumber "7")]))))
            None {| tools := None; tool_choice := None |} "model"
            eq_refl _ _).
  - intro H. repeat (destruct H as [H|H]; [discriminate|]). exact H.
  - intro H. repeat (destruct H as [H|H]; [discriminate|]). exact H.
Defined.


(** A temperature of [null] in the settings sends none. *)
Lemma temperature_sent_witness :
  exists b,
    prepareRequestBody [("model", JString "m")]
      (Some (modelWith (Some JNull) None None))
      (Some {| mo_temperature := Some (JNumber "0.7"); mo_top_p := None;
               mo_stop := None |})
      {| tools := None; tool_choice := None |} = Some b /\
    get String.eqb "temperature" b = None.
Proof.
  eexists. split; [reflexivity|].
  refine (temperature_sent [("model", JString "m")] _
            (Some (modelWith (Some JNull) None None))
            (Some {| mo_temperature := Some (JNumber "0.7");
                     mo_top_p := None; mo_stop := None |})
            {| tools := None; tool_choice := None |} eq_refl _ _).
  - repeat constructor. intros [].
  - intros [].
Defined.

(** An effort of ["auto"] and a budget of zero send the budget of 2000
    tokens. *)
Lemma reasoning_sent_witness :
  let r := JObject [("effort", JString "auto"); ("max_tokens", JNumber "0")] in
  exists b,
    prepareRequestBody [("model", JString "m")]
      (Some (modelWith None (Some r) None)) None
      {| tools := None; tool_choice := None |} = Some b /\
    get String.eqb "reasoning" b
    = Some (JObject [("max_tokens", JNumber "2000")]) /\
    exists members,
      get String.eqb "reasoning" b = Some (JObject members) /\
      ((exists effort,
          get String.eqb "effort" members = Some effort /\
          usableEffort (Some effort) = true /\
          get String.eqb "max_tokens" members = None) \/
       (exists budget,
          get String.eqb "max_tokens" members = Some budget /\
          jsTruthy budget = true /\
          get String.eqb "effort" members = None)).
Proof.
  cbv zeta. eexists. split; [reflexivity|]. split; [reflexivity|].
  refine (proj2 (reasoning_sent [("model", JString "m")]
                   (Some (modelWith None
                            (Some (JObject [("effort", JString "auto");
                                            ("max_tokens", JNumber "0")]))
                            None))
                   None {| tools := None; tool_choice := None |})
            _ (JObject [("effort", JString "auto");
                        ("max_tokens", JNumber "0")]) eq_refl eq_refl _ _).
  - discriminate.
  - intros [].
Defined.

End BodyFacts.

(** ** The revision that coalesces, on whole streams *)

Module CoalescerStreamFacts.
Import JSString JSStringFacts Json Host OrderedMap OrderedMapFacts.
Import Coalescer CoalescerFacts Streams CoalescerViews SearchFacts.

Section Facts.
Variable tryParseJSONObject : string -> option json.
Variable stringify : json -> string.
Variable random : nat -> string.

Lemma thinkingText_app (a b : list LanguageModelResponsePart) :
  thinkingText (a ++ b) = thinkingText a ++ thinkingText b.
Proof.
  induction a as [|[v|v i m|c n j] a IH]; cbn [app thinkingText];
    [reflexivity | assumption | | assumption].
  now rewrite IH, append_assoc.
Qed.

Lemma thinkingText_pendingFlush (id : option string) (s : State) :
  thinkingText (pendingFlush id s) = _reasoningTextBuffer s.
Proof.
  unfold pendingFlush.
  destruct (0 <? String.length (_reasoningTextBuffer s)) eqn:E.
  - cbn. now rewrite append_nil_r.
  - apply Nat.ltb_ge in E. symmetry. apply length_zero. lia.
Qed.

(** What is reported and what is buffered, together, grow by the text of
    the entry; the tool-call buffers are not touched. *)
Lemma processDetail_text (s : State) (d : ReasoningDetail) :
  let s' := fst (processDetail random s d) in
  thinkingText (reported s') ++ _reasoningTextBuffer s'
  = (thinkingText (reported s) ++ _reasoningTextBuffer s) ++ detailText d /\
  _toolCallBuffers s' = _toolCallBuffers s.
Proof.
  cbv zeta. unfold detailText.
  destruct (extract d) as [[text signature] isSimpleText] eqn:Hex.
  cbn [fst].
  destruct (isSimpleText && negb (truthyOpt signature)) eqn:Hkind.
  - unfold processDetail. rewrite Hex, Hkind.
    cbn [set_reasoning _reasoningTextBuffer _currentResponseReasoningDetails].
    match goal with
    | |- context [flushReasoningBuffer random ?x] => set (s1 := x)
    end.
    destruct (4000 <? String.length (_reasoningTextBuffer s ++ text)); cbn [fst].
    + destruct (flushReasoningBuffer_fields random s1) as (F1 & F2 & F3 & _).
      rewrite F1, F2, F3, thinkingText_app, thinkingText_pendingFlush.
      split; [|reflexivity]. cbn [s1 _reasoningTextBuffer set_reasoning reported].
      now rewrite append_nil_r, append_assoc.
    + split; [|reflexivity]. cbn. now rewrite append_assoc.
  - pose proof (processDetail_flushes random s d) as H. rewrite Hex in H.
    destruct (H Hkind) as (R & B).
    split.
    + rewrite R, B, !thinkingText_app, thinkingText_pendingFlush.
      rewrite append_nil_r, append_assoc. f_equal. f_equal.
      destruct (truthy text || truthyOpt signature) eqn:E.
      * cbn. now rewrite append_nil_r.
      * apply orb_false_elim in E. destruct E as [E _].
        destruct text; [reflexivity | discriminate].
    + unfold processDetail. rewrite Hex, Hkind.
      set (s0 := set_reasoning _ _ s).
      destruct (flushReasoningBuffer_fields random s0) as (_ & _ & F3 & _).
      destruct (0 <? String.length (_reasoningTextBuffer s0));
        destruct (truthy text || truthyOpt signature); cbn [fst].
      * destruct (ensureThinkingId_fields random (flushReasoningBuffer random s0))
          as (_ & _ & E3 & _).
        cbn [_toolCallBuffers report]. now rewrite E3, F3.
      * now rewrite F3.
      * destruct (ensureThinkingId_fields random s0) as (_ & _ & E3 & _).
        cbn [_toolCallBuffers report]. now rewrite E3.
      * reflexivity.
Qed.

Lemma processDetails_text (ds : list ReasoningDetail) :
  forall s,
    let s' := fst (processDetails random s ds) in
    thinkingText (reported s') ++ _reasoningTextBuffer s'
    = (thinkingText (reported s) ++ _reasoningTextBuffer s)
      ++ join (map detailText ds) /\
    _toolCallBuffers s' = _toolCallBuffers s.
Proof.
  induction ds as [|d r IH]; intros s; cbn [processDetails map join].
  - cbn [fst]. now rewrite append_nil_r.
  - destruct (processDetail_text s d) as (H1 & H2).
    destruct (processDetail random s d) as [s1 e1]. cbn [fst] in *.
    destruct (IH s1) as (I1 & I2).
    destruct (processDetails random s1 r) as [s2 e2]. cbn [fst] in *.
    rewrite I1, H1, I2, H2, !append_assoc. now split.
Qed.

Lemma processDelta_reasoning (s : State) (ds : list ReasoningDetail) :
  fst (processDelta tryParseJSONObject stringify random s (reasoningDelta ds))
  = fst (processDetails random s (sortDetails ds)).
Proof.
  unfold processDelta, reasoningDelta, choiceOf. cbn [choices].
  unfold processReasoning, field. cbn [c_delta c_thinking c_reasoning_details
    c_finish_reason d_reasoning_details d_thinking d_reasoning_content
    d_reasoning d_content d_tool_calls orElse].
  destruct ds as [|d r].
  - reflexivity.
  - destruct (processDetails random s (sortDetails (d :: r))) as [s1 e1].
    reflexivity.
Qed.

(** Property X23.  The revision that coalesces: over a stream of reasoning
    details closed by [[DONE]], the values of the thinking parts reported,
    joined, are the texts of the details joined in the order processed;
    buffering loses nothing and moves nothing. *)
Theorem reasoning_text_conserved (dss : list (list ReasoningDetail)) :
  thinkingText
    (reported (processStreamingResponse tryParseJSONObject stringify random
                 init (reasoningLines dss ++ [Done])%list))
  = join (map (fun ds => join (map detailText (sortDetails ds))) dss).
Proof.
  assert (G : forall s,
    _toolCallBuffers s = [] ->
    thinkingText
      (reported (processStreamingResponse tryParseJSONObject stringify random
                   s (reasoningLines dss ++ [Done])%list))
    = (thinkingText (reported s) ++ _reasoningTextBuffer s)
      ++ join (map (fun ds => join (map detailText (sortDetails ds))) dss)).
  { induction dss as [|ds rest IH]; intros s Hb;
      cbn [reasoningLines map app processStreamingResponse join].
    - rewrite reported_finally. unfold done.
      rewrite flushToolCallBuffers_none by assumption.
      destruct (flushReasoningBuffer_fields random s) as (F1 & _).
      destruct (closeActiveThinking_fields (flushReasoningBuffer random s))
        as (C1 & _).
      destruct (closeActiveThinking_fields
                  (closeActiveThinking (flushReasoningBuffer random s)))
        as (D1 & _).
      rewrite D1, C1, F1, !thinkingText_app, thinkingText_pendingFlush.
      rewrite !append_nil_r.
      repeat match goal with
      | |- context [if ?b then _ else _] => destruct b
      end; cbn [thinkingText append]; now rewrite ?append_nil_r.
    - fold (reasoningLines rest). rewrite processDelta_reasoning.
      destruct (processDetails_text (sortDetails ds) s) as (H1 & H2).
      rewrite IH by (now rewrite H2).
      now rewrite H1, append_assoc. }
  now rewrite G.
Qed.

Lemma Coalescer_processDelta_content (s : State) (c : string) :
  fst (processDelta tryParseJSONObject stringify random s (contentDelta c))
  = if truthy c then fst (processContent random s c) else s.
Proof.
  unfold processDelta, contentDelta, choiceOf. cbn [choices].
  unfold processReasoning, field. cbn [c_delta c_thinking c_reasoning_details
    c_finish_reason d_reasoning_details d_thinking d_reasoning_content
    d_reasoning d_content d_tool_calls orElse].
  destruct (truthy c); [|reflexivity].
  destruct (processContent random s c) as [s3 e3]. reflexivity.
Qed.

Lemma truthy_positive (c : string) :
  truthy c = true ->
  (String.length c =? 0) = false /\ (0 <? String.length c) = true.
Proof. destruct c; [discriminate | split; reflexivity]. Qed.

Lemma Coalescer_processContent_plain (s : State) (c : string) :
  _xmlThinkActive s = false -> _currentThinkingId s = None ->
  _xmlThinkDetectionAttempted s = true \/ indexOf THINK_START c = None ->
  truthy c = true ->
  let s' := fst (processContent random s c) in
  reported s' = (reported s ++ [LanguageModelTextPart c])%list /\
  _xmlThinkActive s' = false /\ _currentThinkingId s' = None /\
  _xmlThinkDetectionAttempted s' = true /\
  _reasoningTextBuffer s' = _reasoningTextBuffer s /\
  _toolCallBuffers s' = _toolCallBuffers s.
Proof.
  intros Ha Hid Hgate Hc. cbv zeta.
  destruct (truthy_positive c Hc) as [L0 L1].
  unfold processContent, processXmlThinkBlocks. rewrite Ha. cbn [negb].
  destruct (_xmlThinkDetectionAttempted s) eqn:Hatt; cbn [andb].
  - rewrite L1, Hid. cbn [truthyOpt]. rewrite andb_false_r.
    unfold processTextContent. rewrite Hc. cbn. now rewrite Ha, Hid, Hatt.
  - destruct Hgate as [Hf|Hnone]; [discriminate|].
    cbn [xmlLoop]. rewrite L0, Ha. cbn [negb].
    rewrite Hnone. cbn [append]. rewrite L1.
    cbn [set_think _currentThinkingId]. rewrite Hid.
    cbn [truthyOpt]. rewrite andb_false_r.
    unfold processTextContent. rewrite Hc. cbn. auto 6.
Qed.

Lemma Coalescer_plain_fragments (fs : list string) (rest : list StreamLine) :
  forall s,
    _xmlThinkActive s = false -> _currentThinkingId s = None ->
    _xmlThinkDetectionAttempted s = true \/ startsPlain fs ->
    exists s',
      processStreamingResponse tryParseJSONObject stringify random s
        (contentLines fs ++ rest)%list
      = processStreamingResponse tryParseJSONObject stringify random s' rest /\
      reported s'
      = (reported s ++ map LanguageModelTextPart (filter truthy fs))%list /\
      _currentThinkingId s' = None /\
      _reasoningTextBuffer s' = _reasoningTextBuffer s /\
      _toolCallBuffers s' = _toolCallBuffers s.
Proof.
  induction fs as [|f fs IH]; intros s Ha Hid Hgate;
    cbn [contentLines map app filter processStreamingResponse].
  - exists s. now rewrite app_nil_r.
  - fold (contentLines fs). rewrite Coalescer_processDelta_content.
    destruct (truthy f) eqn:Hf.
    + assert (Hg : _xmlThinkDetectionAttempted s = true
                   \/ indexOf THINK_START f = None).
      { destruct Hgate as [H|H]; [now left | right].
        unfold startsPlain in H. cbn [filter] in H. now rewrite Hf in H. }
      destruct (Coalescer_processContent_plain s f Ha Hid Hg Hf)
        as (R & A & I & T & B & TB).
      destruct (IH (fst (processContent random s f)) A I (or_introl T))
        as (s' & E & R' & I' & B' & TB').
      exists s'. split; [assumption|].
      rewrite R', R, <- app_assoc. cbn [map app]. repeat split; congruence.
    + apply IH; try assumption.
      destruct Hgate as [H|H]; [now left | right].
      unfold startsPlain in *. cbn [filter] in H. now rewrite Hf in H.
Qed.

(** Property X25.  The revision that coalesces: when the first content
    fragment that is not empty holds no opening think tag, the stream
    closed by [[DONE]] reports every fragment that is not empty as a text
    part, unchanged and in order, and nothing else. *)
Theorem plain_content_verbatim_coalescer (fragments : list string) :
  startsPlain fragments ->
  reported (processStreamingResponse tryParseJSONObject stringify random init
              (contentLines fragments ++ [Done])%list)
  = map LanguageModelTextPart (filter truthy fragments).
Proof.
  intro H.
  destruct (Coalescer_plain_fragments fragments [Done] init eq_refl eq_refl (or_intror H))
    as (s' & E & R & I & B & TB).
  rewrite E. cbn [processStreamingResponse].
  rewrite reported_finally. unfold done.
  rewrite flushToolCallBuffers_none by (now rewrite TB).
  assert (F : flushReasoningBuffer random s' = s').
  { unfold flushReasoningBuffer. now rewrite B. }
  rewrite F, !(closeActiveThinking_idle s' I).
  now rewrite R.
Qed.

(** Property X24.  The revision that coalesces: while unsigned plain
    reasoning text arrives, every thinking part reported is longer than
    4000 characters and the buffer is left with at most 4000, so that the
    number of parts is at most the length of the text divided by 4001. *)
Theorem coalesced_parts_large (texts : list string) :
  let s := fst (processDetails random init (map plainText texts)) in
  Forall largeThinking (reported s) /\
  String.length (_reasoningTextBuffer s) <= 4000 /\
  4001 * List.length (reported s) <= String.length (join texts).
Proof.
  assert (G : forall s,
    Forall largeThinking (reported s) ->
    String.length (_reasoningTextBuffer s) <= 4000 ->
    let s' := fst (processDetails random s (map plainText texts)) in
    Forall largeThinking (reported s') /\
    String.length (_reasoningTextBuffer s') <= 4000 /\
    4001 * List.length (reported s') + String.length (_reasoningTextBuffer s')
    <= 4001 * List.length (reported s) + String.length (_reasoningTextBuffer s)
       + String.length (join texts)).
  { induction texts as [|t r IH]; intros s HF HB; cbn [map processDetails join].
    - cbn [fst]. repeat split; [assumption | assumption | cbn; lia].
    - rewrite processDetail_unsigned. cbv zeta.
      destruct (4000 <? String.length (_reasoningTextBuffer s ++ t)) eqn:E.
      + match goal with
        | |- context [flushReasoningBuffer random ?x] => set (s1 := x)
        end.
        destruct (flushReasoningBuffer_fields random s1) as (F1 & F2 & _).
        assert (P : pendingFlush
                      (_currentThinkingId (flushReasoningBuffer random s1)) s1
                    = [LanguageModelThinkingPart (_reasoningTextBuffer s ++ t)
                         (_currentThinkingId (flushReasoningBuffer random s1))
                         (Some flushMetadata)]).
        { unfold pendingFlush.
          change (_reasoningTextBuffer s1) with (_reasoningTextBuffer s ++ t).
          apply Nat.ltb_lt in E.
          replace (0 <? String.length (_reasoningTextBuffer s ++ t)) with true;
            [reflexivity|]. symmetry. apply Nat.ltb_lt. lia. }
        rewrite P in F1. change (reported s1) with (reported s) in F1.
        destruct (IH (flushReasoningBuffer random s1)) as (I1 & I2 & I3).
        { rewrite F1. apply Forall_app. split; [assumption|].
          repeat constructor. cbn. now apply Nat.ltb_lt in E. }
        { rewrite F2. cbn. lia. }
        destruct (processDetails random (flushReasoningBuffer random s1)
                    (map plainText r)) as [s2 e2].
        cbn [fst] in *. split; [assumption|]. split; [assumption|].
        rewrite F1, F2, length_app in I3. cbn [List.length String.length] in I3.
        apply Nat.ltb_lt in E. rewrite !length_append in *. lia.
      + match goal with
        | |- context [processDetails random ?x] => set (s1 := x)
        end.
        apply Nat.ltb_ge in E.
        destruct (IH s1) as (I1 & I2 & I3); [assumption | exact E |].
        destruct (processDetails random s1 (map plainText r)) as [s2 e2].
        cbn [fst] in *. split; [assumption|]. split; [assumption|].
        change (reported s1) with (reported s) in I3.
        change (_reasoningTextBuffer s1) with (_reasoningTextBuffer s ++ t) in I3.
        rewrite !length_append in *. lia. }
  cbv zeta. destruct (G init) as (H1 & H2 & H3); [constructor | cbn; lia |].
  cbn [reported init List.length _reasoningTextBuffer String.length] in H3.
  repeat split; [assumption | assumption | lia].
Qed.

(** Property X26.  The revision that coalesces: a content fragment that
    holds one whole think block, met before any fragment was searched,
    reports the thought as a thinking part under a new identifier, the
    empty thinking part that closes it, and then the text before and
    after the block, joined, as one text part. *)
Theorem think_block_reported_coalescer (s : State)
  (before thought after : string) :
  _xmlThinkActive s = false -> _xmlThinkDetectionAttempted s = false ->
  indexOf THINK_START (before ++ THINK_START) = Some (String.length before) ->
  indexOf THINK_END (thought ++ THINK_END) = Some (String.length thought) ->
  indexOf THINK_START after = None ->
  let s' := fst (processContent random s (thinkBlock before thought after)) in
  let id := Some ("thinking_" ++ random (draws s)) in
  reported s'
  = (reported s
     ++ [LanguageModelThinkingPart thought id None;
         LanguageModelThinkingPart "" id None]
     ++ (if truthy (before ++ after)
         then [LanguageModelTextPart (before ++ after)] else []))%list /\
  _xmlThinkActive s' = false /\ _currentThinkingId s' = None.
Proof.
  intros Ha Hatt Hstart Hend Hafter. cbv zeta.
  unfold processContent, processXmlThinkBlocks, thinkBlock.
  rewrite Ha, Hatt. cbn [andb negb].
  change "<think>" with THINK_START. change "</think>" with THINK_END.
  set (content := before ++ THINK_START ++ thought ++ THINK_END ++ after).
  assert (Hlen : S (String.length content)
                 = S (S (S (String.length before + String.length thought
                            + String.length after + 13)))).
  { unfold content. rewrite !length_append. cbn. lia. }
  rewrite Hlen. cbn [xmlLoop].
  rewrite length_nonzero by (unfold content; rewrite !length_append; cbn; lia).
  rewrite Ha. cbn [negb]. unfold content.
  rewrite (found_at _ _ _ Hstart), drop_beyond, take_length_app.
  unfold generateThinkingId.
  cbn [set_think set_misc _xmlThinkActive _xmlThinkDetectionAttempted
       _currentThinkingId negb append].
  rewrite length_nonzero by (rewrite !length_append; cbn; lia).
  rewrite (found_at _ _ _ Hend), drop_beyond, take_length_app.
  unfold ensureThinkingId, closeActiveThinking, set_thinkingId.
  cbn [set_think set_misc report _xmlThinkActive _xmlThinkDetectionAttempted
       _currentThinkingId truthyOpt truthy append THINK_START negb].
  destruct after as [|c r].
  - cbn [String.length Nat.eqb]. rewrite append_nil_r.
    destruct before as [|b0 br].
    + cbn. rewrite <- ?app_assoc. auto.
    + cbn. rewrite ?andb_false_r. cbn. rewrite <- ?app_assoc. auto.
  - cbn [String.length Nat.eqb].
    cbn [set_think report _xmlThinkActive negb].
    rewrite Hafter.
    assert (Hp : (0 <? String.length (before ++ String c r)) = true).
    { apply Nat.ltb_lt. rewrite length_append. cbn. lia. }
    rewrite Hp.
    assert (Htr : truthy (before ++ String c r) = true)
      by (destruct before; reflexivity).
    unfold processTextContent. rewrite Htr.
    cbn. rewrite ?andb_false_r. cbn. rewrite <- ?app_assoc. auto.
Qed.

End Facts.

Lemma plain_content_verbatim_coalescer_witness :
  reported (processStreamingResponse Json.tryParseJSONObject Json.stringify
              (fun _ => "x") init
              (contentLines ["Hello"; ""; " <think>world"] ++ [Done])%list)
  = [LanguageModelTextPart "Hello"; LanguageModelTextPart " <think>world"].
Proof.
  exact (plain_content_verbatim_coalescer Json.tryParseJSONObject
           Json.stringify (fun _ => "x") ["Hello"; ""; " <think>world"]
           eq_refl).
Defined.

Lemma think_block_reported_coalescer_witness :
  reported (fst (processContent (fun _ => "x") init
                   (thinkBlock "Sure. " "plan" " Hi")))
  = [LanguageModelThinkingPart "plan" (Some "thinking_x") None;
     LanguageModelThinkingPart "" (Some "thinking_x") None;
     LanguageModelTextPart "Sure.  Hi"].
Proof.
  exact (proj1 (think_block_reported_coalescer (fun _ => "x") init
                  "Sure. " "plan" " Hi" eq_refl eq_refl eq_refl eq_refl
                  eq_refl)).
Defined.

End CoalescerStreamFacts.
